(** * vector.py: the Vector class, embedded and checked against its specification

    The module under study is a single Python class, [Vector], a subclass of
    [tuple] whose methods do element-wise arithmetic and a little geometry.

    The embedding has two layers.

    - [Py] models the part of the Python 3 run time the class leans on:
      exceptions, the numeric tower (int, Fraction, float), the built-ins
      [len], [zip], [sum], [tuple], [abs], [isinstance(_, Sequence)] and the
      [math] functions.  Floats are IEEE binary64 values ([spec_float] with
      precision 53 and maximal exponent 1024, rounding to nearest even), so
      every operation is executable.
    - [Vector] transcribes the methods of the class one by one.

    The module imports [Sequence] from [collections], which CPython allows up
    to version 3.9; the built-ins are modelled as they are there ([sum] adds
    from the left, starting from the int 0).  The C library's [atan2],
    [acos], [sin] and [cos] have no closed form on doubles: they are
    parameters ([Libm], [Trig]) of the methods that call them.

    Scope of the value universe: scalars (None, int, Fraction, float), str,
    tuple, list and generator objects.  A Vector is a separate kind of object:
    it may be an operand of a method, it is never an element of a container
    or an argument of the constructor. *)

From Stdlib Require Import ZArith QArith Qround Qabs Qreduction.
From Stdlib Require Import List String Ascii Bool Lia Lqa.
From Stdlib Require Import SpecFloat DecimalString DecimalZ.
Import ListNotations.

Set Implicit Arguments.
Set Warnings "-register-all".

(* ================================================================== *)
(** * The host language *)
(* ================================================================== *)

Module Py.

(** ** Exceptions and outcomes *)

(** The exceptions that can leave a method of the class.
    [IncompatibleDimensions] is the exception class declared by vector.py
    itself; it is raised with the two lengths as arguments. *)
Inductive exn : Type :=
| IncompatibleDimensions (n m : nat)
| ValueError (msg : string)
| ZeroDivisionError
| TypeError
| OverflowError
| IndexError.

(** The outcome of evaluating an expression: a value or a raised exception. *)
Inductive result (A : Type) : Type :=
| Ok (a : A)
| Raise (e : exn).

Arguments Ok {A} a.
Arguments Raise {A} e.

Definition bind {A B : Type} (r : result A) (k : A -> result B) : result B :=
  match r with
  | Ok a => k a
  | Raise e => Raise e
  end.

Notation "x <- r ;; k" := (bind r (fun x => k))
  (at level 61, r at next level, right associativity).
Notation "' p <- r ;; k" := (bind r (fun x => match x with p => k end))
  (at level 61, p pattern, r at next level, right associativity).

Definition is_ok {A : Type} (r : result A) : bool :=
  match r with Ok _ => true | Raise _ => false end.

(** ** Floats: IEEE 754 binary64 *)

Definition prec : Z := 53.
Definition emax : Z := 1024.

Definition float : Type := spec_float.

Definition fadd : float -> float -> float := SFadd prec emax.
Definition fsub : float -> float -> float := SFsub prec emax.
Definition fmul : float -> float -> float := SFmul prec emax.
Definition fdiv : float -> float -> float := SFdiv prec emax.
Definition fsqrt : float -> float := SFsqrt prec emax.
Definition fabs : float -> float := SFabs.
Definition fnormalize (m e : Z) (szero : bool) : float :=
  binary_normalize prec emax m e szero.

Definition pzero : float := S754_zero false.
Definition fone : float := S754_finite false 4503599627370496 (-52).

Definition is_nan (f : float) : bool :=
  match f with S754_nan => true | _ => false end.
Definition is_inf (f : float) : bool :=
  match f with S754_infinity _ => true | _ => false end.
Definition is_fzero (f : float) : bool :=
  match f with S754_zero _ => true | _ => false end.
Definition is_finite (f : float) : bool :=
  match f with S754_zero _ | S754_finite _ _ _ => true | _ => false end.

(** The sign bit, as C's [copysign] and [signbit] read it ([false] for NaN:
    the NaN the model carries has no sign). *)
Definition signbit (f : float) : bool :=
  match f with
  | S754_zero s | S754_infinity s | S754_finite s _ _ => s
  | S754_nan => false
  end.

Definition copysign (x y : float) : float :=
  if Bool.eqb (signbit x) (signbit y) then x else SFopp x.

(** C's comparisons: false as soon as an operand is NaN. *)
Definition flt (x y : float) : bool := SFltb x y.
Definition fle (x y : float) : bool := SFleb x y.
Definition feq (x y : float) : bool := SFeqb x y.

(** [float(n)] for an int: the nearest double, ties to even; an int beyond
    the range of a double raises OverflowError. *)
Definition float_of_int (z : Z) : result float :=
  match fnormalize z 0 false with
  | S754_infinity _ => Raise OverflowError
  | f => Ok f
  end.

(** [a / b] on ints (true division): the correctly rounded quotient.  A zero
    numerator gives a zero whose sign is that of the quotient of the signs. *)
Definition int_truediv (a b : Z) : result float :=
  match b with
  | Z0 => Raise ZeroDivisionError
  | _ =>
    match a with
    | Z0 => Ok (S754_zero (b <? 0)%Z)
    | _ =>
      match fdiv (S754_finite (a <? 0)%Z (Z.to_pos (Z.abs a)) 0)
                 (S754_finite (b <? 0)%Z (Z.to_pos (Z.abs b)) 0) with
      | S754_infinity _ => Raise OverflowError
      | f => Ok f
      end
    end
  end.

(** [Fraction.__float__]: numerator / denominator, as ints. *)
Definition float_of_frac (q : Q) : result float :=
  int_truediv (Qnum q) (Zpos (Qden q)).

(** C's [fmod] on doubles.  The result is exact: both operands are brought
    to the smaller exponent and the remainder of the integer mantissas is
    taken; it carries the sign of [x]. *)
Definition fmod (x y : float) : float :=
  match x, y with
  | S754_nan, _ | _, S754_nan => S754_nan
  | S754_infinity _, _ => S754_nan
  | _, S754_zero _ => S754_nan
  | S754_zero _, _ => x
  | S754_finite _ _ _, S754_infinity _ => x
  | S754_finite sx mx ex, S754_finite _ my ey =>
    let e := Z.min ex ey in
    let X := Z.shiftl (Zpos mx) (ex - e) in
    let Y := Z.shiftl (Zpos my) (ey - e) in
    let R := Z.rem X Y in
    fnormalize (if sx then Z.opp R else R) e sx
  end.

(** C's [floor] on doubles. *)
Definition ffloor (x : float) : float :=
  match x with
  | S754_finite s m e =>
    if (0 <=? e)%Z then x
    else
      let n := Z.shiftr (if s then Zneg m else Zpos m) (Z.opp e) in
      fnormalize n 0 s
  | _ => x
  end.

(** C's truth value of a double: non-zero (NaN included). *)
Definition fnonzero (x : float) : bool := negb (is_fzero x).

(** CPython's [_float_div_mod], quotient part: the value of [vx // wx] for a
    non-zero [wx]. *)
Definition float_floordiv (vx wx : float) : float :=
  let m := fmod vx wx in
  let div := fdiv (fsub vx m) wx in
  let div :=
    if fnonzero m then
      if negb (Bool.eqb (flt wx pzero) (flt m pzero)) then fsub div fone
      else div
    else div in
  if fnonzero div then
    let fl := ffloor div in
    if flt (S754_finite false 4503599627370496 (-53)) (fsub div fl)
    then fadd fl fone else fl
  else copysign pzero (fdiv vx wx).

(** ** Values *)

(** The objects a vector may hold and a method may be handed as a scalar or
    as a constructor argument.  A generator object is described by what
    consuming it shows: the items it yields and, when an item's computation
    raises, the exception that ends the iteration. *)
Inductive value : Type :=
| VNone
| VInt (z : Z)
| VFrac (q : Q)
| VFloat (f : float)
| VStr (s : string)
| VTuple (xs : list value)
| VList (xs : list value)
| VGen (xs : list value) (fin : option exn).

(** What a method receives as [other] and what it returns: a plain value, a
    Vector (given by its elements), or the [NotImplemented] singleton. *)
Inductive object : Type :=
| Val (v : value)
| Vec (xs : list value)
| NotImplemented.

(** The numbers of the tower, read off a value. *)
Inductive num : Type :=
| NInt (z : Z)
| NFrac (q : Q)
| NFloat (f : float).

Definition as_num (v : value) : option num :=
  match v with
  | VInt z => Some (NInt z)
  | VFrac q => Some (NFrac q)
  | VFloat f => Some (NFloat f)
  | _ => None
  end.

Definition is_num (v : value) : bool :=
  match as_num v with Some _ => true | None => false end.

(** Exact numbers: int and Fraction. *)
Definition is_exact (v : value) : bool :=
  match v with VInt _ | VFrac _ => true | _ => false end.

(** [float(x)] for a number. *)
Definition num_to_double (n : num) : result float :=
  match n with
  | NInt z => float_of_int z
  | NFrac q => float_of_frac q
  | NFloat f => Ok f
  end.

(** CPython's [PyFloat_AsDouble]: what the [math] functions do to their
    arguments. *)
Definition as_double (v : value) : result float :=
  match as_num v with
  | Some n => num_to_double n
  | None => Raise TypeError
  end.

(** ** The numeric tower *)

(** A binary operator of the tower, given by what it does on ints, on
    Fractions and on floats.  int with int stays int; an operand that is a
    Fraction makes the other one a Fraction; an operand that is a float makes
    both floats, the left one converted first. *)
Definition tower
    (on_int : Z -> Z -> result value)
    (on_frac : Q -> Q -> result value)
    (on_float : float -> float -> result value)
    (a b : num) : result value :=
  match a, b with
  | NInt x, NInt y => on_int x y
  | NInt x, NFrac q => on_frac (inject_Z x) q
  | NFrac p, NInt y => on_frac p (inject_Z y)
  | NFrac p, NFrac q => on_frac p q
  | _, _ =>
    fa <- num_to_double a ;;
    fb <- num_to_double b ;;
    on_float fa fb
  end.

Definition num_add : num -> num -> result value :=
  tower (fun x y => Ok (VInt (x + y)))
        (fun p q => Ok (VFrac (Qred (p + q))))
        (fun f g => Ok (VFloat (fadd f g))).

Definition num_sub : num -> num -> result value :=
  tower (fun x y => Ok (VInt (x - y)))
        (fun p q => Ok (VFrac (Qred (p - q))))
        (fun f g => Ok (VFloat (fsub f g))).

Definition num_mul : num -> num -> result value :=
  tower (fun x y => Ok (VInt (x * y)))
        (fun p q => Ok (VFrac (Qred (p * q))))
        (fun f g => Ok (VFloat (fmul f g))).

(** True division ([from __future__ import division] is in force). *)
Definition num_truediv : num -> num -> result value :=
  tower (fun x y => f <- int_truediv x y ;; Ok (VFloat f))
        (fun p q =>
           if (Qnum q =? 0)%Z then Raise ZeroDivisionError
           else Ok (VFrac (Qred (p / q))))
        (fun f g =>
           if is_fzero g then Raise ZeroDivisionError
           else Ok (VFloat (fdiv f g))).

(** Floor division.  On Fractions the result is an int. *)
Definition num_floordiv : num -> num -> result value :=
  tower (fun x y =>
           if (y =? 0)%Z then Raise ZeroDivisionError
           else Ok (VInt (x / y)))
        (fun p q =>
           if (Qnum q =? 0)%Z then Raise ZeroDivisionError
           else Ok (VInt (Qfloor (p / q))))
        (fun f g =>
           if is_fzero g then Raise ZeroDivisionError
           else Ok (VFloat (float_floordiv f g))).

(** Sequence repetition, [xs * n]. *)
Definition repeat_list {A : Type} (xs : list A) (n : Z) : list A :=
  List.concat (List.repeat xs (Z.to_nat n)).

Fixpoint repeat_string (s : string) (n : nat) : string :=
  match n with
  | O => EmptyString
  | S n' => append s (repeat_string s n')
  end.

(** The binary operators on arbitrary values.  Outside the numbers, [+]
    concatenates two sequences of one type and [*] repeats a sequence an int
    number of times; every other combination is a TypeError. *)
Definition py_add (a b : value) : result value :=
  match as_num a, as_num b with
  | Some x, Some y => num_add x y
  | _, _ =>
    match a, b with
    | VStr s, VStr t => Ok (VStr (append s t))
    | VTuple xs, VTuple ys => Ok (VTuple (xs ++ ys))
    | VList xs, VList ys => Ok (VList (xs ++ ys))
    | _, _ => Raise TypeError
    end
  end.

Definition py_sub (a b : value) : result value :=
  match as_num a, as_num b with
  | Some x, Some y => num_sub x y
  | _, _ => Raise TypeError
  end.

Definition py_mul (a b : value) : result value :=
  match as_num a, as_num b with
  | Some x, Some y => num_mul x y
  | _, _ =>
    match a, b with
    | VStr s, VInt n | VInt n, VStr s => Ok (VStr (repeat_string s (Z.to_nat n)))
    | VTuple xs, VInt n | VInt n, VTuple xs => Ok (VTuple (repeat_list xs n))
    | VList xs, VInt n | VInt n, VList xs => Ok (VList (repeat_list xs n))
    | _, _ => Raise TypeError
    end
  end.

Definition py_truediv (a b : value) : result value :=
  match as_num a, as_num b with
  | Some x, Some y => num_truediv x y
  | _, _ => Raise TypeError
  end.

Definition py_floordiv (a b : value) : result value :=
  match as_num a, as_num b with
  | Some x, Some y => num_floordiv x y
  | _, _ => Raise TypeError
  end.

(** The built-in [abs] on a value. *)
Definition py_abs (v : value) : result value :=
  match v with
  | VInt z => Ok (VInt (Z.abs z))
  | VFrac q => Ok (VFrac (Qabs q))
  | VFloat f => Ok (VFloat (fabs f))
  | _ => Raise TypeError
  end.

(** Unary minus. *)
Definition py_neg (v : value) : result value :=
  match v with
  | VInt z => Ok (VInt (- z))
  | VFrac q => Ok (VFrac (Qopp q))
  | VFloat f => Ok (VFloat (SFopp f))
  | _ => Raise TypeError
  end.

(** [v == 0] and [v != 0]. *)
Definition py_eq_zero (v : value) : bool :=
  match v with
  | VInt z => (z =? 0)%Z
  | VFrac q => (Qnum q =? 0)%Z
  | VFloat f => feq f pzero
  | _ => false
  end.

Definition py_ne_zero (v : value) : bool := negb (py_eq_zero v).

(** ** Sequences, iteration and the built-ins over them *)

Fixpoint chars (s : string) : list value :=
  match s with
  | EmptyString => []
  | String c s' => VStr (String c EmptyString) :: chars s'
  end.

(** [isinstance(o, collections.Sequence)]: tuple, list, str and their
    subclasses, Vector among them. *)
Definition is_Sequence (o : object) : bool :=
  match o with
  | Vec _ => true
  | Val (VTuple _) | Val (VList _) | Val (VStr _) => true
  | _ => false
  end.

(** The items of a value that has a length and can be indexed. *)
Definition sized_items (v : value) : option (list value) :=
  match v with
  | VTuple xs | VList xs => Some xs
  | VStr s => Some (chars s)
  | _ => None
  end.

Definition items (o : object) : option (list value) :=
  match o with
  | Vec xs => Some xs
  | Val v => sized_items v
  | NotImplemented => None
  end.

(** [len(o)]. *)
Definition py_len (o : object) : result nat :=
  match items o with
  | Some xs => Ok (List.length xs)
  | None => Raise TypeError
  end.

(** [o[i]] for a non-negative index. *)
Definition getitem (o : object) (i : nat) : result value :=
  match items o with
  | Some xs =>
    match nth_error xs i with
    | Some x => Ok x
    | None => Raise IndexError
    end
  | None => Raise TypeError
  end.

(** A generator expression whose successive items evaluate to [rs]: it
    yields the values up to the first item that raises. *)
Fixpoint genexpr_from (rs : list (result value)) (acc : list value) : value :=
  match rs with
  | [] => VGen (rev acc) None
  | Ok v :: rs' => genexpr_from rs' (v :: acc)
  | Raise e :: _ => VGen (rev acc) (Some e)
  end.

Definition genexpr (rs : list (result value)) : value := genexpr_from rs [].

(** Consuming an iterable to its end, as [tuple(x)] does. *)
Definition tuple_of (v : value) : result (list value) :=
  match v with
  | VGen xs None => Ok xs
  | VGen _ (Some e) => Raise e
  | _ =>
    match sized_items v with
    | Some xs => Ok xs
    | None => Raise TypeError
    end
  end.

Definition iter_object (o : object) : result (list value) :=
  match o with
  | Vec xs => Ok xs
  | Val v => tuple_of v
  | NotImplemented => Raise TypeError
  end.

(** The values [iter] accepts. *)
Definition is_iterable (v : value) : bool :=
  match v with
  | VStr _ | VTuple _ | VList _ | VGen _ _ => true
  | _ => false
  end.

(** [zip(xs, ys)] of two finite sequences. *)
Definition zip {A B : Type} (xs : list A) (ys : list B) : list (A * B) :=
  combine xs ys.

(** [sum(it)]: start from the int 0 and add the items from the left.  The
    additions are interleaved with the production of the items, so an
    addition that raises does so before a later item is asked for. *)
Fixpoint sum_from (acc : value) (xs : list value) : result value :=
  match xs with
  | [] => Ok acc
  | x :: xs' => acc' <- py_add acc x ;; sum_from acc' xs'
  end.

Definition py_sum (it : value) : result value :=
  match it with
  | VGen xs fin =>
    r <- sum_from (VInt 0) xs ;;
    match fin with Some e => Raise e | None => Ok r end
  | _ =>
    xs <- tuple_of it ;; sum_from (VInt 0) xs
  end.

(** ** repr *)

Local Open Scope string_scope.

(** [repr] of an int: the decimal numeral, with a minus sign when negative. *)
Definition repr_int (z : Z) : string :=
  NilEmpty.string_of_int (Z.to_int z).

(** [repr] of a tuple from the reprs of its items: a one-item tuple keeps a
    trailing comma. *)
Definition repr_tuple (rs : list string) : string :=
  match rs with
  | [r] => "(" ++ r ++ ",)"
  | _ => "(" ++ String.concat ", " rs ++ ")"
  end.

Definition repr_list (rs : list string) : string :=
  "[" ++ String.concat ", " rs ++ "]".

(** The reprs of the items of a container, given the repr of a value:
    [None] as soon as one of them is not modelled. *)
Definition repr_items (repr : value -> option string)
  : list value -> option (list string) :=
  fix go (xs : list value) : option (list string) :=
    match xs with
    | [] => Some []
    | x :: xs' =>
      match repr x, go xs' with
      | Some r, Some rs => Some (r :: rs)
      | _, _ => None
      end
    end.

(** [repr] of a value.  The shortest-digits numeral of a float, the quoting
    of a str and the address in a generator's repr are not modelled: on these
    the function answers [None]. *)
Fixpoint repr (v : value) : option string :=
  match v with
  | VNone => Some "None"
  | VInt z => Some (repr_int z)
  | VFrac q =>
    Some ("Fraction(" ++ repr_int (Qnum q) ++ ", "
          ++ repr_int (Zpos (Qden q)) ++ ")")
  | VTuple xs => option_map repr_tuple (repr_items repr xs)
  | VList xs => option_map repr_list (repr_items repr xs)
  | VFloat _ | VStr _ | VGen _ _ => None
  end.

Local Close Scope string_scope.

(** ** The math module *)

(** The C library functions that [math] wraps and that have no closed form
    on doubles.  They are parameters of the methods that reach them. *)
Record Libm : Type := {
  c_atan2 : float -> float -> float;
  c_acos : float -> float
}.

(** [Py_MATH_PI], the double nearest to pi. *)
Definition math_pi : float := S754_finite false 7074237752028440 (-51).
Definition fhalf : float := S754_finite false 4503599627370496 (-53).
Definition fquarter : float := S754_finite false 4503599627370496 (-54).
Definition fthree_quarters : float := S754_finite false 6755399441055744 (-53).

(** CPython's [math_1] for a function that cannot overflow: the argument is
    converted to a double; a NaN result for a non-NaN argument, or an
    infinite result for a finite argument, is a domain error. *)
Definition math_1 (f : float -> float) (v : value) : result value :=
  x <- as_double v ;;
  let r := f x in
  if is_nan r && negb (is_nan x) then Raise (ValueError "math domain error")
  else if is_inf r && is_finite x then Raise (ValueError "math domain error")
  else Ok (VFloat r).

Definition math_sqrt : value -> result value := math_1 fsqrt.
Definition math_acos (L : Libm) : value -> result value := math_1 (c_acos L).

(** CPython's [m_atan2]: the special cases are decided before the C library
    is asked. *)
Definition m_atan2 (L : Libm) (y x : float) : float :=
  if is_nan x || is_nan y then S754_nan
  else if is_inf y then
    if is_inf x then
      if negb (signbit x) then copysign (fmul fquarter math_pi) y
      else copysign (fmul fthree_quarters math_pi) y
    else copysign (fmul fhalf math_pi) y
  else if is_inf x || is_fzero y then
    if negb (signbit x) then copysign pzero y
    else copysign math_pi y
  else c_atan2 L y x.

(** CPython's [math_2] around [m_atan2]. *)
Definition math_atan2 (L : Libm) (vy vx : value) : result value :=
  y <- as_double vy ;;
  x <- as_double vx ;;
  let r := m_atan2 L y x in
  if is_nan r && negb (is_nan y) && negb (is_nan x)
  then Raise (ValueError "math domain error")
  else if is_inf r && is_finite y && is_finite x
  then Raise (OverflowError)
  else Ok (VFloat r).

(** The C library functions behind [math.sin] and [math.cos], parameters of
    the one method that reaches them. *)
Record Trig : Type := {
  c_sin : float -> float;
  c_cos : float -> float
}.

Definition math_sin (T : Trig) : value -> result value := math_1 (c_sin T).
Definition math_cos (T : Trig) : value -> result value := math_1 (c_cos T).

End Py.

(* ================================================================== *)
(** * The Vector class *)
(* ================================================================== *)

Module Vector.
Import Py.

Local Open Scope string_scope.

(** A Vector object is the tuple of its elements; [self] is passed to each
    method as that list. *)
Definition vector : Type := list value.

(** [len(self) == n]. *)
Definition len_is (self : vector) (n : nat) : bool :=
  Nat.eqb (List.length self) n.

(** [Vector.__new__(cls, *args)], lines 180-182. *)
Definition __new__ (args : list value) : result object :=
  match args with
  | [a] => xs <- tuple_of a ;; Ok (Vec xs)
  | _ => Ok (Vec args)
  end.

(** [Vector(<generator expression>)], the call every element-wise method
    ends with. *)
Definition Vector_of (rs : list (result value)) : result object :=
  __new__ [genexpr rs].

(** [_check_compatibility], lines 191-193. *)
Definition _check_compatibility (self : vector) (other : object)
  : result unit :=
  n <- py_len other ;;
  if negb (Nat.eqb (List.length self) n)
  then Raise (IncompatibleDimensions (List.length self) n)
  else Ok tt.

(** The decimal numeral of a length, as [str.format] writes it. *)
Definition format_nat (n : nat) : string :=
  NilEmpty.string_of_uint (Nat.to_uint n).

(** [_dimension_error], lines 195-197.  It builds the exception; the caller
    raises it. *)
Definition _dimension_error (self : vector) (name : string) : exn :=
  ValueError ("." ++ name ++ "() is not implemented for "
              ++ format_nat (List.length self) ++ "-dimensional vectors.").

(** [__repr__], lines 184-189: the class name followed by the repr of the
    tuple of elements, which a vector of length 1 wraps in parentheses of
    its own.  [None] where [repr] of an element is not modelled. *)
Definition __repr__ (self : vector) : option string :=
  match repr (VTuple self) with
  | Some t =>
    if len_is self 1 then Some ("Vector" ++ "(" ++ t ++ ")")
    else Some ("Vector" ++ t)
  | None => None
  end.

(** [zip(self, other)] once [other] is known to be iterable. *)
Definition zip_other (self : vector) (other : object)
  : result (list (value * value)) :=
  ys <- iter_object other ;; Ok (zip self ys).

(** [__add__], lines 199-203. *)
Definition __add__ (self : vector) (other : object) : result object :=
  if negb (is_Sequence other) then Ok NotImplemented
  else
    _ <- _check_compatibility self other ;;
    vw <- zip_other self other ;;
    Vector_of (map (fun p => py_add (fst p) (snd p)) vw).

(** [__radd__], lines 205-209. *)
Definition __radd__ (self : vector) (other : object) : result object :=
  if negb (is_Sequence other) then Ok NotImplemented
  else
    _ <- _check_compatibility self other ;;
    vw <- zip_other self other ;;
    Vector_of (map (fun p => py_add (snd p) (fst p)) vw).

(** [__sub__], lines 211-215. *)
Definition __sub__ (self : vector) (other : object) : result object :=
  if negb (is_Sequence other) then Ok NotImplemented
  else
    _ <- _check_compatibility self other ;;
    vw <- zip_other self other ;;
    Vector_of (map (fun p => py_sub (fst p) (snd p)) vw).

(** [__rsub__], lines 217-221. *)
Definition __rsub__ (self : vector) (other : object) : result object :=
  if negb (is_Sequence other) then Ok NotImplemented
  else
    _ <- _check_compatibility self other ;;
    vw <- zip_other self other ;;
    Vector_of (map (fun p => py_sub (snd p) (fst p)) vw).

(** [__mul__] and [__rmul__], lines 223-227. *)
Definition __mul__ (self : vector) (s : value) : result object :=
  Vector_of (map (fun v => py_mul v s) self).


(** [__div__] and [__truediv__], lines 229-233. *)
Definition __div__ (self : vector) (s : value) : result object :=
  Vector_of (map (fun v => py_truediv v s) self).

Definition __truediv__ (self : vector) (s : value) : result object :=
  Vector_of (map (fun v => py_truediv v s) self).

(** [__floordiv__], lines 235-236. *)
Definition __floordiv__ (self : vector) (s : value) : result object :=
  Vector_of (map (fun v => py_floordiv v s) self).

(** [__neg__], lines 238-239. *)
Definition __neg__ (self : vector) : result object :=
  __mul__ self (VInt (-1)).

(** [__pos__], lines 241-242. *)
Definition __pos__ (self : vector) : result object := Ok (Vec self).

(** [magnitude_squared], lines 309-312. *)
Definition magnitude_squared (self : vector) : result value :=
  py_sum (genexpr (map (fun v => py_mul v v) self)).

(** [__abs__], lines 244-245. *)
Definition __abs__ (self : vector) : result value :=
  ms <- magnitude_squared self ;; math_sqrt ms.

(** The built-in [abs] applied to what a method returned. *)
Definition abs_object (o : object) : result value :=
  match o with
  | Val v => py_abs v
  | Vec xs => __abs__ xs
  | NotImplemented => Raise TypeError
  end.

(** [dot], lines 294-297. *)
Definition dot (self : vector) (other : object) : result value :=
  _ <- _check_compatibility self other ;;
  vw <- zip_other self other ;;
  py_sum (genexpr (map (fun p => py_mul (fst p) (snd p)) vw)).

(** [cross], lines 272-285. *)
Definition cross (self : vector) (other : object) : result object :=
  _ <- _check_compatibility self other ;;
  let s := fun i => getitem (Vec self) i in
  let o := fun i => getitem other i in
  let term := fun i j =>
    si <- s i ;; oj <- o j ;; a <- py_mul si oj ;;
    sj <- s j ;; oi <- o i ;; b <- py_mul sj oi ;;
    py_sub a b in
  if len_is self 2 then
    c <- term 0%nat 1%nat ;; Ok (Val c)
  else if len_is self 3 then
    c0 <- term 1%nat 2%nat ;;
    c1 <- term 2%nat 0%nat ;;
    c2 <- term 0%nat 1%nat ;;
    __new__ [c0; c1; c2]
  else Raise (_dimension_error self "cross").

(** [angle], lines 247-256. *)
Definition angle (L : Libm) (self : vector) : result value :=
  if len_is self 2 then
    y <- getitem (Vec self) 1 ;;
    x <- getitem (Vec self) 0 ;;
    math_atan2 L y x
  else Raise (_dimension_error self "angle").

(** [angle_to], lines 258-270. *)
Definition angle_to (L : Libm) (self : vector) (other : object)
  : result value :=
  if len_is self 2 || len_is self 3 then
    c <- cross self other ;;
    a <- abs_object c ;;
    d <- dot self other ;;
    math_atan2 L a d
  else
    d <- dot self other ;;
    ms <- magnitude_squared self ;;
    ys <- iter_object other ;;
    so <- py_sum (genexpr (map (fun v => py_mul v v) ys)) ;;
    p <- py_mul ms so ;;
    r <- math_sqrt p ;;
    q <- py_truediv d r ;;
    math_acos L q.

(** The expression [self - other]: [__sub__] first; no type of the value
    universe answers the reflected call for a Vector on the left, so a
    [NotImplemented] ends in a TypeError. *)
Definition sub_expr (self : vector) (other : object) : result object :=
  r <- __sub__ self other ;;
  match r with
  | NotImplemented => Raise TypeError
  | _ => Ok r
  end.

(** [distance], lines 287-292. *)
Definition distance (self : vector) (other : object) : result value :=
  d <- sub_expr self other ;; abs_object d.

(** [is_zero], lines 299-302. *)
Definition is_zero (self : vector) : result bool :=
  ms <- magnitude_squared self ;; Ok (py_eq_zero ms).

(** [magnitude], lines 304-307. *)
Definition magnitude (self : vector) : result value := __abs__ self.

(** [map], lines 314-319. *)
Definition map (self : vector) (f : value -> result value) : result object :=
  Vector_of (List.map f self).

(** [non_zero], lines 321-324. *)
Definition non_zero (self : vector) : result bool :=
  ms <- magnitude_squared self ;; Ok (py_ne_zero ms).

(** [normalized], lines 326-331. *)
Definition normalized (self : vector) : result object :=
  m <- __abs__ self ;; __truediv__ self m.

(** [perpendicular], lines 333-341. *)
Definition perpendicular (self : vector) : result object :=
  if len_is self 2 then
    y <- getitem (Vec self) 1 ;;
    ny <- py_neg y ;;
    x <- getitem (Vec self) 0 ;;
    __new__ [ny; x]
  else Raise (_dimension_error self "perpendicular").

(** [projected], lines 343-348. *)
Definition projected (self : vector) (other : object) : result object :=
  d <- dot self other ;;
  ms <- magnitude_squared self ;;
  k <- py_truediv d ms ;;
  __mul__ self k.

(** [rotated], lines 350-359: [sin] is called before [cos], and the two dot
    products are taken in the order of the arguments. *)
Definition rotated (T : Trig) (self : vector) (theta : value)
  : result object :=
  if len_is self 2 then
    s <- math_sin T theta ;;
    c <- math_cos T theta ;;
    ns <- py_neg s ;;
    d0 <- dot self (Val (VTuple [c; ns])) ;;
    d1 <- dot self (Val (VTuple [s; c])) ;;
    __new__ [d0; d1]
  else Raise (_dimension_error self "rotated").

(** [scaled], lines 361-366. *)
Definition scaled (self : vector) (s : value) : result object :=
  m <- __abs__ self ;;
  k <- py_truediv s m ;;
  __mul__ self k.

(** The properties [x], [y] and [z], lines 368-378. *)
Definition x (self : vector) : result value := getitem (Vec self) 0.
Definition y (self : vector) : result value := getitem (Vec self) 1.
Definition z (self : vector) : result value := getitem (Vec self) 2.

End Vector.

(* ================================================================== *)
(** * Reading a rendered vector back *)
(* ================================================================== *)

(** The fragment of Python's expression syntax that [__repr__] writes for a
    vector of ints: decimal int literals, parenthesised tuples of them, and
    a call of [Vector].  [eval] reads such a text and performs the call. *)
Module Reader.
Import Py.

Local Open Scope string_scope.

Definition digit_of (c : ascii) : option (Decimal.uint -> Decimal.uint) :=
  if Ascii.eqb c "0" then Some Decimal.D0
  else if Ascii.eqb c "1" then Some Decimal.D1
  else if Ascii.eqb c "2" then Some Decimal.D2
  else if Ascii.eqb c "3" then Some Decimal.D3
  else if Ascii.eqb c "4" then Some Decimal.D4
  else if Ascii.eqb c "5" then Some Decimal.D5
  else if Ascii.eqb c "6" then Some Decimal.D6
  else if Ascii.eqb c "7" then Some Decimal.D7
  else if Ascii.eqb c "8" then Some Decimal.D8
  else if Ascii.eqb c "9" then Some Decimal.D9
  else None.

(** The longest run of digits at the head of a text, and what follows. *)
Fixpoint read_digits (s : string) : Decimal.uint * string :=
  match s with
  | EmptyString => (Decimal.Nil, EmptyString)
  | String c s' =>
    match digit_of c with
    | Some d => let (u, rest) := read_digits s' in (d u, rest)
    | None => (Decimal.Nil, s)
    end
  end.

(** Splits off a first character that satisfies [p]. *)
Definition eat (p : ascii -> bool) (s : string) : option string :=
  match s with
  | String c s' => if p c then Some s' else None
  | EmptyString => None
  end.

Definition is_char (a : ascii) (c : ascii) : bool := Ascii.eqb c a.

(** An int literal, possibly negated: at least one digit and no redundant
    leading zero. *)
Definition read_int (s : string) : option (value * string) :=
  let (neg, s1) :=
    match eat (is_char "-") s with
    | Some s' => (true, s')
    | None => (false, s)
    end in
  let (u, rest) := read_digits s1 in
  match u with
  | Decimal.Nil => None
  | _ =>
    if Decimal.uint_eq_dec (Decimal.unorm u) u
    then Some (VInt (Z.of_int (if neg then Decimal.Neg u else Decimal.Pos u)),
               rest)
    else None
  end.

Fixpoint skip_spaces (s : string) : string :=
  match s with
  | String c s' => if is_char " " c then skip_spaces s' else s
  | EmptyString => s
  end.

(** Items separated by commas up to the closing parenthesis; a comma may
    precede the parenthesis.  The answer gives the items, whether a comma was
    seen, and the text after the parenthesis. *)
Fixpoint read_seq (read_item : string -> option (value * string))
    (fuel : nat) (s : string) : option (list value * bool * string) :=
  match fuel with
  | O => None
  | S fuel' =>
    match eat (is_char ")") s with
    | Some rest => Some ([], false, rest)
    | None =>
      match read_item s with
      | None => None
      | Some (v, s1) =>
        match eat (is_char ")") s1 with
        | Some rest => Some ([v], false, rest)
        | None =>
          match eat (is_char ",") s1 with
          | Some s2 =>
            match read_seq read_item fuel' (skip_spaces s2) with
            | Some (vs, _, rest) => Some (v :: vs, true, rest)
            | None => None
            end
          | None => None
          end
        end
      end
    end
  end.

(** An argument of the call: an int literal, or a parenthesised form, which
    is a tuple unless it holds one item and no comma. *)
Definition read_arg (fuel : nat) (s : string) : option (value * string) :=
  match eat (is_char "(") s with
  | Some s' =>
    match read_seq read_int fuel s' with
    | Some ([v], false, rest) => Some (v, rest)
    | Some (vs, _, rest) => Some (VTuple vs, rest)
    | None => None
    end
  | None => read_int s
  end.

Fixpoint strip_prefix (p s : string) : option string :=
  match p, s with
  | EmptyString, _ => Some s
  | String a p', String b s' =>
    if Ascii.eqb a b then strip_prefix p' s' else None
  | String _ _, EmptyString => None
  end.

(** Evaluating the text of a constructor call: [None] when the text is not
    of the fragment, otherwise the outcome of the call. *)
Definition eval (s : string) : option (result object) :=
  match strip_prefix "Vector(" s with
  | None => None
  | Some s' =>
    let fuel := S (String.length s) in
    match read_seq (read_arg fuel) fuel s' with
    | Some (args, _, EmptyString) => Some (Vector.__new__ args)
    | _ => None
    end
  end.

End Reader.


(* ================================================================== *)
(** * Properties *)
(* ================================================================== *)

Import Py.

Local Open Scope list_scope.

(** ** Vocabulary of the statements *)

(** The sum of the squares in each of the three arithmetics, added from the
    left starting from zero. *)
Definition sum_squares_int (zs : list Z) : Z :=
  fold_left (fun a z => (a + z * z)%Z) zs 0%Z.

Definition sum_squares_frac (qs : list Q) : Q :=
  fold_left (fun a q => a + q * q) qs 0.

Definition sum_squares_float (fs : list float) : float :=
  fold_left (fun a x => fadd a (fmul x x)) fs pzero.

(** An operand that offers the numeric protocol the arithmetic needs: it has
    a length and its items are numbers. *)
Definition numeric_sequence (o : object) : bool :=
  match items o with
  | Some ys => forallb is_num ys
  | None => false
  end.

Definition is_float (v : value) : bool :=
  match v with VFloat _ => true | _ => false end.

(** The rational an exact number stands for. *)
Definition qval (v : value) : Q :=
  match v with
  | VInt z => inject_Z z
  | VFrac q => q
  | _ => 0
  end.

(** [math.pi / 2]. *)
Definition half_pi : float := S754_finite false 7074237752028440 (-52).

(** A float in the closed interval from 0 to [math.pi]. *)
Definition in_zero_pi (r : float) : bool := fle pzero r && fle r math_pi.

Definition positive_finite (y : float) : bool :=
  match y with S754_finite false _ _ => true | _ => false end.

(** What the C standard promises of [atan2] in the upper half plane: for a
    positive finite [y] and a finite [x] the angle is between 0 and pi. *)
Definition atan2_upper_half (L : Libm) : Prop :=
  forall y x, positive_finite y = true -> is_finite x = true ->
              in_zero_pi (c_atan2 L y x) = true.

(** A number that is not below zero: an int or Fraction at least 0, a float
    whose sign bit is clear. *)
Definition nonneg_val (v : value) : bool :=
  match v with
  | VInt z => (0 <=? z)%Z
  | VFrac q => Qle_bool 0 q
  | VFloat f => negb (signbit f)
  | _ => false
  end.

(** A stand-in for the C library, to run the statements on: [atan2] answers
    with the angle of the nearest half axis, [acos] with 0 or pi. *)
Definition axis_libm : Libm := {|
  c_atan2 := fun y x =>
    if is_fzero x then copysign half_pi y
    else if signbit x then copysign math_pi y
    else copysign pzero y;
  c_acos := fun x =>
    if is_nan x || flt fone (fabs x) then S754_nan
    else if signbit x then math_pi else pzero
|}.

(** The product of the two squared magnitudes, as the generic branch of
    [angle_to] computes it. *)
Definition squared_magnitudes_product (self : Vector.vector) (other : object)
  : result value :=
  ms <- Vector.magnitude_squared self ;;
  ys <- iter_object other ;;
  so <- py_sum (genexpr (List.map (fun v => py_mul v v) ys)) ;;
  py_mul ms so.

(** A text that does not go on with a digit. *)
Definition no_digit_ahead (s : string) : Prop :=
  match s with
  | EmptyString => True
  | String c _ => Reader.digit_of c = None
  end.

(** The reprs of ints, separated by a comma and a space. *)
Definition ints_text (zs : list Z) : string :=
  String.concat ", " (List.map repr_int zs).

(** The text [__repr__] writes for a vector of ints. *)
Definition rendering (zs : list Z) : string :=
  match zs with
  | [z] => "Vector((" ++ repr_int z ++ ",))"
  | _ => "Vector(" ++ ints_text zs ++ ")"
  end.

(** The double that the int [z] converts to. *)
Definition float_lit (z : Z) : float := fnormalize z 0 false.

(** Two lists of ints combined item by item, as [zip] pairs them. *)
Definition pointwise (f : Z -> Z -> Z) (xs ys : list Z) : list Z :=
  List.map (fun p => f (fst p) (snd p)) (combine xs ys).

(** The int dot product, added from the left starting from zero. *)
Definition dot_int (xs ys : list Z) : Z :=
  fold_left (fun a p => (a + fst p * snd p)%Z) (combine xs ys) 0%Z.

(** The method [k] applied to the Vector a first method returned. *)
Definition then_vector (r : result object)
    (k : Vector.vector -> result object) : result object :=
  o <- r ;;
  match o with
  | Vec xs => k xs
  | _ => Raise TypeError
  end.

(** The method [k] applied to the Vector a first method returned, [k]
    returning a value. *)
Definition then_value (r : result object)
    (k : Vector.vector -> result value) : result value :=
  o <- r ;;
  match o with
  | Vec xs => k xs
  | _ => Raise TypeError
  end.

(** The rational dot product, added from the left starting from zero. *)
Definition dot_frac (qs ps : list Q) : Q :=
  fold_left (fun a p => a + fst p * snd p) (combine qs ps) 0.

(** [-pi / 4]. *)
Definition minus_quarter_pi : float :=
  S754_finite true 7074237752028440 (-53).

(** The float [2 ** -600], whose square is below the smallest double. *)
Definition tiny_float : float := S754_finite false 4503599627370496 (-652).

(** A second stand-in for the C library, exact on the diagonals: [atan2]
    answers a quarter or three quarters of pi where [|y| = |x|], and as
    [axis_libm] elsewhere. *)
Definition diagonal_libm : Libm := {|
  c_atan2 := fun y x =>
    if feq (fabs y) (fabs x) && negb (is_fzero x) then
      copysign (if signbit x then fmul fthree_quarters math_pi
                else fmul fquarter math_pi) y
    else c_atan2 axis_libm y x;
  c_acos := c_acos axis_libm
|}.

(** A stand-in for [sin] and [cos], exact at the angle zero and NaN
    elsewhere. *)
Definition origin_trig : Trig := {|
  c_sin := fun x => if is_fzero x then x else S754_nan;
  c_cos := fun x => if is_fzero x then fone else S754_nan
|}.

(** ** Outcomes of generator expressions *)

(** The outcome of consuming the items [rs] one after the other: all the
    values, or the first exception. *)
Fixpoint sequence (rs : list (result value)) : result (list value) :=
  match rs with
  | [] => Ok []
  | Ok v :: rs' => vs <- sequence rs' ;; Ok (v :: vs)
  | Raise e :: _ => Raise e
  end.

(** The outcome of [sum] over the items [rs], additions interleaved. *)
Fixpoint sum_results (acc : value) (rs : list (result value)) : result value :=
  match rs with
  | [] => Ok acc
  | Ok v :: rs' => acc' <- py_add acc v ;; sum_results acc' rs'
  | Raise e :: _ => Raise e
  end.

Lemma bind_ok {A B : Type} (a : A) (k : A -> result B) :
  bind (Ok a) k = k a.
Proof. reflexivity. Qed.

Lemma bind_raise {A B : Type} (e : exn) (k : A -> result B) :
  bind (Raise e) k = Raise e.
Proof. reflexivity. Qed.

Lemma bind_inv {A B : Type} (r : result A) (k : A -> result B) (b : B) :
  bind r k = Ok b -> exists a, r = Ok a /\ k a = Ok b.
Proof.
  destruct r as [a|e]; simpl; intros H; [eauto | discriminate].
Qed.

Lemma genexpr_from_spec (rs : list (result value)) :
  forall acc,
    tuple_of (genexpr_from rs acc)
    = (vs <- sequence rs ;; Ok (rev acc ++ vs)).
Proof.
  induction rs as [|[v|e] rs IH]; intros acc; simpl.
  - now rewrite app_nil_r.
  - rewrite IH. destruct (sequence rs) as [vs|e]; simpl; [|reflexivity].
    now rewrite <- app_assoc.
  - reflexivity.
Qed.

Lemma tuple_of_genexpr (rs : list (result value)) :
  tuple_of (genexpr rs) = sequence rs.
Proof.
  unfold genexpr. rewrite genexpr_from_spec.
  destruct (sequence rs); reflexivity.
Qed.

Lemma Vector_of_spec (rs : list (result value)) :
  Vector.Vector_of rs = (vs <- sequence rs ;; Ok (Vec vs)).
Proof.
  unfold Vector.Vector_of, Vector.__new__. now rewrite tuple_of_genexpr.
Qed.

Lemma sequence_length (rs : list (result value)) :
  forall vs, sequence rs = Ok vs -> List.length vs = List.length rs.
Proof.
  induction rs as [|[v|e] rs IH]; simpl; intros vs H.
  - now inversion H.
  - apply bind_inv in H as (ws & Hws & H). inversion H; subst; simpl.
    now rewrite (IH _ Hws).
  - discriminate.
Qed.

Lemma sequence_all_ok (rs : list (result value)) :
  Forall (fun r => is_ok r = true) rs -> exists vs, sequence rs = Ok vs.
Proof.
  induction 1 as [|[v|e] rs Hr _ IH]; simpl.
  - now exists [].
  - destruct IH as (vs & ->). now exists (v :: vs).
  - discriminate.
Qed.

Lemma bind_assoc {A B C : Type} (r : result A) (k : A -> result B)
    (h : B -> result C) :
  bind (bind r k) h = bind r (fun a => bind (k a) h).
Proof. destruct r; reflexivity. Qed.

Lemma sum_from_app (xs ys : list value) :
  forall acc,
    sum_from acc (xs ++ ys) = (a <- sum_from acc xs ;; sum_from a ys).
Proof.
  induction xs as [|x xs IH]; intros acc; simpl; [reflexivity|].
  destruct (py_add acc x) as [a|e]; simpl; [apply IH | reflexivity].
Qed.

Lemma py_sum_genexpr_from (rs : list (result value)) :
  forall pre,
    py_sum (genexpr_from rs pre)
    = (a <- sum_from (VInt 0) (rev pre) ;; sum_results a rs).
Proof.
  induction rs as [|[v|e] rs IH]; intros pre; simpl.
  - destruct (sum_from (VInt 0) (rev pre)); reflexivity.
  - rewrite IH. simpl. rewrite sum_from_app, bind_assoc. simpl.
    destruct (sum_from (VInt 0) (rev pre)) as [a|e]; simpl; [|reflexivity].
    destruct (py_add a v); reflexivity.
  - destruct (sum_from (VInt 0) (rev pre)); reflexivity.
Qed.

Lemma py_sum_genexpr (rs : list (result value)) :
  py_sum (genexpr rs) = sum_results (VInt 0) rs.
Proof. unfold genexpr. now rewrite py_sum_genexpr_from. Qed.

(** ** Lengths and indexing *)

Lemma py_len_items (o : object) (n : nat) :
  py_len o = Ok n <-> exists ys, items o = Some ys /\ List.length ys = n.
Proof.
  unfold py_len. destruct (items o) as [ys|]; split.
  - intros H; inversion H; eauto.
  - intros (zs & E & L); inversion E; subst; reflexivity.
  - discriminate.
  - intros (zs & E & _); discriminate.
Qed.

Lemma py_len_Sequence (o : object) (n : nat) :
  py_len o = Ok n -> is_Sequence o = true.
Proof.
  unfold py_len. destruct o as [[]| |]; simpl; try discriminate; reflexivity.
Qed.

Lemma Sequence_items (o : object) :
  is_Sequence o = true -> exists ys, items o = Some ys.
Proof.
  destruct o as [[]| |]; simpl; try discriminate; eauto.
Qed.

Lemma iter_object_items (o : object) (ys : list value) :
  items o = Some ys -> iter_object o = Ok ys.
Proof.
  destruct o as [[]| |]; simpl; try discriminate;
    intros H; inversion H; reflexivity.
Qed.

Lemma check_compatibility_spec (self : Vector.vector) (o : object)
    (ys : list value) :
  items o = Some ys ->
  Vector._check_compatibility self o
  = if Nat.eqb (List.length self) (List.length ys) then Ok tt
    else Raise (IncompatibleDimensions (List.length self) (List.length ys)).
Proof.
  intros H. unfold Vector._check_compatibility, py_len. rewrite H. simpl.
  now destruct (Nat.eqb _ _).
Qed.

(** ** C1: the cross product, by dimension *)

(** C1.  For an operand [other] with items [ys]: when the lengths differ,
    [cross] raises IncompatibleDimensions with both lengths; on two 2-vectors
    it returns the scalar [self[0]*other[1] - self[1]*other[0]] (for ints
    [a*d - b*c]); on two 3-vectors it returns the Vector of the three
    components of the cross product; on equal lengths other than 2 and 3 it
    raises the dimension error, whose message names [cross] and the length. *)
Theorem cross_by_dimension (self : Vector.vector) (other : object)
    (ys : list value) :
  items other = Some ys ->
  (List.length self <> List.length ys ->
   Vector.cross self other
   = Raise (IncompatibleDimensions (List.length self) (List.length ys)))
  /\ (forall s0 s1 o0 o1, self = [s0; s1] -> ys = [o0; o1] ->
      Vector.cross self other
      = (a <- py_mul s0 o1 ;; b <- py_mul s1 o0 ;;
         c <- py_sub a b ;; Ok (Val c)))
  /\ (forall a b c d, self = [VInt a; VInt b] -> ys = [VInt c; VInt d] ->
      Vector.cross self other = Ok (Val (VInt (a * d - b * c))))
  /\ (forall s0 s1 s2 o0 o1 o2, self = [s0; s1; s2] -> ys = [o0; o1; o2] ->
      Vector.cross self other
      = (c0 <- (a <- py_mul s1 o2 ;; b <- py_mul s2 o1 ;; py_sub a b) ;;
         c1 <- (a <- py_mul s2 o0 ;; b <- py_mul s0 o2 ;; py_sub a b) ;;
         c2 <- (a <- py_mul s0 o1 ;; b <- py_mul s1 o0 ;; py_sub a b) ;;
         Ok (Vec [c0; c1; c2])))
  /\ (forall a b c d e f,
      self = [VInt a; VInt b; VInt c] -> ys = [VInt d; VInt e; VInt f] ->
      Vector.cross self other
      = Ok (Vec [VInt (b * f - c * e); VInt (c * d - a * f);
                 VInt (a * e - b * d)]))
  /\ (List.length self = List.length ys ->
      List.length self <> 2%nat -> List.length self <> 3%nat ->
      Vector.cross self other
      = Raise (ValueError
                 (".cross() is not implemented for "
                  ++ Vector.format_nat (List.length self)
                  ++ "-dimensional vectors.")%string)).
Proof.
  intros Hys.
  assert (Hget : forall i, getitem other i
                 = match nth_error ys i with
                   | Some v => Ok v | None => Raise IndexError end)
    by (intros i; unfold getitem; now rewrite Hys).
  assert (H2 : forall s0 s1 o0 o1, self = [s0; s1] -> ys = [o0; o1] ->
      Vector.cross self other
      = (a <- py_mul s0 o1 ;; b <- py_mul s1 o0 ;;
         c <- py_sub a b ;; Ok (Val c))).
  { intros s0 s1 o0 o1 -> E. unfold Vector.cross.
    rewrite (check_compatibility_spec _ _ Hys), E. simpl.
    rewrite !Hget, E. simpl.
    destruct (py_mul s0 o1); simpl; [|reflexivity].
    destruct (py_mul s1 o0); simpl; [|reflexivity].
    reflexivity. }
  assert (H3 : forall s0 s1 s2 o0 o1 o2,
      self = [s0; s1; s2] -> ys = [o0; o1; o2] ->
      Vector.cross self other
      = (c0 <- (a <- py_mul s1 o2 ;; b <- py_mul s2 o1 ;; py_sub a b) ;;
         c1 <- (a <- py_mul s2 o0 ;; b <- py_mul s0 o2 ;; py_sub a b) ;;
         c2 <- (a <- py_mul s0 o1 ;; b <- py_mul s1 o0 ;; py_sub a b) ;;
         Ok (Vec [c0; c1; c2]))).
  { intros s0 s1 s2 o0 o1 o2 -> E. unfold Vector.cross.
    rewrite (check_compatibility_spec _ _ Hys), E. simpl.
    rewrite !Hget, E. simpl.
    destruct (py_mul s1 o2); simpl; [|reflexivity].
    destruct (py_mul s2 o1); simpl; [|reflexivity].
    destruct (py_sub _ _); simpl; [|reflexivity].
    destruct (py_mul s2 o0); simpl; [|reflexivity].
    destruct (py_mul s0 o2); simpl; [|reflexivity].
    destruct (py_sub _ _); simpl; [|reflexivity].
    destruct (py_mul s0 o1); simpl; [|reflexivity].
    destruct (py_mul s1 o0); simpl; [|reflexivity].
    destruct (py_sub _ _); simpl; reflexivity. }
  repeat split.
  - intros Hne. unfold Vector.cross.
    rewrite (check_compatibility_spec _ _ Hys).
    apply Nat.eqb_neq in Hne. now rewrite Hne.
  - exact H2.
  - intros a b c d E1 E2. rewrite (H2 _ _ _ _ E1 E2). reflexivity.
  - exact H3.
  - intros a b c d e f E1 E2. rewrite (H3 _ _ _ _ _ _ E1 E2). reflexivity.
  - intros Heq N2 N3. unfold Vector.cross.
    rewrite (check_compatibility_spec _ _ Hys).
    rewrite <- Heq, Nat.eqb_refl. cbn [bind]. unfold Vector.len_is.
    apply Nat.eqb_neq in N2, N3. rewrite N2, N3. reflexivity.
Qed.

(** The two instances the documentation gives:
    [Vector(3, 4).cross((2, 1)) == -5] and
    [Vector(2, 1, 0).cross((3, 4, 0)) == Vector(0, 0, 5)]. *)
Lemma cross_examples :
  Vector.cross [VInt 3; VInt 4] (Val (VTuple [VInt 2; VInt 1]))
  = Ok (Val (VInt (-5)))
  /\ Vector.cross [VInt 2; VInt 1; VInt 0]
       (Val (VTuple [VInt 3; VInt 4; VInt 0]))
     = Ok (Vec [VInt 0; VInt 0; VInt 5]).
Proof.
  split.
  - exact (proj1 (proj2 (proj2
      (cross_by_dimension [VInt 3; VInt 4]
         (Val (VTuple [VInt 2; VInt 1])) eq_refl)))
      3%Z 4%Z 2%Z 1%Z eq_refl eq_refl).
  - exact (proj1 (proj2 (proj2 (proj2 (proj2
      (cross_by_dimension [VInt 2; VInt 1; VInt 0]
         (Val (VTuple [VInt 3; VInt 4; VInt 0])) eq_refl)))))
      2%Z 1%Z 0%Z 3%Z 4%Z 0%Z eq_refl eq_refl).
Defined.

(** ** C2: mismatched lengths *)

(** C2.  When [other] has a length and it differs from [len(self)], each of
    addition, subtraction (direct and reflected), [dot] and [cross] raises
    IncompatibleDimensions carrying [len(self)] and [len(other)]. *)
Theorem mismatch_raises_IncompatibleDimensions (self : Vector.vector)
    (other : object) (m : nat) :
  py_len other = Ok m ->
  List.length self <> m ->
  Vector.__add__ self other = Raise (IncompatibleDimensions (List.length self) m)
  /\ Vector.__radd__ self other
     = Raise (IncompatibleDimensions (List.length self) m)
  /\ Vector.__sub__ self other
     = Raise (IncompatibleDimensions (List.length self) m)
  /\ Vector.__rsub__ self other
     = Raise (IncompatibleDimensions (List.length self) m)
  /\ Vector.dot self other = Raise (IncompatibleDimensions (List.length self) m)
  /\ Vector.cross self other
     = Raise (IncompatibleDimensions (List.length self) m).
Proof.
  intros Hlen Hne.
  pose proof (py_len_Sequence _ Hlen) as Hseq.
  apply py_len_items in Hlen as (ys & Hys & <-).
  apply Nat.eqb_neq in Hne.
  unfold Vector.__add__, Vector.__radd__, Vector.__sub__, Vector.__rsub__,
    Vector.dot, Vector.cross.
  rewrite Hseq, (check_compatibility_spec _ _ Hys), Hne. simpl.
  repeat split; reflexivity.
Qed.

(** [Vector(0, 0) + (0, 0, 0)] raises IncompatibleDimensions carrying
    [(2, 3)]. *)
Lemma mismatch_example :
  Vector.__add__ [VInt 0; VInt 0] (Val (VTuple [VInt 0; VInt 0; VInt 0]))
  = Raise (IncompatibleDimensions 2 3).
Proof.
  refine (proj1 (@mismatch_raises_IncompatibleDimensions
                   [VInt 0; VInt 0]
                   (Val (VTuple [VInt 0; VInt 0; VInt 0])) 3 eq_refl _)).
  simpl; lia.
Defined.

(** ** C10: one positional argument is iterated *)

(** C10.  A single positional argument is always consumed as an iterable: a
    value that cannot be iterated (None, an int, a Fraction, a float) makes
    the constructor raise TypeError, and a constructor call that returns a
    vector of length 1 was given exactly one argument, an iterable yielding
    that one element. *)
Theorem single_argument_is_iterated :
  (forall x, Vector.__new__ [x] = (xs <- tuple_of x ;; Ok (Vec xs)))
  /\ (forall x, is_iterable x = false -> Vector.__new__ [x] = Raise TypeError)
  /\ (forall args v, Vector.__new__ args = Ok (Vec [v]) ->
      exists a, args = [a] /\ is_iterable a = true /\ tuple_of a = Ok [v]).
Proof.
  split; [reflexivity|]. split.
  - intros x Hx. destruct x; simpl in *; try discriminate; reflexivity.
  - intros args v H. destruct args as [|a [|b args]]; simpl in H.
    + discriminate.
    + exists a. apply bind_inv in H as (xs & Hxs & H).
      inversion H; subst. repeat split; [|assumption].
      destruct a; simpl in *; try discriminate; reflexivity.
    + discriminate.
Qed.

(** [Vector(5)] raises TypeError, and the vector of length 1 holding 5 comes
    from [Vector((5,))], a call with one argument that yields one item. *)
Lemma single_argument_examples :
  Vector.__new__ [VInt 5] = Raise TypeError
  /\ Vector.__new__ [VTuple [VInt 5]] = Ok (Vec [VInt 5])
  /\ exists a, [VTuple [VInt 5]] = [a] /\ is_iterable a = true
                /\ tuple_of a = Ok [VInt 5].
Proof.
  destruct single_argument_is_iterated as (_ & H2 & H3).
  split; [exact (H2 (VInt 5) eq_refl)|].
  split; [reflexivity|].
  exact (H3 [VTuple [VInt 5]] (VInt 5) eq_refl).
Defined.

(** ** C9: element-wise operations keep the length *)

Lemma Vector_of_length (rs : list (result value)) (r : object) :
  Vector.Vector_of rs = Ok r ->
  exists xs, r = Vec xs /\ List.length xs = List.length rs.
Proof.
  rewrite Vector_of_spec. intros H.
  apply bind_inv in H as (vs & Hvs & H). inversion H; subst.
  exists vs. split; [reflexivity | now apply sequence_length].
Qed.

Lemma Vector_of_total (rs : list (result value)) :
  Forall (fun r => is_ok r = true) rs ->
  is_ok (Vector.Vector_of rs) = true.
Proof.
  intros H. rewrite Vector_of_spec.
  destruct (sequence_all_ok H) as (vs & ->). reflexivity.
Qed.

Lemma binary_on_vector (op : value * value -> result value)
    (v w : Vector.vector) :
  List.length w = List.length v ->
  (_ <- Vector._check_compatibility v (Vec w) ;;
   vw <- Vector.zip_other v (Vec w) ;;
   Vector.Vector_of (List.map op vw))
  = Vector.Vector_of (List.map op (combine v w)).
Proof.
  intros Hlen.
  rewrite (@check_compatibility_spec v (Vec w) w eq_refl).
  rewrite Hlen, Nat.eqb_refl. reflexivity.
Qed.

(** C9.  For vectors [v] and [w] of equal length, a scalar [s] and a function
    [f]: each of [v + w], [v - w], [v * s], [v / s], [v // s], [-v] and
    [v.map(f)] that returns, returns a Vector of length [len(v)]; and each
    does return as soon as its element operations all succeed. *)
Theorem elementwise_operations_keep_length (v w : Vector.vector) (s : value)
    (f : value -> result value) :
  List.length w = List.length v ->
  let keeps (r : result object) :=
    forall o, r = Ok o ->
      exists xs, o = Vec xs /\ List.length xs = List.length v in
  let all_ok (rs : list (result value)) :=
    Forall (fun r => is_ok r = true) rs in
  (keeps (Vector.__add__ v (Vec w))
   /\ keeps (Vector.__sub__ v (Vec w))
   /\ keeps (Vector.__mul__ v s)
   /\ keeps (Vector.__truediv__ v s)
   /\ keeps (Vector.__floordiv__ v s)
   /\ keeps (Vector.__neg__ v)
   /\ keeps (Vector.map v f))
  /\ ((all_ok (List.map (fun p => py_add (fst p) (snd p)) (combine v w)) ->
       is_ok (Vector.__add__ v (Vec w)) = true)
      /\ (all_ok (List.map (fun p => py_sub (fst p) (snd p)) (combine v w)) ->
          is_ok (Vector.__sub__ v (Vec w)) = true)
      /\ (all_ok (List.map (fun x => py_mul x s) v) ->
          is_ok (Vector.__mul__ v s) = true)
      /\ (all_ok (List.map (fun x => py_truediv x s) v) ->
          is_ok (Vector.__truediv__ v s) = true)
      /\ (all_ok (List.map (fun x => py_floordiv x s) v) ->
          is_ok (Vector.__floordiv__ v s) = true)
      /\ (all_ok (List.map (fun x => py_mul x (VInt (-1))) v) ->
          is_ok (Vector.__neg__ v) = true)
      /\ (all_ok (List.map f v) -> is_ok (Vector.map v f) = true)).
Proof.
  intros Hlen keeps all_ok.
  assert (Hc : List.length (combine v w) = List.length v)
    by (rewrite length_combine, Hlen; apply Nat.min_id).
  assert (K : forall rs, List.length rs = List.length v ->
                         keeps (Vector.Vector_of rs)).
  { intros rs Hrs o Ho. apply Vector_of_length in Ho as (xs & -> & Hxs).
    exists xs. split; [reflexivity | congruence]. }
  unfold Vector.__add__, Vector.__sub__, Vector.__neg__, Vector.__mul__,
    Vector.__truediv__, Vector.__floordiv__, Vector.map.
  simpl is_Sequence. cbn [negb].
  rewrite !(binary_on_vector _ v w Hlen).
  split.
  - repeat split; apply K; rewrite ?length_map; auto.
  - repeat split; apply Vector_of_total.
Qed.

(** On [v = Vector(1, 2)], [w = Vector(3, 4)], [s = 10] and [f] the negation,
    all seven operations return vectors of length 2. *)
Lemma elementwise_keep_length_example :
  List.length [VInt 3; VInt 4] = List.length [VInt 1; VInt 2]
  /\ Vector.__add__ [VInt 1; VInt 2] (Vec [VInt 3; VInt 4])
     = Ok (Vec [VInt 4; VInt 6])
  /\ exists xs,
       Vector.__floordiv__ [VInt 1; VInt 2] (VInt 10) = Ok (Vec xs)
       /\ List.length xs = 2%nat.
Proof.
  pose proof (@elementwise_operations_keep_length
                [VInt 1; VInt 2] [VInt 3; VInt 4] (VInt 10) py_neg eq_refl)
    as [K _].
  split; [reflexivity|]. split; [reflexivity|].
  destruct K as (_ & _ & _ & _ & K & _).
  destruct (K (Vec [VInt 0; VInt 0]) eq_refl) as (xs & E & L).
  exists xs. split; [now rewrite <- E | exact L].
Defined.

(** ** C8: commutativity *)


Lemma num_to_double_error (n : num) (e : exn) :
  num_to_double n = Raise e -> e = OverflowError.
Proof.
  destruct n as [z|q|f]; simpl.
  - unfold float_of_int. destruct (fnormalize z 0 false); congruence.
  - unfold float_of_frac, int_truediv.
    destruct (Qnum q); [congruence| |];
      match goal with
      | |- context [fdiv ?a ?b] => destruct (fdiv a b); congruence
      end.
  - discriminate.
Qed.




Lemma map_combine_swap {A B : Type} (g : A -> A -> B) (v w : list A) :
  List.map (fun p => g (snd p) (fst p)) (combine v w)
  = List.map (fun p => g (fst p) (snd p)) (combine w v).
Proof.
  revert w. induction v as [|a v IH]; intros [|b w]; simpl;
    try reflexivity.
  now rewrite IH.
Qed.



(** ** C4: magnitude_squared stays in the arithmetic of the elements *)

Lemma magnitude_squared_spec (self : Vector.vector) :
  Vector.magnitude_squared self
  = sum_results (VInt 0) (List.map (fun v => py_mul v v) self).
Proof. unfold Vector.magnitude_squared. apply py_sum_genexpr. Qed.

Lemma sum_results_int (zs : list Z) :
  forall a,
    sum_results (VInt a) (List.map (fun v => py_mul v v) (List.map VInt zs))
    = Ok (VInt (fold_left (fun a z => (a + z * z)%Z) zs a)).
Proof.
  induction zs as [|z zs IH]; intros a; simpl; [reflexivity | apply IH].
Qed.

Lemma sum_results_float (fs : list float) :
  forall a,
    sum_results (VFloat a)
      (List.map (fun v => py_mul v v) (List.map VFloat fs))
    = Ok (VFloat (fold_left (fun a x => fadd a (fmul x x)) fs a)).
Proof.
  induction fs as [|f fs IH]; intros a; simpl; [reflexivity | apply IH].
Qed.

Lemma fold_sum_squares_Qeq (qs : list Q) :
  forall a b, a == b ->
    fold_left (fun a q => a + q * q) qs a
    == fold_left (fun a q => a + q * q) qs b.
Proof.
  induction qs as [|q qs IH]; intros a b E; simpl; [exact E|].
  apply IH. now rewrite E.
Qed.

Lemma sum_results_frac (qs : list Q) :
  forall a, Qred a = a ->
    exists r,
      sum_results (VFrac a)
        (List.map (fun v => py_mul v v) (List.map VFrac qs))
      = Ok (VFrac r)
      /\ r == fold_left (fun a q => a + q * q) qs a
      /\ Qred r = r.
Proof.
  induction qs as [|q qs IH]; intros a Ha; simpl.
  - exists a. split; [reflexivity|]. split; [reflexivity | exact Ha].
  - destruct (IH (Qred (a + Qred (q * q)))) as (r & Hr & Er & Nr).
    { apply Qred_complete, Qred_correct. }
    exists r. split; [exact Hr|]. split; [|exact Nr].
    rewrite Er. apply fold_sum_squares_Qeq.
    now rewrite !Qred_correct.
Qed.

(** C4.  [magnitude_squared] adds the squares in the arithmetic of the
    elements: on ints the result is the int sum of squares, on Fractions it
    is a Fraction in lowest terms equal to the rational sum of squares, on
    floats it is the float obtained with float multiplications and additions
    only; on [1/2, 1/3] it is the Fraction [13/36]. *)
Theorem magnitude_squared_is_native :
  (forall zs, Vector.magnitude_squared (List.map VInt zs)
              = Ok (VInt (sum_squares_int zs)))
  /\ (forall q qs, exists r,
        Vector.magnitude_squared (List.map VFrac (q :: qs)) = Ok (VFrac r)
        /\ r == sum_squares_frac (q :: qs)
        /\ Qred r = r)
  /\ (forall f fs, Vector.magnitude_squared (List.map VFloat (f :: fs))
                   = Ok (VFloat (sum_squares_float (f :: fs))))
  /\ Vector.magnitude_squared [VFrac (1 # 2); VFrac (1 # 3)]
     = Ok (VFrac (13 # 36)).
Proof.
  split; [|split; [|split; [|reflexivity]]].
  - intros zs. rewrite magnitude_squared_spec. apply sum_results_int.
  - intros q qs. rewrite magnitude_squared_spec.
    change (sum_results (VInt 0)
              (List.map (fun v => py_mul v v) (List.map VFrac (q :: qs))))
      with (sum_results (VFrac (Qred (inject_Z 0 + Qred (q * q))))
              (List.map (fun v => py_mul v v) (List.map VFrac qs))).
    destruct (@sum_results_frac qs (Qred (inject_Z 0 + Qred (q * q))))
      as (r & Hr & Er & Nr).
    { apply Qred_complete, Qred_correct. }
    exists r. split; [exact Hr|]. split; [|exact Nr].
    rewrite Er. unfold sum_squares_frac. cbn [fold_left].
    apply fold_sum_squares_Qeq. rewrite !Qred_correct. reflexivity.
  - intros f fs. rewrite magnitude_squared_spec. simpl.
    apply sum_results_float.
Qed.

(** ** C6: operands outside the numeric protocol *)

(** C6, as stated, fails: a tuple of three [None]s and the str ["abc"] have a
    length but no numeric items, and adding or subtracting them to a
    2-vector raises IncompatibleDimensions; with two [None]s the TypeError of
    the first element addition comes out, not [NotImplemented]. *)
Lemma non_numeric_sequence_is_length_checked :
  numeric_sequence (Val (VTuple [VNone; VNone; VNone])) = false
  /\ Vector.__add__ [VInt 0; VInt 0] (Val (VTuple [VNone; VNone; VNone]))
     = Raise (IncompatibleDimensions 2 3)
  /\ numeric_sequence (Val (VStr "abc")) = false
  /\ Vector.__sub__ [VInt 0; VInt 0] (Val (VStr "abc"))
     = Raise (IncompatibleDimensions 2 3)
  /\ Vector.__add__ [VInt 0; VInt 0] (Val (VTuple [VNone; VNone]))
     = Raise TypeError.
Proof. repeat split. Qed.

(** C6, amended.  The test the four methods make is
    [isinstance(other, Sequence)].  An operand that is not a Sequence gets
    [NotImplemented] from [__add__], [__radd__], [__sub__] and [__rsub__], so
    no IncompatibleDimensions is raised for it.  An operand that is a
    Sequence is length-checked before any of its items is looked at: when the
    lengths differ IncompatibleDimensions is raised whatever the items are,
    and when they agree the outcome is that of the element operations. *)
Theorem add_sub_operand_protocol (self : Vector.vector) (other : object) :
  (is_Sequence other = false ->
   Vector.__add__ self other = Ok NotImplemented
   /\ Vector.__radd__ self other = Ok NotImplemented
   /\ Vector.__sub__ self other = Ok NotImplemented
   /\ Vector.__rsub__ self other = Ok NotImplemented)
  /\ (forall ys, is_Sequence other = true -> items other = Some ys ->
      (List.length self <> List.length ys ->
       Vector.__add__ self other
       = Raise (IncompatibleDimensions (List.length self) (List.length ys))
       /\ Vector.__sub__ self other
          = Raise (IncompatibleDimensions (List.length self)
                     (List.length ys)))
      /\ (List.length self = List.length ys ->
          Vector.__add__ self other
          = Vector.Vector_of
              (List.map (fun p => py_add (fst p) (snd p)) (combine self ys))
          /\ Vector.__sub__ self other
             = Vector.Vector_of
                 (List.map (fun p => py_sub (fst p) (snd p))
                    (combine self ys)))).
Proof.
  split.
  - intros H. unfold Vector.__add__, Vector.__radd__, Vector.__sub__,
      Vector.__rsub__. rewrite H. repeat split.
  - intros ys Hseq Hys.
    unfold Vector.__add__, Vector.__sub__, Vector.zip_other.
    rewrite Hseq, (check_compatibility_spec _ _ Hys),
      (iter_object_items _ Hys). cbn [negb].
    split; intros H.
    + apply Nat.eqb_neq in H. rewrite H. split; reflexivity.
    + rewrite H, Nat.eqb_refl. split; reflexivity.
Qed.

(** [Vector(0, 0) + 5] and [Vector(0, 0) - None] are answered with
    [NotImplemented]. *)
Lemma not_a_sequence_example :
  Vector.__add__ [VInt 0; VInt 0] (Val (VInt 5)) = Ok NotImplemented
  /\ Vector.__sub__ [VInt 0; VInt 0] (Val VNone) = Ok NotImplemented.
Proof.
  split.
  - exact (proj1 (proj1 (add_sub_operand_protocol
                           [VInt 0; VInt 0] (Val (VInt 5))) eq_refl)).
  - exact (proj1 (proj2 (proj2 (proj1 (add_sub_operand_protocol
                           [VInt 0; VInt 0] (Val VNone)) eq_refl)))).
Defined.

(** ** C7: the display format and reading it back *)

Lemma append_assoc (a b c : string) :
  ((a ++ b) ++ c = a ++ (b ++ c))%string.
Proof. induction a as [|x a IH]; simpl; [reflexivity | now rewrite IH]. Qed.

Lemma read_digits_stop (rest : string) :
  no_digit_ahead rest -> Reader.read_digits rest = (Decimal.Nil, rest).
Proof.
  destruct rest as [|c rest]; simpl; [reflexivity|]. now intros ->.
Qed.

Lemma read_digits_numeral (d : Decimal.uint) (rest : string) :
  no_digit_ahead rest ->
  Reader.read_digits (NilEmpty.string_of_uint d ++ rest) = (d, rest).
Proof.
  intros H. induction d; simpl;
    [now apply read_digits_stop | now rewrite IHd ..].
Qed.

(** The numeral [Z.to_int] writes has a digit and no redundant zero. *)
Lemma to_int_shape (z : Z) :
  exists d, d <> Decimal.Nil /\ Decimal.unorm d = d
            /\ (Z.to_int z = Decimal.Pos d \/ Z.to_int z = Decimal.Neg d).
Proof.
  pose proof (DecimalZ.to_of (Z.to_int z)) as H.
  rewrite DecimalZ.of_to in H.
  destruct (Z.to_int z) as [d|d]; exists d; simpl in H.
  - injection H as H. repeat split; [|congruence|now left].
    intros ->. discriminate.
  - assert (E : Decimal.unorm d = d).
    { unfold Decimal.unorm. destruct (Decimal.nzhead d); congruence. }
    repeat split; [|exact E|now right].
    intros ->. discriminate.
Qed.

Lemma numeral_head (d : Decimal.uint) (rest : string) :
  d <> Decimal.Nil ->
  exists c s, (NilEmpty.string_of_uint d ++ rest)%string = String c s
              /\ Reader.digit_of c <> None.
Proof.
  intros H. destruct d; [congruence| ..]; simpl;
    eexists; eexists; (split; [reflexivity | discriminate]).
Qed.

Lemma digit_is_no_mark (c : ascii) :
  Reader.digit_of c <> None ->
  Reader.is_char "-" c = false /\ Reader.is_char ")" c = false
  /\ Reader.is_char "(" c = false /\ Reader.is_char " " c = false.
Proof.
  unfold Reader.digit_of, Reader.is_char.
  repeat match goal with
         | |- context [Ascii.eqb c ?a] =>
           destruct (Ascii.eqb_spec c a) as [->|_];
           [intros _; repeat split; reflexivity|]
         end.
  congruence.
Qed.

Lemma read_int_repr (z : Z) (rest : string) :
  no_digit_ahead rest ->
  Reader.read_int (repr_int z ++ rest) = Some (VInt z, rest).
Proof.
  intros Hrest. unfold repr_int, Reader.read_int.
  destruct (to_int_shape z) as (d & Hnil & Hnorm & [E|E]);
    pose proof (DecimalZ.of_to z) as Hz; rewrite E in *;
    unfold NilEmpty.string_of_int.
  - destruct (@numeral_head d rest Hnil) as (c & s & Hs & Hc).
    rewrite Hs. unfold Reader.eat.
    destruct (@digit_is_no_mark c Hc) as (-> & _).
    rewrite <- Hs, (@read_digits_numeral d rest Hrest).
    destruct (Decimal.uint_eq_dec (Decimal.unorm d) d); [|contradiction].
    rewrite Hz. destruct d; [congruence|reflexivity..].
  - change (String "-" (NilEmpty.string_of_uint d) ++ rest)%string
      with (String "-" (NilEmpty.string_of_uint d ++ rest)).
    change (Reader.eat (Reader.is_char "-")
              (String "-" (NilEmpty.string_of_uint d ++ rest)))
      with (Some (NilEmpty.string_of_uint d ++ rest)%string).
    cbv iota beta.
    rewrite (@read_digits_numeral d rest Hrest).
    destruct (Decimal.uint_eq_dec (Decimal.unorm d) d); [|contradiction].
    rewrite Hz. destruct d; [congruence|reflexivity..].
Qed.

Lemma repr_int_head (z : Z) (rest : string) :
  exists c s, (repr_int z ++ rest)%string = String c s
              /\ Reader.is_char ")" c = false
              /\ Reader.is_char "(" c = false
              /\ Reader.is_char " " c = false.
Proof.
  unfold repr_int.
  destruct (to_int_shape z) as (d & Hnil & _ & [E|E]); rewrite E;
    unfold NilEmpty.string_of_int.
  - destruct (@numeral_head d rest Hnil) as (c & s & Hs & Hc).
    exists c, s. destruct (@digit_is_no_mark c Hc) as (_ & ? & ? & ?). auto.
  - eexists; eexists. split; [reflexivity|]. repeat split; reflexivity.
Qed.

Lemma skip_spaces_repr (z : Z) (rest : string) :
  Reader.skip_spaces (repr_int z ++ rest) = (repr_int z ++ rest)%string.
Proof.
  destruct (repr_int_head z rest) as (c & s & Hs & _ & _ & Hc).
  rewrite Hs. simpl. now rewrite Hc.
Qed.

Lemma eat_paren_repr (z : Z) (rest : string) :
  Reader.eat (Reader.is_char ")") (repr_int z ++ rest) = None.
Proof.
  destruct (repr_int_head z rest) as (c & s & Hs & Hc & _).
  rewrite Hs. simpl. now rewrite Hc.
Qed.

Lemma read_arg_repr (fuel : nat) (z : Z) (rest : string) :
  no_digit_ahead rest ->
  Reader.read_arg fuel (repr_int z ++ rest) = Some (VInt z, rest).
Proof.
  intros H. unfold Reader.read_arg.
  destruct (repr_int_head z rest) as (c & s & Hs & _ & Hc & _).
  rewrite Hs. unfold Reader.eat. rewrite Hc. rewrite <- Hs.
  now apply read_int_repr.
Qed.

Lemma read_seq_step (read_item : string -> option (value * string))
    (fuel : nat) (s X : string) (v : value) :
  Reader.eat (Reader.is_char ")") s = None ->
  read_item s = Some (v, (", " ++ X)%string) ->
  Reader.skip_spaces X = X ->
  Reader.read_seq read_item (S fuel) s
  = match Reader.read_seq read_item fuel X with
    | Some (vs, _, rest) => Some (v :: vs, true, rest)
    | None => None
    end.
Proof.
  intros H1 H2 H3. cbn [Reader.read_seq]. rewrite H1, H2.
  simpl. now rewrite H3.
Qed.

Lemma ints_text_cons (z z' : Z) (zs : list Z) :
  ints_text (z :: z' :: zs)
  = (repr_int z ++ ", " ++ ints_text (z' :: zs))%string.
Proof. reflexivity. Qed.

Lemma skip_spaces_ints_text (z : Z) (zs : list Z) (rest : string) :
  Reader.skip_spaces (ints_text (z :: zs) ++ rest)
  = (ints_text (z :: zs) ++ rest)%string.
Proof.
  destruct zs as [|z' zs].
  - apply skip_spaces_repr.
  - rewrite ints_text_cons, append_assoc. apply skip_spaces_repr.
Qed.

(** Reading the items [z1, z2, ...] followed by the closing parenthesis. *)
Lemma read_seq_ints (read_item : string -> option (value * string)) :
  (forall z rest, no_digit_ahead rest ->
                  read_item (repr_int z ++ rest)%string = Some (VInt z, rest)) ->
  forall zs fuel rest,
    zs <> [] -> (List.length zs < fuel)%nat ->
    exists comma,
      Reader.read_seq read_item fuel (ints_text zs ++ ")" ++ rest)
      = Some (List.map VInt zs, comma, rest).
Proof.
  intros Hitem zs. induction zs as [|z zs IH]; intros fuel rest Hne Hfuel;
    [congruence|].
  destruct fuel as [|fuel]; [simpl in Hfuel; lia|].
  destruct zs as [|z' zs].
  - exists false. unfold ints_text.
    cbn [List.map String.concat Reader.read_seq].
    rewrite eat_paren_repr, Hitem by reflexivity. reflexivity.
  - destruct (IH fuel rest) as (comma & Hrec);
      [congruence | simpl in *; lia |].
    exists true.
    rewrite ints_text_cons, !append_assoc.
    rewrite (@read_seq_step read_item fuel _
               (ints_text (z' :: zs) ++ ")" ++ rest)%string (VInt z)).
    + now rewrite Hrec.
    + apply eat_paren_repr.
    + apply Hitem. reflexivity.
    + apply skip_spaces_ints_text.
Qed.

Lemma string_length_append (a b : string) :
  String.length (a ++ b) = (String.length a + String.length b)%nat.
Proof. induction a as [|c a IH]; simpl; [reflexivity | now rewrite IH]. Qed.

Lemma repr_int_nonempty (z : Z) : (1 <= String.length (repr_int z))%nat.
Proof.
  destruct (repr_int_head z "") as (c & s & Hs & _).
  assert (E : repr_int z = String c s).
  { rewrite <- Hs. clear. induction (repr_int z) as [|x r IH]; simpl;
      [reflexivity | now rewrite <- IH]. }
  rewrite E. simpl. lia.
Qed.

Lemma ints_text_length (zs : list Z) :
  (List.length zs <= String.length (ints_text zs))%nat.
Proof.
  induction zs as [|z [|z' zs] IH].
  - simpl. lia.
  - unfold ints_text. simpl. apply repr_int_nonempty.
  - rewrite ints_text_cons, !string_length_append.
    pose proof (repr_int_nonempty z). simpl in *. lia.
Qed.

Lemma repr_items_ints (zs : list Z) :
  repr_items repr (List.map VInt zs) = Some (List.map repr_int zs).
Proof.
  induction zs as [|z zs IH]; simpl; [reflexivity|].
  simpl in IH. now rewrite IH.
Qed.

Lemma repr_of_ints (zs : list Z) :
  Vector.__repr__ (List.map VInt zs) = Some (rendering zs).
Proof.
  unfold Vector.__repr__. cbn [repr]. rewrite repr_items_ints.
  cbn [option_map]. unfold Vector.len_is. rewrite length_map.
  destruct zs as [|z [|z' zs]]; [reflexivity | | reflexivity].
  cbn [List.length Nat.eqb List.map repr_tuple rendering].
  now rewrite !append_assoc.
Qed.

Lemma eval_rendering (zs : list Z) :
  Reader.eval (rendering zs) = Some (Ok (Vec (List.map VInt zs))).
Proof.
  destruct zs as [|z [|z' zs]].
  - reflexivity.
  - unfold rendering, Reader.eval.
    change (Reader.strip_prefix "Vector(" ("Vector((" ++ repr_int z ++ ",))"))
      with (Some ("(" ++ repr_int z ++ ",))")%string).
    cbv iota beta.
    set (fuel := S (String.length ("Vector((" ++ repr_int z ++ ",))"))).
    assert (Hf : exists f, fuel = S (S f)) by (subst fuel; simpl; eauto).
    destruct Hf as (f & Hf).
    assert (Harg : Reader.read_arg fuel ("(" ++ repr_int z ++ ",))")
                   = Some (VTuple [VInt z], ")"%string)).
    { unfold Reader.read_arg.
      change (Reader.eat (Reader.is_char "(") ("(" ++ repr_int z ++ ",))"))
        with (Some (repr_int z ++ ",))")%string).
      cbv iota beta. rewrite Hf. cbn [Reader.read_seq].
      rewrite eat_paren_repr, read_int_repr by reflexivity.
      reflexivity. }
    rewrite Hf at 2. cbn [Reader.read_seq].
    change (Reader.eat (Reader.is_char ")") ("(" ++ repr_int z ++ ",))"))
      with (@None string).
    cbv iota beta. rewrite Harg. reflexivity.
  - unfold rendering, Reader.eval.
    change (Reader.strip_prefix "Vector("
              ("Vector(" ++ ints_text (z :: z' :: zs) ++ ")"))
      with (Some (ints_text (z :: z' :: zs) ++ ")" ++ "")%string).
    cbv iota beta.
    set (fuel := S (String.length
                      ("Vector(" ++ ints_text (z :: z' :: zs) ++ ")"))).
    destruct (@read_seq_ints (Reader.read_arg fuel)
                (fun z rest H => @read_arg_repr fuel z rest H)
                (z :: z' :: zs) fuel "") as (comma & ->).
    + discriminate.
    + subst fuel. rewrite string_length_append.
      pose proof (ints_text_length (z :: z' :: zs)).
      rewrite string_length_append. simpl in *. lia.
    + reflexivity.
Qed.



(** ** C3: vectors of magnitude zero *)

Lemma feq_zero (f : float) : feq f pzero = true -> is_fzero f = true.
Proof. destruct f as [s|s| |s m e]; try destruct s; cbv; congruence. Qed.

Lemma py_eq_zero_cases (v : value) :
  py_eq_zero v = true ->
  v = VInt 0
  \/ (exists q, v = VFrac q /\ Qnum q = 0%Z)
  \/ (exists s, v = VFloat (S754_zero s)).
Proof.
  destruct v as [|z|q|f| | | |]; simpl; try discriminate; intros H.
  - left. apply Z.eqb_eq in H. now subst.
  - right; left. exists q. split; [reflexivity | now apply Z.eqb_eq].
  - right; right. apply feq_zero in H.
    destruct f; try discriminate. eauto.
Qed.

Lemma math_sqrt_float (v m : value) :
  math_sqrt v = Ok m -> exists f, m = VFloat f.
Proof.
  unfold math_sqrt, math_1. destruct (as_double v) as [x|e]; simpl;
    [|discriminate].
  destruct (is_nan (fsqrt x) && negb (is_nan x)); [discriminate|].
  destruct (is_inf (fsqrt x) && is_finite x); [discriminate|].
  intros H; inversion H; eauto.
Qed.

Lemma math_sqrt_of_zero (v : value) :
  py_eq_zero v = true ->
  exists s, math_sqrt v = Ok (VFloat (S754_zero s)).
Proof.
  intros H. destruct (@py_eq_zero_cases _ H) as [->|[(q & -> & Hq)|(s & ->)]].
  - exists false. reflexivity.
  - exists false. destruct q as [n d]. simpl in Hq. subst n. reflexivity.
  - exists s. reflexivity.
Qed.

Lemma as_double_num (v : value) :
  is_ok (as_double v) = true -> exists n, as_num v = Some n
                                         /\ is_ok (num_to_double n) = true.
Proof.
  unfold as_double. destruct (as_num v) as [n|]; [eauto | discriminate].
Qed.

(** Dividing by a float zero, the dividend having been converted. *)
Lemma truediv_by_float_zero (v : value) (s : bool) :
  is_ok (as_double v) = true ->
  py_truediv v (VFloat (S754_zero s)) = Raise ZeroDivisionError.
Proof.
  intros H. destruct (@as_double_num _ H) as (n & Hn & Hd).
  unfold py_truediv. rewrite Hn. simpl.
  destruct n as [z|q|f]; unfold num_truediv, tower;
    destruct (num_to_double _) eqn:E; try discriminate; reflexivity.
Qed.

Lemma magnitude_zero_float (self : Vector.vector) (m : value) :
  Vector.magnitude self = Ok m -> py_eq_zero m = true ->
  exists s, m = VFloat (S754_zero s).
Proof.
  unfold Vector.magnitude, Vector.__abs__. intros H Hz.
  apply bind_inv in H as (ms & _ & H).
  destruct (@math_sqrt_float _ _ H) as (f & ->).
  simpl in Hz. apply feq_zero in Hz. destruct f; try discriminate. eauto.
Qed.

Lemma scaled_at_zero (self : Vector.vector) (m s : value) :
  Vector.magnitude self = Ok m -> py_eq_zero m = true ->
  is_ok (as_double s) = true ->
  Vector.scaled self s = Raise ZeroDivisionError.
Proof.
  intros Hm Hz Hs. destruct (@magnitude_zero_float _ _ Hm Hz) as (b & ->).
  unfold Vector.scaled. unfold Vector.magnitude in Hm. rewrite Hm. simpl.
  now rewrite truediv_by_float_zero.
Qed.

Lemma normalized_at_zero (v0 : value) (rest : Vector.vector) (m : value) :
  Vector.magnitude (v0 :: rest) = Ok m -> py_eq_zero m = true ->
  is_ok (as_double v0) = true ->
  Vector.normalized (v0 :: rest) = Raise ZeroDivisionError.
Proof.
  intros Hm Hz Hs. destruct (@magnitude_zero_float _ _ Hm Hz) as (b & ->).
  unfold Vector.normalized. unfold Vector.magnitude in Hm. rewrite Hm.
  cbn [bind]. unfold Vector.__truediv__. rewrite Vector_of_spec.
  cbn [List.map sequence]. now rewrite truediv_by_float_zero.
Qed.

Lemma is_zero_magnitude (self : Vector.vector) :
  Vector.is_zero self = Ok true ->
  exists m, Vector.magnitude self = Ok m /\ py_eq_zero m = true.
Proof.
  unfold Vector.is_zero, Vector.magnitude, Vector.__abs__. intros H.
  apply bind_inv in H as (ms & E & H). injection H as H.
  rewrite E. cbn [bind].
  destruct (@math_sqrt_of_zero _ H) as (s & ->).
  exists (VFloat (S754_zero s)). split; reflexivity.
Qed.

(** *** Kinds of numbers along a sum *)

Lemma py_mul_self_float (x p : value) :
  py_mul x x = Ok p -> is_num p = true /\ (is_float p = true -> is_float x = true).
Proof.
  destruct x as [|z|q|f|s|xs|xs|xs fin]; simpl; try discriminate;
    intros H; inversion H; subst; simpl; auto.
Qed.

Lemma py_mul_float_left (x y p : value) :
  is_float x = true -> py_mul x y = Ok p -> is_float p = true.
Proof.
  destruct x as [| | |f| | | |]; try discriminate. intros _.
  destruct y as [|z|q|g|s|xs|xs|xs fin];
    cbv [py_mul as_num num_mul tower num_to_double bind];
    try discriminate.
  - destruct (float_of_int z); intros H; inversion H; reflexivity.
  - destruct (float_of_frac q); intros H; inversion H; reflexivity.
  - intros H; inversion H; reflexivity.
Qed.

Lemma py_add_num (a b r : value) :
  is_num a = true -> py_add a b = Ok r ->
  is_num r = true
  /\ (is_float a = true \/ is_float b = true -> is_float r = true)
  /\ (is_float r = true -> is_float a = true \/ is_float b = true).
Proof.
  destruct a as [|x|p|f| | | |]; try discriminate; intros _;
    destruct b as [|y|q|g|s|xs|xs|xs fin];
    cbv [py_add as_num num_add tower num_to_double bind];
    try discriminate;
    repeat match goal with
           | |- context [float_of_int ?z] => destruct (float_of_int z)
           | |- context [float_of_frac ?z] => destruct (float_of_frac z)
           end;
    try discriminate;
    intros H; inversion H; subst; simpl;
    (split; [reflexivity|]); split; intros; intuition congruence.
Qed.

(** If the sum of the squares ends a float, the dot product with any operand
    ends a float as well. *)
Lemma dot_is_float_when_squares_are (self ys : list value) :
  forall am ad fm d,
    is_num am = true -> is_num ad = true ->
    (is_float am = true -> is_float ad = true) ->
    sum_results am (List.map (fun v => py_mul v v) self) = Ok (VFloat fm) ->
    List.length self = List.length ys ->
    sum_results ad
      (List.map (fun p => py_mul (fst p) (snd p)) (combine self ys)) = Ok d ->
    is_float d = true.
Proof.
  revert ys. induction self as [|x self IH]; intros ys am ad fm d Nm Nd Inv Hm Hlen Hd.
  - simpl in *. inversion Hm; subst. inversion Hd; subst. now apply Inv.
  - destruct ys as [|y ys]; [discriminate|]. simpl in Hm, Hd.
    destruct (py_mul x x) as [sq|] eqn:Esq; [|discriminate].
    apply bind_inv in Hm as (am' & Eam & Hm).
    destruct (py_mul x y) as [p|] eqn:Ep; [|discriminate].
    apply bind_inv in Hd as (ad' & Ead & Hd).
    destruct (@py_mul_self_float _ _ Esq) as (_ & Fsq).
    destruct (@py_add_num _ _ _ Nm Eam) as (Nm' & _ & Fm').
    destruct (@py_add_num _ _ _ Nd Ead) as (Nd' & Fd' & _).
    apply (IH ys am' ad' fm d Nm' Nd'); auto.
    intros F. apply Fd'. destruct (Fm' F) as [F1|F1].
    + left. auto.
    + right. apply (@py_mul_float_left _ _ _ (Fsq F1) Ep).
Qed.

Lemma sum_results_num (rs : list (result value)) :
  forall a r, is_num a = true -> sum_results a rs = Ok r -> is_num r = true.
Proof.
  induction rs as [|[v|e] rs IH]; simpl; intros a r Na H.
  - now inversion H; subst.
  - apply bind_inv in H as (a' & Ea & H).
    destruct (@py_add_num _ _ _ Na Ea) as (Na' & _). eauto.
  - discriminate.
Qed.

(** Dividing a number by a zero of any kind, when a float divisor meets a
    float dividend. *)
Lemma truediv_by_zero (d ms : value) :
  is_num d = true -> py_eq_zero ms = true ->
  (is_float ms = true -> is_float d = true) ->
  py_truediv d ms = Raise ZeroDivisionError.
Proof.
  intros Nd Hz Hk.
  destruct (@py_eq_zero_cases _ Hz) as [->|[(q & -> & Hq)|(s & ->)]].
  - destruct d as [|x|p|f| | | |]; try discriminate; reflexivity.
  - destruct q as [n dn]. simpl in Hq. subst n.
    destruct d as [|x|p|f| | | |]; try discriminate; reflexivity.
  - specialize (Hk eq_refl).
    destruct d as [| | |f| | | |]; try discriminate. reflexivity.
Qed.

Lemma dot_spec (self : Vector.vector) (other : object) (ys : list value) :
  items other = Some ys ->
  Vector.dot self other
  = if Nat.eqb (List.length self) (List.length ys)
    then sum_results (VInt 0)
           (List.map (fun p => py_mul (fst p) (snd p)) (combine self ys))
    else Raise (IncompatibleDimensions (List.length self) (List.length ys)).
Proof.
  intros H. unfold Vector.dot, Vector.zip_other.
  rewrite (@check_compatibility_spec self other ys H), (@iter_object_items other ys H).
  destruct (Nat.eqb _ _); [|reflexivity]. cbn [bind].
  apply py_sum_genexpr.
Qed.

Lemma dot_needs_items (self : Vector.vector) (other : object) (d : value) :
  Vector.dot self other = Ok d ->
  exists ys, items other = Some ys /\ List.length self = List.length ys.
Proof.
  intros H. destruct (items other) as [ys|] eqn:E.
  - exists ys. split; [reflexivity|].
    rewrite (@dot_spec self other ys E) in H.
    destruct (Nat.eqb_spec (List.length self) (List.length ys));
      [assumption | discriminate].
  - unfold Vector.dot, Vector._check_compatibility, py_len in H.
    rewrite E in H. discriminate.
Qed.

Lemma projected_at_zero (self : Vector.vector) (other : object) :
  Vector.is_zero self = Ok true ->
  Vector.projected self other
  = match Vector.dot self other with
    | Ok _ => Raise ZeroDivisionError
    | Raise e => Raise e
    end.
Proof.
  intros Hz. unfold Vector.projected.
  destruct (Vector.dot self other) as [d|e] eqn:Ed; [|reflexivity].
  cbn [bind]. unfold Vector.is_zero in Hz.
  apply bind_inv in Hz as (ms & Ems & Hz). injection Hz as Hz.
  rewrite Ems. cbn [bind].
  destruct (@dot_needs_items _ _ _ Ed) as (ys & Hys & Hlen).
  rewrite (@dot_spec self other ys Hys), Hlen, Nat.eqb_refl in Ed.
  rewrite magnitude_squared_spec in Ems.
  rewrite truediv_by_zero; [reflexivity | | exact Hz |].
  - now apply (@sum_results_num _ (VInt 0) d eq_refl Ed).
  - destruct ms as [| | |fm| | | |]; try discriminate. intros _.
    now apply (@dot_is_float_when_squares_are self ys (VInt 0) (VInt 0) fm d).
Qed.

(** *** Exact elements *)

Lemma exact_zero_iff (v : value) :
  is_exact v = true -> (py_eq_zero v = true <-> qval v == 0).
Proof.
  destruct v as [|z|q| | | | |]; try discriminate; intros _;
    cbn [py_eq_zero qval]; rewrite Z.eqb_eq; unfold Qeq; simpl;
    split; intros; lia.
Qed.

Lemma exact_square (x : value) :
  is_exact x = true ->
  exists sq, py_mul x x = Ok sq /\ is_exact sq = true
             /\ qval sq == qval x * qval x.
Proof.
  destruct x as [|z|q| | | | |]; try discriminate; intros _.
  - exists (VInt (z * z)). split; [reflexivity|]. split; [reflexivity|].
    cbn [qval]. rewrite inject_Z_mult. reflexivity.
  - exists (VFrac (Qred (q * q))). split; [reflexivity|].
    split; [reflexivity|]. cbn [qval]. apply Qred_correct.
Qed.

Lemma exact_add (a b : value) :
  is_exact a = true -> is_exact b = true ->
  exists r, py_add a b = Ok r /\ is_exact r = true
            /\ qval r == qval a + qval b.
Proof.
  destruct a as [|x|p| | | | |]; try discriminate; intros _;
    destruct b as [|y|q| | | | |]; try discriminate; intros _;
    eexists; (split; [reflexivity|]); (split; [reflexivity|]);
    cbn [qval]; try apply Qred_correct.
  rewrite inject_Z_plus. reflexivity.
Qed.

Lemma exact_squares_grow (xs : list value) :
  forall acc r,
    is_exact acc = true ->
    Forall (fun x => is_exact x = true) xs ->
    sum_results acc (List.map (fun v => py_mul v v) xs) = Ok r ->
    is_exact r = true /\ qval acc <= qval r.
Proof.
  induction xs as [|x xs IH]; intros acc r Ea Hx Hr.
  - simpl in Hr. inversion Hr; subst. split; [exact Ea | apply Qle_refl].
  - inversion Hx as [|? ? Ex Hxs]; subst.
    destruct (@exact_square x Ex) as (sq & Esq & Xsq & Qsq).
    destruct (@exact_add acc sq Ea Xsq) as (acc' & Eacc & Xacc & Qacc).
    simpl in Hr. rewrite Esq in Hr. simpl in Hr. rewrite Eacc in Hr.
    simpl in Hr.
    destruct (IH acc' r Xacc Hxs Hr) as (Xr & Lr).
    split; [exact Xr|]. rewrite Qacc, Qsq in Lr. nra.
Qed.

Lemma exact_squares_all_zero (xs : list value) :
  forall acc r,
    is_exact acc = true -> 0 <= qval acc ->
    Forall (fun x => is_exact x = true) xs ->
    sum_results acc (List.map (fun v => py_mul v v) xs) = Ok r ->
    py_eq_zero r = true ->
    Forall (fun x => py_eq_zero x = true) xs.
Proof.
  induction xs as [|x xs IH]; intros acc r Ea Pa Hx Hr Hz; [constructor|].
  inversion Hx as [|? ? Ex Hxs]; subst.
  destruct (@exact_square x Ex) as (sq & Esq & Xsq & Qsq).
  destruct (@exact_add acc sq Ea Xsq) as (acc' & Eacc & Xacc & Qacc).
  simpl in Hr. rewrite Esq in Hr. simpl in Hr. rewrite Eacc in Hr.
  simpl in Hr.
  destruct (@exact_squares_grow xs acc' r Xacc Hxs Hr) as (Xr & Lr).
  apply (exact_zero_iff r Xr) in Hz.
  assert (Pacc : 0 <= qval acc') by (rewrite Qacc, Qsq; nra).
  constructor.
  - apply (exact_zero_iff x Ex).
    rewrite Qacc, Qsq in Lr.
    assert (S : qval x * qval x == 0) by nra.
    apply Qmult_integral in S. tauto.
  - apply (IH acc' r Xacc Pacc Hxs Hr). now apply (exact_zero_iff r Xr).
Qed.

Lemma zero_converts (v : value) :
  is_exact v = true -> py_eq_zero v = true -> is_ok (as_double v) = true.
Proof.
  destruct v as [|z|[n d]| | | | |]; try discriminate; intros _; simpl.
  - rewrite Z.eqb_eq. now intros ->.
  - rewrite Z.eqb_eq. now intros ->.
Qed.

Lemma normalized_exact_at_zero (v0 : value) (rest : Vector.vector) :
  Forall (fun x => is_exact x = true) (v0 :: rest) ->
  Vector.is_zero (v0 :: rest) = Ok true ->
  Vector.normalized (v0 :: rest) = Raise ZeroDivisionError.
Proof.
  intros Hex Hz.
  destruct (@is_zero_magnitude _ Hz) as (m & Hm & Hm0).
  apply (@normalized_at_zero v0 rest m Hm Hm0).
  unfold Vector.is_zero in Hz. apply bind_inv in Hz as (ms & Ems & Hz).
  injection Hz as Hz. rewrite magnitude_squared_spec in Ems.
  pose proof (@exact_squares_all_zero (v0 :: rest) (VInt 0) ms eq_refl
                (Qle_refl 0) Hex Ems Hz) as Hall.
  inversion Hall; subst. inversion Hex; subst.
  now apply zero_converts.
Qed.

(** C3, as stated, fails.  The empty vector has magnitude zero and
    [normalized()] returns it; [projected] on an operand of another length
    raises IncompatibleDimensions before it divides; [scaled(s)] with an int
    [s] beyond the range of a double raises OverflowError; and a vector of
    Fractions so small that its magnitude rounds to zero is projected onto
    without any exception. *)
Lemma zero_magnitude_counterexample :
  (Vector.magnitude [] = Ok (VFloat pzero)
   /\ Vector.normalized [] = Ok (Vec []))
  /\ (Vector.magnitude [VInt 0; VInt 0] = Ok (VFloat pzero)
      /\ Vector.projected [VInt 0; VInt 0]
           (Val (VTuple [VInt 1; VInt 2; VInt 3]))
         = Raise (IncompatibleDimensions 2 3))
  /\ Vector.scaled [VInt 0; VInt 0] (VInt (10 ^ 400)) = Raise OverflowError
  /\ (Vector.magnitude [VFrac (1 # 10 ^ 200); VInt 0] = Ok (VFloat pzero)
      /\ Vector.projected [VFrac (1 # 10 ^ 200); VInt 0]
           (Val (VTuple [VInt 1; VInt 0]))
         = Ok (Vec [VFrac 1; VFrac 0])).
Proof. repeat split; vm_compute; reflexivity. Qed.

(** C3, amended.  On a vector whose magnitude is zero, [scaled(s)] raises
    ZeroDivisionError for every scalar [s] that is a float or converts to
    one (an int or a Fraction within the range of a double), and
    [normalized()] raises it when the vector has a first element and that
    element is a float or converts to one.  On a vector for which [is_zero]
    holds ([magnitude_squared == 0]) the magnitude is zero; [normalized()]
    raises ZeroDivisionError if the vector is non-empty and made of ints and
    Fractions; and [projected(other)] raises ZeroDivisionError whenever
    [dot(other)] returns, and otherwise raises what [dot] raises, which is
    IncompatibleDimensions when the lengths differ.  ZeroDivisionError is
    neither IncompatibleDimensions nor the dimension error. *)
Theorem zero_magnitude_raises_ZeroDivisionError (self : Vector.vector) :
  (forall m, Vector.magnitude self = Ok m -> py_eq_zero m = true ->
     (forall s, is_ok (as_double s) = true ->
                Vector.scaled self s = Raise ZeroDivisionError)
     /\ (forall v0 rest, self = v0 :: rest -> is_ok (as_double v0) = true ->
           Vector.normalized self = Raise ZeroDivisionError))
  /\ (Vector.is_zero self = Ok true ->
      (exists m, Vector.magnitude self = Ok m /\ py_eq_zero m = true)
      /\ (self <> [] -> Forall (fun x => is_exact x = true) self ->
          Vector.normalized self = Raise ZeroDivisionError)
      /\ (forall other,
            Vector.projected self other
            = match Vector.dot self other with
              | Ok _ => Raise ZeroDivisionError
              | Raise e => Raise e
              end)
      /\ (forall other ys, items other = Some ys ->
            List.length self <> List.length ys ->
            Vector.projected self other
            = Raise (IncompatibleDimensions (List.length self)
                       (List.length ys))))
  /\ (forall n m name,
        ZeroDivisionError <> IncompatibleDimensions n m
        /\ ZeroDivisionError <> Vector._dimension_error self name).
Proof.
  split; [|split].
  - intros m Hm Hz. split.
    + intros s Hs. now apply (@scaled_at_zero self m s).
    + intros v0 rest -> Hv. now apply (@normalized_at_zero v0 rest m).
  - intros Hz. split; [now apply is_zero_magnitude|]. split; [|split].
    + intros Hne Hex. destruct self as [|v0 rest]; [congruence|].
      now apply normalized_exact_at_zero.
    + intros other. now apply projected_at_zero.
    + intros other ys Hys Hne.
      rewrite (@projected_at_zero self other Hz), (@dot_spec self other ys Hys).
      apply Nat.eqb_neq in Hne. now rewrite Hne.
  - intros n m name. split; discriminate.
Qed.

(** The three instances of the documentation: [Vector(0, 0).scaled(3)],
    [Vector(0, 0, 0).normalized()] and
    [Vector(0, 0, 0, 0).projected((1, 2, 3, 4))] raise ZeroDivisionError. *)
Lemma zero_magnitude_examples :
  Vector.scaled [VInt 0; VInt 0] (VInt 3) = Raise ZeroDivisionError
  /\ Vector.normalized [VInt 0; VInt 0; VInt 0] = Raise ZeroDivisionError
  /\ Vector.projected [VInt 0; VInt 0; VInt 0; VInt 0]
       (Val (VTuple [VInt 1; VInt 2; VInt 3; VInt 4]))
     = Raise ZeroDivisionError.
Proof.
  split; [|split].
  - exact (proj1 (proj1 (zero_magnitude_raises_ZeroDivisionError
                           [VInt 0; VInt 0])
                    (VFloat pzero) eq_refl eq_refl) (VInt 3) eq_refl).
  - exact (proj2 (proj1 (zero_magnitude_raises_ZeroDivisionError
                           [VInt 0; VInt 0; VInt 0])
                    (VFloat pzero) eq_refl eq_refl)
             (VInt 0) [VInt 0; VInt 0] eq_refl eq_refl).
  - exact (proj1 (proj2 (proj2 (proj1 (proj2
             (zero_magnitude_raises_ZeroDivisionError
                [VInt 0; VInt 0; VInt 0; VInt 0])) eq_refl)))
             (Val (VTuple [VInt 1; VInt 2; VInt 3; VInt 4]))).
Defined.


(** ** C5: angle_to *)

(** *** Signs of floats *)

Lemma binary_round_aux_sign (m e : Z) (l : location) :
  signbit (binary_round_aux prec emax false m e l) = false.
Proof.
  unfold binary_round_aux.
  destruct (shr_fexp prec emax m e l) as [mrs' e'].
  destruct (shr_fexp prec emax _ e' loc_Exact) as [mrs'' e''].
  destruct (shr_m mrs''); [reflexivity | | reflexivity].
  destruct (Z.leb e'' (emax - prec)); reflexivity.
Qed.

Lemma binary_round_sign (m : positive) (e : Z) :
  signbit (binary_round prec emax false m e) = false.
Proof.
  unfold binary_round. destruct (shl_align _ _ _) as [mz ez].
  apply binary_round_aux_sign.
Qed.

Lemma fnormalize_sign (m e : Z) :
  (0 <= m)%Z -> signbit (fnormalize m e false) = false.
Proof.
  intros H. unfold fnormalize, binary_normalize.
  destruct m; [reflexivity | apply binary_round_sign | lia].
Qed.

Lemma float_of_int_sign (z : Z) (f : float) :
  (0 <= z)%Z -> float_of_int z = Ok f -> signbit f = false.
Proof.
  intros Hz. unfold float_of_int.
  pose proof (fnormalize_sign 0 Hz) as S.
  destruct (fnormalize z 0 false); intros H; inversion H; subst; exact S.
Qed.

Lemma int_truediv_sign (a b : Z) (f : float) :
  (0 <= a)%Z -> (0 < b)%Z -> int_truediv a b = Ok f -> signbit f = false.
Proof.
  intros Ha Hb. unfold int_truediv.
  destruct b as [|b|b]; try lia. destruct a as [|a|a]; try lia.
  - intros H; inversion H; reflexivity.
  - cbn [Z.ltb Z.compare Z.abs Z.to_pos].
    assert (S : signbit (fdiv (S754_finite false a 0) (S754_finite false b 0))
                = false).
    { unfold fdiv, SFdiv.
      destruct (SFdiv_core_binary prec emax (Z.pos a) 0 (Z.pos b) 0)
        as [[mz ez] lz].
      apply binary_round_aux_sign. }
    destruct (fdiv _ _); intros H; inversion H; subst; exact S.
Qed.

Lemma fadd_sign (x y : float) :
  signbit x = false -> signbit y = false -> signbit (fadd x y) = false.
Proof.
  destruct x as [sx|sx| |sx mx ex], y as [sy|sy| |sy my ey];
    cbn [signbit]; intros Hx Hy; subst; try reflexivity.
  unfold fadd, SFadd. apply fnormalize_sign. cbn [cond_Zopp]. lia.
Qed.

Lemma fmul_self_sign (f : float) : signbit (fmul f f) = false.
Proof.
  destruct f as [s|s| |s m e]; simpl; try apply xorb_nilpotent;
    try reflexivity.
  unfold fmul, SFmul. rewrite xorb_nilpotent. apply binary_round_aux_sign.
Qed.

Lemma fsqrt_sign (x : float) :
  signbit x = false -> signbit (fsqrt x) = false.
Proof.
  destruct x as [s|s| |s m e]; cbn [signbit]; intros Hs; subst;
    try reflexivity.
  unfold fsqrt, SFsqrt.
  destruct (SFsqrt_core_binary prec emax (Z.pos m) e) as [[mz ez] lz].
  apply binary_round_aux_sign.
Qed.

Lemma fabs_sign (f : float) : signbit (fabs f) = false.
Proof. destruct f; reflexivity. Qed.

(** *** Numbers that are not below zero *)

Lemma ok_inj {A : Type} (a b : A) : Ok a = Ok b -> a = b.
Proof. congruence. Qed.

Lemma as_double_nonneg (v : value) (f : float) :
  nonneg_val v = true -> as_double v = Ok f -> signbit f = false.
Proof.
  destruct v as [|z|q|g| | | |]; try discriminate; cbn [nonneg_val]; intros H.
  - apply Z.leb_le in H. now apply float_of_int_sign.
  - apply Qle_bool_iff in H. unfold as_double, as_num, num_to_double,
      float_of_frac. apply int_truediv_sign; [|reflexivity].
    unfold Qle in H. simpl in H. lia.
  - intros E. inversion E; subst. now destruct (signbit f).
Qed.

Lemma square_nonneg (x sq : value) :
  py_mul x x = Ok sq -> nonneg_val sq = true.
Proof.
  destruct x as [|z|q|f| | | |]; try discriminate;
    cbv [py_mul as_num num_mul tower]; intros H; apply ok_inj in H;
    subst sq; cbn [nonneg_val].
  - apply Z.leb_le. nia.
  - apply Qle_bool_iff. rewrite Qred_correct. nra.
  - now rewrite fmul_self_sign.
Qed.

Lemma inject_Z_nonneg (z : Z) : (0 <=? z)%Z = true -> 0 <= inject_Z z.
Proof.
  intros H. apply Z.leb_le in H. unfold Qle. simpl. lia.
Qed.

Lemma add_nonneg (a b r : value) :
  nonneg_val a = true -> nonneg_val b = true -> py_add a b = Ok r ->
  nonneg_val r = true.
Proof.
  intros Ha Hb.
  assert (F : forall fa fb,
             as_double a = Ok fa -> as_double b = Ok fb ->
             negb (signbit (fadd fa fb)) = true).
  { intros fa fb Ea Eb.
    now rewrite (fadd_sign _ _ (as_double_nonneg _ Ha Ea)
                   (as_double_nonneg _ Hb Eb)). }
  destruct a as [|x|p|f| | | |]; try discriminate;
    destruct b as [|y|q|g| | | |]; try discriminate;
    cbv [py_add as_num num_add tower num_to_double bind];
    cbn [nonneg_val] in *;
    try (intros H; apply ok_inj in H; subst r; cbn [nonneg_val]);
    try (apply Z.leb_le; apply Z.leb_le in Ha, Hb; lia);
    try (apply Qle_bool_iff; rewrite Qred_correct;
         repeat match goal with
                | H : (0 <=? _)%Z = true |- _ => apply inject_Z_nonneg in H
                | H : Qle_bool 0 _ = true |- _ => apply Qle_bool_iff in H
                end; lra).
  - destruct (float_of_int x) as [fa|] eqn:E; [|discriminate].
    intros H; inversion H; subst. now apply F.
  - destruct (float_of_frac p) as [fa|] eqn:E; [|discriminate].
    intros H; inversion H; subst. now apply F.
  - destruct (float_of_int y) as [fb|] eqn:E; [|discriminate].
    intros H; inversion H; subst. now apply F.
  - destruct (float_of_frac q) as [fb|] eqn:E; [|discriminate].
    intros H; inversion H; subst. now apply F.
  - now apply F.
Qed.

Lemma sum_squares_nonneg (xs : list value) :
  forall acc r,
    nonneg_val acc = true ->
    sum_results acc (List.map (fun v => py_mul v v) xs) = Ok r ->
    nonneg_val r = true.
Proof.
  induction xs as [|x xs IH]; intros acc r Ha H; simpl in H.
  - now inversion H; subst.
  - destruct (py_mul x x) as [sq|] eqn:Esq; [|discriminate].
    apply bind_inv in H as (acc' & Eacc & H).
    apply (IH acc' r); [|exact H].
    apply (@add_nonneg acc sq acc' Ha (@square_nonneg x sq Esq) Eacc).
Qed.

Lemma abs_object_nonneg (c : object) (a : value) :
  Vector.abs_object c = Ok a -> nonneg_val a = true.
Proof.
  destruct c as [v|xs|]; simpl; [| |discriminate].
  - destruct v as [|z|q|f| | | |]; try discriminate;
      cbv [py_abs]; intros H; apply ok_inj in H; subst a;
      cbn [nonneg_val].
    + apply Z.leb_le, Z.abs_nonneg.
    + apply Qle_bool_iff, Qabs_nonneg.
    + now rewrite fabs_sign.
  - unfold Vector.__abs__. intros H.
    apply bind_inv in H as (ms & Ems & H).
    rewrite magnitude_squared_spec in Ems.
    pose proof (@sum_squares_nonneg xs (VInt 0) ms eq_refl Ems) as Nms.
    unfold math_sqrt, math_1 in H.
    destruct (as_double ms) as [x|] eqn:Ex; [|discriminate]. cbn [bind] in H.
    destruct (is_nan (fsqrt x) && negb (is_nan x)); [discriminate|].
    destruct (is_inf (fsqrt x) && is_finite x); [discriminate|].
    inversion H; subst. cbn [nonneg_val].
    now rewrite (fsqrt_sign _ (as_double_nonneg _ Nms Ex)).
Qed.

(** *** The range of atan2 above the x axis *)

Lemma m_atan2_range (L : Libm) (y x : float) :
  atan2_upper_half L -> signbit y = false ->
  is_nan (m_atan2 L y x) = true \/ in_zero_pi (m_atan2 L y x) = true.
Proof.
  intros HL Hy. unfold m_atan2.
  destruct y as [sy|sy| |sy my ey]; cbn [signbit] in Hy; subst;
    destruct x as [sx|sx| |sx mx ex]; try destruct sx;
    cbn [is_nan is_inf is_fzero orb negb signbit];
    first [ left; reflexivity
          | right; apply HL; reflexivity
          | right; vm_compute; reflexivity ].
Qed.

Lemma math_atan2_range (L : Libm) (vy vx r : value) :
  atan2_upper_half L -> nonneg_val vy = true ->
  math_atan2 L vy vx = Ok r ->
  exists f, r = VFloat f /\ (is_nan f = true \/ in_zero_pi f = true).
Proof.
  intros HL Hy. unfold math_atan2.
  destruct (as_double vy) as [y|] eqn:Ey; [|discriminate]. cbn [bind].
  destruct (as_double vx) as [x|] eqn:Ex; [|discriminate]. cbn [bind].
  destruct (is_nan (m_atan2 L y x) && negb (is_nan y) && negb (is_nan x));
    [discriminate|].
  destruct (is_inf (m_atan2 L y x) && is_finite y && is_finite x);
    [discriminate|].
  intros H; inversion H; subst. eexists. split; [reflexivity|].
  apply m_atan2_range; [exact HL|].
  exact (as_double_nonneg _ Hy Ey).
Qed.

(** *** The two branches *)

Lemma angle_to_low (L : Libm) (self : Vector.vector) (other : object) :
  Vector.len_is self 2 || Vector.len_is self 3 = true ->
  Vector.angle_to L self other
  = (c <- Vector.cross self other ;;
     a <- Vector.abs_object c ;;
     d <- Vector.dot self other ;;
     math_atan2 L a d).
Proof. intros H. unfold Vector.angle_to. now rewrite H. Qed.

Lemma angle_to_generic (L : Libm) (self : Vector.vector) (other : object) :
  Vector.len_is self 2 || Vector.len_is self 3 = false ->
  Vector.angle_to L self other
  = (d <- Vector.dot self other ;;
     p <- squared_magnitudes_product self other ;;
     r <- math_sqrt p ;;
     q <- py_truediv d r ;;
     math_acos L q).
Proof.
  intros H. unfold Vector.angle_to, squared_magnitudes_product.
  rewrite H. destruct (Vector.dot self other); [|reflexivity]. cbn [bind].
  destruct (Vector.magnitude_squared self); [|reflexivity]. cbn [bind].
  destruct (iter_object other); [|reflexivity]. cbn [bind].
  destruct (py_sum _); reflexivity.
Qed.

Lemma angle_to_low_range (L : Libm) (self : Vector.vector) (other : object)
    (r : value) :
  atan2_upper_half L ->
  Vector.len_is self 2 || Vector.len_is self 3 = true ->
  Vector.angle_to L self other = Ok r ->
  exists f, r = VFloat f /\ (is_nan f = true \/ in_zero_pi f = true).
Proof.
  intros HL Hlen H. rewrite (angle_to_low L self other Hlen) in H.
  apply bind_inv in H as (c & _ & H).
  apply bind_inv in H as (a & Ea & H).
  apply bind_inv in H as (d & _ & H).
  apply (@math_atan2_range L a d r HL (@abs_object_nonneg c a Ea) H).
Qed.

Lemma angle_to_zero_product (L : Libm) (self : Vector.vector)
    (other : object) (d p : value) :
  Vector.len_is self 2 || Vector.len_is self 3 = false ->
  Vector.dot self other = Ok d -> is_ok (as_double d) = true ->
  squared_magnitudes_product self other = Ok p -> py_eq_zero p = true ->
  Vector.angle_to L self other = Raise ZeroDivisionError.
Proof.
  intros Hlen Ed Hd Ep Hp.
  rewrite (angle_to_generic L self other Hlen), Ed, Ep. cbn [bind].
  destruct (@math_sqrt_of_zero p Hp) as (s & ->). cbn [bind].
  now rewrite truediv_by_float_zero.
Qed.

Lemma angle_to_mismatch (L : Libm) (self : Vector.vector) (other : object)
    (ys : list value) :
  items other = Some ys -> List.length self <> List.length ys ->
  Vector.angle_to L self other
  = Raise (IncompatibleDimensions (List.length self) (List.length ys)).
Proof.
  intros Hys Hne. apply Nat.eqb_neq in Hne.
  unfold Vector.angle_to, Vector.cross.
  rewrite (@dot_spec self other ys Hys),
    (@check_compatibility_spec self other ys Hys), Hne.
  now destruct (_ || _).
Qed.

(** *** Exact vectors *)

Lemma exact_mul (a b : value) :
  is_exact a = true -> is_exact b = true ->
  exists r, py_mul a b = Ok r /\ is_exact r = true
            /\ qval r == qval a * qval b.
Proof.
  destruct a as [|x|p| | | | |]; try discriminate; intros _;
    destruct b as [|y|q| | | | |]; try discriminate; intros _;
    eexists; (split; [reflexivity|]); (split; [reflexivity|]);
    cbn [qval]; try apply Qred_correct.
  rewrite inject_Z_mult. reflexivity.
Qed.

Lemma exact_squares_ok (xs : list value) :
  forall acc,
    is_exact acc = true -> Forall (fun x => is_exact x = true) xs ->
    exists r, sum_results acc (List.map (fun v => py_mul v v) xs) = Ok r
              /\ is_exact r = true.
Proof.
  induction xs as [|x xs IH]; intros acc Ea Hx.
  - exists acc. split; [reflexivity | exact Ea].
  - inversion Hx as [|? ? Ex Hxs]; subst.
    destruct (@exact_square x Ex) as (sq & Esq & Xsq & _).
    destruct (@exact_add acc sq Ea Xsq) as (acc' & Eacc & Xacc & _).
    destruct (IH acc' Xacc Hxs) as (r & Hr & Xr).
    exists r. split; [|exact Xr].
    simpl. rewrite Esq. simpl. now rewrite Eacc.
Qed.

Lemma exact_products_ok (xs : list value) :
  forall ys acc,
    is_exact acc = true ->
    Forall (fun x => is_exact x = true) xs ->
    Forall (fun y => is_exact y = true) ys ->
    exists r,
      sum_results acc
        (List.map (fun p => py_mul (fst p) (snd p)) (combine xs ys)) = Ok r
      /\ is_exact r = true
      /\ (Forall (fun x => py_eq_zero x = true) xs
          \/ Forall (fun y => py_eq_zero y = true) ys ->
          qval r == qval acc).
Proof.
  induction xs as [|x xs IH]; intros ys acc Ea Hx Hy.
  - exists acc. split; [reflexivity|]. split; [exact Ea | reflexivity].
  - destruct ys as [|y ys].
    + exists acc. split; [reflexivity|]. split; [exact Ea | reflexivity].
    + inversion Hx as [|? ? Ex Hxs]; subst.
      inversion Hy as [|? ? Ey Hys]; subst.
      destruct (@exact_mul x y Ex Ey) as (p & Ep & Xp & Qp).
      destruct (@exact_add acc p Ea Xp) as (acc' & Eacc & Xacc & Qacc).
      destruct (IH ys acc' Xacc Hxs Hys) as (r & Hr & Xr & Zr).
      exists r. split; [|split; [exact Xr|]].
      * simpl. rewrite Ep. simpl. now rewrite Eacc.
      * intros Hz. rewrite Zr, Qacc, Qp.
        -- assert (Z : qval x == 0 \/ qval y == 0).
           { destruct Hz as [Hz|Hz]; inversion Hz; subst;
               [left; now apply (exact_zero_iff x Ex)
               |right; now apply (exact_zero_iff y Ey)]. }
           destruct Z as [Z|Z]; rewrite Z; ring.
        -- destruct Hz as [Hz|Hz]; inversion Hz; subst; auto.
Qed.

Lemma is_zero_exact_elements (xs : Vector.vector) :
  Forall (fun x => is_exact x = true) xs ->
  Vector.is_zero xs = Ok true ->
  Forall (fun x => py_eq_zero x = true) xs.
Proof.
  intros Hx Hz. unfold Vector.is_zero in Hz.
  apply bind_inv in Hz as (ms & Ems & Hz). apply ok_inj in Hz.
  rewrite magnitude_squared_spec in Ems.
  apply (@exact_squares_all_zero xs (VInt 0) ms eq_refl (Qle_refl 0)
           Hx Ems Hz).
Qed.

Lemma angle_to_exact_zero (L : Libm) (self : Vector.vector)
    (other : object) (ys : list value) :
  Vector.len_is self 2 || Vector.len_is self 3 = false ->
  items other = Some ys -> List.length self = List.length ys ->
  Forall (fun x => is_exact x = true) self ->
  Forall (fun y => is_exact y = true) ys ->
  Vector.is_zero self = Ok true \/ Vector.is_zero ys = Ok true ->
  Vector.angle_to L self other = Raise ZeroDivisionError.
Proof.
  intros Hlen Hys Heq Xs Xy Hz.
  destruct (@exact_products_ok self ys (VInt 0) eq_refl Xs Xy)
    as (d & Ed & Xd & Zd).
  destruct (@exact_squares_ok self (VInt 0) eq_refl Xs) as (a & Ea & Xa).
  destruct (@exact_squares_ok ys (VInt 0) eq_refl Xy) as (b & Eb & Xb).
  destruct (@exact_mul a b Xa Xb) as (p & Ep & Xp & Qp).
  assert (Zeros : Forall (fun x => py_eq_zero x = true) self
                  \/ Forall (fun y => py_eq_zero y = true) ys).
  { destruct Hz as [Hz|Hz];
      [left|right]; now apply is_zero_exact_elements. }
  assert (Za : py_eq_zero a = true \/ py_eq_zero b = true).
  { destruct Hz as [Hz|Hz]; unfold Vector.is_zero in Hz;
      rewrite magnitude_squared_spec in Hz.
    - left. rewrite Ea in Hz. now apply ok_inj in Hz.
    - right. rewrite Eb in Hz. now apply ok_inj in Hz. }
  apply (@angle_to_zero_product L self other d p Hlen).
  - rewrite (@dot_spec self other ys Hys), Heq, Nat.eqb_refl. exact Ed.
  - apply (zero_converts d Xd). apply (exact_zero_iff d Xd).
    rewrite (Zd Zeros). reflexivity.
  - unfold squared_magnitudes_product.
    rewrite magnitude_squared_spec, Ea, (@iter_object_items other ys Hys).
    cbn [bind]. rewrite py_sum_genexpr, Eb. exact Ep.
  - apply (exact_zero_iff p Xp). rewrite Qp.
    destruct Za as [Z|Z];
      [apply (exact_zero_iff a Xa) in Z | apply (exact_zero_iff b Xb) in Z];
      rewrite Z; ring.
Qed.

(** C5, as stated, fails.  The C library is reached by the second instance
    only, for [acos] of NaN, where the stand-in answers NaN as C's does:
    - [Vector(0, 0, 0, 0).angle_to((1, 2, 3))]: [self] is the zero vector
      and IncompatibleDimensions is raised, not ZeroDivisionError;
    - [Vector(1e200, 0, 0, 0).angle_to((0, 0, 0, 0))]: [other] is the zero
      vector, the squared magnitude of [self] overflows to infinity, the
      product is NaN and NaN is returned, nothing is raised;
    - [Vector(inf, 0).angle_to((inf, 0))] has length 2 and returns NaN,
      which is not in the interval from 0 to pi. *)
Lemma angle_to_counterexample :
  Vector.angle_to axis_libm [VInt 0; VInt 0; VInt 0; VInt 0]
    (Val (VTuple [VInt 1; VInt 2; VInt 3]))
  = Raise (IncompatibleDimensions 4 3)
  /\ Vector.angle_to axis_libm
       [VFloat (S754_finite false 5883593420661338 612);
        VInt 0; VInt 0; VInt 0]
       (Val (VTuple [VInt 0; VInt 0; VInt 0; VInt 0]))
     = Ok (VFloat S754_nan)
  /\ (Vector.angle_to axis_libm [VFloat (S754_infinity false); VInt 0]
        (Val (VTuple [VFloat (S754_infinity false); VInt 0]))
      = Ok (VFloat S754_nan)
      /\ in_zero_pi S754_nan = false).
Proof. repeat split; vm_compute; reflexivity. Qed.

(** C5, amended.  On a vector of length 2 or 3, [angle_to(other)] evaluates
    [atan2(abs(self.cross(other)), self.dot(other))]; what it returns is a
    float that is NaN or lies between 0 and pi, given that C's [atan2] maps
    a positive finite [y] and a finite [x] into that interval; and
    [Vector(1, 0, 0).angle_to((0, 1, 0))] is C's [atan2(1.0, 0.0)], pi/2.
    On any other length it evaluates
    [acos(dot / sqrt(magnitude_squared * sum of the squares of other))],
    which raises ZeroDivisionError when [dot] returns a float or a number
    that converts to one and the product under the root is zero; for vectors
    of ints and Fractions of one length that is the case as soon as either
    is the zero vector.  On any length, an operand of another length raises
    IncompatibleDimensions. *)
Theorem angle_to_by_dimension (L : Libm) (self : Vector.vector)
    (other : object) :
  (Vector.len_is self 2 || Vector.len_is self 3 = true ->
   Vector.angle_to L self other
   = (c <- Vector.cross self other ;;
      a <- Vector.abs_object c ;;
      d <- Vector.dot self other ;;
      math_atan2 L a d)
   /\ (atan2_upper_half L ->
       forall r, Vector.angle_to L self other = Ok r ->
         exists f, r = VFloat f
                   /\ (is_nan f = true \/ in_zero_pi f = true)))
  /\ (c_atan2 L fone pzero = half_pi ->
      Vector.angle_to L [VInt 1; VInt 0; VInt 0]
        (Val (VTuple [VInt 0; VInt 1; VInt 0]))
      = Ok (VFloat half_pi))
  /\ (Vector.len_is self 2 || Vector.len_is self 3 = false ->
      Vector.angle_to L self other
      = (d <- Vector.dot self other ;;
         p <- squared_magnitudes_product self other ;;
         r <- math_sqrt p ;;
         q <- py_truediv d r ;;
         math_acos L q)
      /\ (forall d p,
            Vector.dot self other = Ok d -> is_ok (as_double d) = true ->
            squared_magnitudes_product self other = Ok p ->
            py_eq_zero p = true ->
            Vector.angle_to L self other = Raise ZeroDivisionError)
      /\ (forall ys,
            items other = Some ys -> List.length self = List.length ys ->
            Forall (fun x => is_exact x = true) self ->
            Forall (fun y => is_exact y = true) ys ->
            Vector.is_zero self = Ok true \/ Vector.is_zero ys = Ok true ->
            Vector.angle_to L self other = Raise ZeroDivisionError))
  /\ (forall ys,
        items other = Some ys -> List.length self <> List.length ys ->
        Vector.angle_to L self other
        = Raise (IncompatibleDimensions (List.length self)
                   (List.length ys))).
Proof.
  split; [|split; [|split]].
  - intros Hlen. split; [now apply angle_to_low|].
    intros HL r. now apply angle_to_low_range.
  - intros H1.
    assert (E : Vector.angle_to L [VInt 1; VInt 0; VInt 0]
                  (Val (VTuple [VInt 0; VInt 1; VInt 0]))
                = math_atan2 L (VFloat fone) (VInt 0))
      by (vm_compute; reflexivity).
    rewrite E. unfold math_atan2, m_atan2.
    change (as_double (VFloat fone)) with (Ok fone).
    change (as_double (VInt 0)) with (Ok pzero).
    cbn [bind is_nan is_inf is_fzero orb negb signbit fone pzero].
    rewrite H1. reflexivity.
  - intros Hlen. split; [now apply angle_to_generic|]. split.
    + intros d p. now apply angle_to_zero_product.
    + intros ys. now apply angle_to_exact_zero.
  - intros ys. now apply angle_to_mismatch.
Qed.

Lemma axis_libm_upper_half : atan2_upper_half axis_libm.
Proof.
  intros y x Hy Hx.
  destruct y as [| | |[|] my ey]; try discriminate.
  destruct x as [sx| | |sx mx ex]; try discriminate; destruct sx;
    reflexivity.
Qed.

(** With the stand-in library: [Vector(1, 0, 0).angle_to((0, 1, 0))] is
    pi/2; [Vector(3, 4).angle_to((4, 3))] lies between 0 and pi; and
    [Vector(0, 0, 0, 0).angle_to((1, 2, 3, 4))] raises ZeroDivisionError. *)
Lemma angle_to_examples :
  Vector.angle_to axis_libm [VInt 1; VInt 0; VInt 0]
    (Val (VTuple [VInt 0; VInt 1; VInt 0]))
  = Ok (VFloat half_pi)
  /\ (exists f,
        Vector.angle_to axis_libm [VInt 3; VInt 4]
          (Val (VTuple [VInt 4; VInt 3])) = Ok (VFloat f)
        /\ (is_nan f = true \/ in_zero_pi f = true))
  /\ Vector.angle_to axis_libm [VInt 0; VInt 0; VInt 0; VInt 0]
       (Val (VTuple [VInt 1; VInt 2; VInt 3; VInt 4]))
     = Raise ZeroDivisionError.
Proof.
  split; [|split].
  - exact (proj1 (proj2 (angle_to_by_dimension axis_libm [] NotImplemented))
             eq_refl).
  - destruct (proj2 (proj1 (angle_to_by_dimension axis_libm
                              [VInt 3; VInt 4]
                              (Val (VTuple [VInt 4; VInt 3]))) eq_refl)
                axis_libm_upper_half (VFloat pzero) eq_refl)
      as (f & E & R).
    exists f. split; [now rewrite <- E | exact R].
  - refine (proj2 (proj2 (proj1 (proj2 (proj2
             (angle_to_by_dimension axis_libm
                [VInt 0; VInt 0; VInt 0; VInt 0]
                (Val (VTuple [VInt 1; VInt 2; VInt 3; VInt 4])))))
             eq_refl))
             [VInt 1; VInt 2; VInt 3; VInt 4] eq_refl eq_refl _ _
             (or_introl eq_refl));
      repeat constructor.
Defined.

(** ** Further properties of the methods *)

(** *** The constructor *)

Lemma sequence_oks (xs : list value) : sequence (List.map Ok xs) = Ok xs.
Proof.
  induction xs as [|x xs IH]; simpl; [reflexivity | now rewrite IH].
Qed.

Lemma sequence_raises (pre : list value) (e : exn)
    (rest : list (result value)) :
  sequence (List.map Ok pre ++ Raise e :: rest) = Raise e.
Proof.
  induction pre as [|x pre IH]; simpl; [reflexivity | now rewrite IH].
Qed.

(** X1.  The constructor accepts the elements in three forms that agree: as
    one tuple, as one list, or as one generator yielding them; as separate
    arguments too, unless there is exactly one.  A str is iterated
    character by character, and a generator that raises after some items
    makes the constructor raise that exception. *)
Theorem constructor_forms (xs : list value) :
  Vector.__new__ [VTuple xs] = Ok (Vec xs)
  /\ Vector.__new__ [VList xs] = Ok (Vec xs)
  /\ Vector.__new__ [genexpr (List.map Ok xs)] = Ok (Vec xs)
  /\ (List.length xs <> 1%nat ->
      Vector.__new__ xs = Vector.__new__ [VTuple xs])
  /\ (forall s, Vector.__new__ [VStr s] = Ok (Vec (chars s)))
  /\ (forall e rest,
        Vector.__new__ [genexpr (List.map Ok xs ++ Raise e :: rest)]
        = Raise e).
Proof.
  split; [reflexivity|]. split; [reflexivity|].
  split; [|split; [|split]].
  - unfold Vector.__new__. now rewrite tuple_of_genexpr, sequence_oks.
  - destruct xs as [|a [|b xs]]; simpl; intros H;
      [reflexivity | congruence | reflexivity].
  - reflexivity.
  - intros e rest. unfold Vector.__new__.
    now rewrite tuple_of_genexpr, sequence_raises.
Qed.

(** [Vector(1, 2, 3)] is [Vector((1, 2, 3))]. *)
Lemma constructor_example :
  Vector.__new__ [VInt 1; VInt 2; VInt 3]
  = Vector.__new__ [VTuple [VInt 1; VInt 2; VInt 3]].
Proof.
  refine (proj1 (proj2 (proj2 (proj2
            (constructor_forms [VInt 1; VInt 2; VInt 3])))) _).
  simpl; lia.
Defined.

(** *** The dot product *)

Lemma sum_products_int (xs : list Z) :
  forall ys a,
    sum_results (VInt a)
      (List.map (fun p => py_mul (fst p) (snd p))
         (combine (List.map VInt xs) (List.map VInt ys)))
    = Ok (VInt (fold_left (fun a p => (a + fst p * snd p)%Z)
                  (combine xs ys) a)).
Proof.
  induction xs as [|x xs IH]; intros [|y ys] a; simpl; try reflexivity.
  apply IH.
Qed.

Lemma dot_int_fold_comm (xs : list Z) :
  forall ys a,
    fold_left (fun a p => (a + fst p * snd p)%Z) (combine xs ys) a
    = fold_left (fun a p => (a + fst p * snd p)%Z) (combine ys xs) a.
Proof.
  induction xs as [|x xs IH]; intros [|y ys] a; simpl; try reflexivity.
  rewrite (Z.mul_comm x y). apply IH.
Qed.

Lemma dot_ints (xs ys : list Z) (o : object) :
  List.length xs = List.length ys ->
  items o = Some (List.map VInt ys) ->
  Vector.dot (List.map VInt xs) o = Ok (VInt (dot_int xs ys)).
Proof.
  intros H Ho. rewrite (@dot_spec _ o _ Ho).
  rewrite !length_map, H, Nat.eqb_refl. apply sum_products_int.
Qed.

(** X2.  On two vectors of ints of one length, [dot] returns the int sum of
    the products of the elements, whether the operand is a Vector or a plain
    tuple or list, and it does not depend on the order of the two vectors;
    on two empty vectors it is the int 0. *)
Theorem dot_of_ints (xs ys : list Z) :
  List.length xs = List.length ys ->
  Vector.dot (List.map VInt xs) (Val (VTuple (List.map VInt ys)))
  = Ok (VInt (dot_int xs ys))
  /\ Vector.dot (List.map VInt xs) (Val (VList (List.map VInt ys)))
     = Ok (VInt (dot_int xs ys))
  /\ Vector.dot (List.map VInt xs) (Vec (List.map VInt ys))
     = Ok (VInt (dot_int xs ys))
  /\ Vector.dot (List.map VInt xs) (Vec (List.map VInt ys))
     = Vector.dot (List.map VInt ys) (Vec (List.map VInt xs))
  /\ Vector.dot [] (Vec []) = Ok (VInt 0).
Proof.
  intros Hlen.
  split; [now apply dot_ints|]. split; [now apply dot_ints|].
  split; [now apply dot_ints|]. split; [|reflexivity].
  rewrite (@dot_ints xs ys (Vec (List.map VInt ys)) Hlen eq_refl).
  rewrite (@dot_ints ys xs (Vec (List.map VInt xs)) (eq_sym Hlen) eq_refl).
  unfold dot_int. now rewrite dot_int_fold_comm.
Qed.

(** [Vector(1, 2, 3).dot((3, 2, 1))] is 10. *)
Lemma dot_example :
  Vector.dot [VInt 1; VInt 2; VInt 3] (Val (VTuple [VInt 3; VInt 2; VInt 1]))
  = Ok (VInt 10).
Proof.
  exact (proj1 (@dot_of_ints [1; 2; 3]%Z [3; 2; 1]%Z eq_refl)).
Defined.

Lemma map_square_combine (xs : list value) :
  List.map (fun p => py_mul (fst p) (snd p)) (combine xs xs)
  = List.map (fun v => py_mul v v) xs.
Proof.
  induction xs as [|x xs IH]; simpl; [reflexivity | now rewrite IH].
Qed.

Lemma dot_with_itself_aux (self : Vector.vector) :
  Vector.dot self (Vec self) = Vector.magnitude_squared self
  /\ Vector.dot self (Val (VTuple self)) = Vector.magnitude_squared self.
Proof.
  rewrite magnitude_squared_spec.
  split.
  - rewrite (@dot_spec self (Vec self) self eq_refl), Nat.eqb_refl.
    now rewrite map_square_combine.
  - rewrite (@dot_spec self (Val (VTuple self)) self eq_refl), Nat.eqb_refl.
    now rewrite map_square_combine.
Qed.

(** X3.  The dot product of a vector with itself is its [magnitude_squared],
    whatever the elements are: the same value, or the same exception; and
    [is_zero] tests that dot product against 0. *)
Theorem dot_with_itself (self : Vector.vector) :
  Vector.dot self (Vec self) = Vector.magnitude_squared self
  /\ Vector.dot self (Val (VTuple self)) = Vector.magnitude_squared self
  /\ Vector.is_zero self
     = (d <- Vector.dot self (Vec self) ;; Ok (py_eq_zero d)).
Proof.
  destruct (dot_with_itself_aux self) as (A & B).
  split; [exact A|]. split; [exact B|].
  unfold Vector.is_zero. now rewrite A.
Qed.

(** *** Arithmetic on vectors of ints *)

Lemma sequence_pointwise (op : value -> value -> result value)
    (f : Z -> Z -> Z) :
  (forall a b, op (VInt a) (VInt b) = Ok (VInt (f a b))) ->
  forall xs ys,
    sequence (List.map (fun p => op (fst p) (snd p))
                (combine (List.map VInt xs) (List.map VInt ys)))
    = Ok (List.map VInt (pointwise f xs ys)).
Proof.
  intros Hop. unfold pointwise.
  induction xs as [|x xs IH]; intros [|y ys]; simpl; try reflexivity.
  now rewrite Hop, IH.
Qed.

Lemma sequence_scalar (op : value -> result value) (f : Z -> Z) :
  (forall a, op (VInt a) = Ok (VInt (f a))) ->
  forall xs,
    sequence (List.map op (List.map VInt xs))
    = Ok (List.map VInt (List.map f xs)).
Proof.
  intros Hop. induction xs as [|x xs IH]; simpl; [reflexivity|].
  now rewrite Hop, IH.
Qed.

Lemma add_ints (xs ys : list Z) :
  List.length xs = List.length ys ->
  Vector.__add__ (List.map VInt xs) (Vec (List.map VInt ys))
  = Ok (Vec (List.map VInt (pointwise Z.add xs ys))).
Proof.
  intros H. unfold Vector.__add__. simpl is_Sequence. cbn [negb].
  rewrite binary_on_vector by now rewrite !length_map.
  rewrite Vector_of_spec.
  now rewrite (sequence_pointwise py_add Z.add (fun a b => eq_refl)).
Qed.

Lemma sub_ints (xs ys : list Z) :
  List.length xs = List.length ys ->
  Vector.__sub__ (List.map VInt xs) (Vec (List.map VInt ys))
  = Ok (Vec (List.map VInt (pointwise Z.sub xs ys))).
Proof.
  intros H. unfold Vector.__sub__. simpl is_Sequence. cbn [negb].
  rewrite binary_on_vector by now rewrite !length_map.
  rewrite Vector_of_spec.
  now rewrite (sequence_pointwise py_sub Z.sub (fun a b => eq_refl)).
Qed.

Lemma mul_ints (xs : list Z) (s : Z) :
  Vector.__mul__ (List.map VInt xs) (VInt s)
  = Ok (Vec (List.map VInt (List.map (fun x => (x * s)%Z) xs))).
Proof.
  unfold Vector.__mul__. rewrite Vector_of_spec.
  now rewrite (sequence_scalar (fun v => py_mul v (VInt s))
                 (fun x => (x * s)%Z) (fun a => eq_refl)).
Qed.

Lemma floordiv_ints (xs : list Z) (s : Z) :
  s <> 0%Z ->
  Vector.__floordiv__ (List.map VInt xs) (VInt s)
  = Ok (Vec (List.map VInt (List.map (fun x => (x / s)%Z) xs))).
Proof.
  intros Hs. unfold Vector.__floordiv__. rewrite Vector_of_spec.
  rewrite (sequence_scalar (fun v => py_floordiv v (VInt s))
             (fun x => (x / s)%Z)); [reflexivity|].
  intros a. cbv [py_floordiv as_num num_floordiv tower].
  apply Z.eqb_neq in Hs. now rewrite Hs.
Qed.

Lemma pointwise_length (f : Z -> Z -> Z) (xs ys : list Z) :
  List.length xs = List.length ys ->
  List.length (pointwise f xs ys) = List.length ys.
Proof.
  intros H. unfold pointwise.
  rewrite length_map, length_combine, H. apply Nat.min_id.
Qed.

Lemma pointwise_add_sub (xs : list Z) :
  forall ys, List.length xs = List.length ys ->
    pointwise Z.sub (pointwise Z.add xs ys) ys = xs.
Proof.
  unfold pointwise.
  induction xs as [|x xs IH]; intros [|y ys] H; simpl in *;
    try reflexivity; try discriminate.
  f_equal; [lia | apply IH; lia].
Qed.

(** X4.  On vectors of ints the arithmetic is exact and element-wise:
    [v + w] and [v - w] hold the sums and the differences, [v * s] the
    products by the int [s], and [v // s] the quotients rounded towards
    minus infinity when [s] is not 0; subtracting [w] from [v + w] gives
    [v] back. *)
Theorem int_arithmetic_is_exact (xs ys : list Z) (s : Z) :
  List.length xs = List.length ys ->
  let v := List.map VInt xs in
  let w := List.map VInt ys in
  Vector.__add__ v (Vec w) = Ok (Vec (List.map VInt (pointwise Z.add xs ys)))
  /\ Vector.__sub__ v (Vec w)
     = Ok (Vec (List.map VInt (pointwise Z.sub xs ys)))
  /\ Vector.__mul__ v (VInt s)
     = Ok (Vec (List.map VInt (List.map (fun x => (x * s)%Z) xs)))
  /\ (s <> 0%Z ->
      Vector.__floordiv__ v (VInt s)
      = Ok (Vec (List.map VInt (List.map (fun x => (x / s)%Z) xs))))
  /\ then_vector (Vector.__add__ v (Vec w))
       (fun r => Vector.__sub__ r (Vec w))
     = Ok (Vec v).
Proof.
  intros H v w. subst v w.
  split; [now apply add_ints|]. split; [now apply sub_ints|].
  split; [apply mul_ints|]. split; [apply floordiv_ints|].
  unfold then_vector. rewrite (add_ints xs ys H). cbn [bind].
  rewrite sub_ints by now apply pointwise_length.
  now rewrite pointwise_add_sub.
Qed.

(** With [v = Vector(1, -7)] and [w = Vector(3, 4)]: [v + w] is
    [Vector(4, -3)] and [v // 2] is [Vector(0, -4)]. *)
Lemma int_arithmetic_example :
  Vector.__add__ [VInt 1; VInt (-7)] (Vec [VInt 3; VInt 4])
  = Ok (Vec [VInt 4; VInt (-3)])
  /\ Vector.__floordiv__ [VInt 1; VInt (-7)] (VInt 2)
     = Ok (Vec [VInt 0; VInt (-4)]).
Proof.
  pose proof (@int_arithmetic_is_exact [1; -7]%Z [3; 4]%Z 2%Z eq_refl)
    as (A & _ & _ & F & _).
  split; [exact A|]. apply F. lia.
Defined.

(** X5.  On vectors of ints, scalar multiplication distributes over the
    addition of vectors and over the addition of scalars, two scalings
    compose into the scaling by the product, scaling by 1 gives the vector
    back and scaling by 0 gives the zero vector. *)
Theorem int_scaling_laws (xs ys : list Z) (s t : Z) :
  List.length xs = List.length ys ->
  let v := List.map VInt xs in
  let w := List.map VInt ys in
  then_vector (Vector.__add__ v (Vec w)) (fun r => Vector.__mul__ r (VInt s))
  = then_vector (Vector.__mul__ v (VInt s)) (fun a =>
      then_vector (Vector.__mul__ w (VInt s)) (fun b =>
        Vector.__add__ a (Vec b)))
  /\ Vector.__mul__ v (VInt (s + t))
     = then_vector (Vector.__mul__ v (VInt s)) (fun a =>
         then_vector (Vector.__mul__ v (VInt t)) (fun b =>
           Vector.__add__ a (Vec b)))
  /\ then_vector (Vector.__mul__ v (VInt s))
       (fun r => Vector.__mul__ r (VInt t))
     = Vector.__mul__ v (VInt (s * t))
  /\ Vector.__mul__ v (VInt 1) = Ok (Vec v)
  /\ Vector.__mul__ v (VInt 0)
     = Ok (Vec (List.map VInt (List.map (fun _ => 0%Z) xs))).
Proof.
  intros H v w. subst v w. unfold then_vector.
  rewrite (add_ints xs ys H), !mul_ints. cbn [bind].
  rewrite !mul_ints. cbn [bind].
  rewrite !add_ints by now rewrite !length_map.
  split; [|split; [|split; [|split]]]; do 3 f_equal.
  - clear H. unfold pointwise. revert ys.
    induction xs as [|x xs IH]; intros [|y ys]; simpl; try reflexivity.
    f_equal; [lia | apply IH].
  - clear H. unfold pointwise.
    induction xs as [|x xs IH]; simpl; [reflexivity|].
    f_equal; [lia | apply IH].
  - rewrite map_map. apply map_ext. intros; ring.
  - rewrite <- (map_id xs) at 2. apply map_ext. intros; ring.
  - apply map_ext. intros; ring.
Qed.

(** [(Vector(1, 2) + Vector(3, 4)) * 5] is
    [Vector(1, 2) * 5 + Vector(3, 4) * 5]. *)
Lemma int_scaling_example :
  then_vector (Vector.__add__ [VInt 1; VInt 2] (Vec [VInt 3; VInt 4]))
    (fun r => Vector.__mul__ r (VInt 5))
  = then_vector (Vector.__mul__ [VInt 1; VInt 2] (VInt 5)) (fun a =>
      then_vector (Vector.__mul__ [VInt 3; VInt 4] (VInt 5)) (fun b =>
        Vector.__add__ a (Vec b))).
Proof.
  exact (proj1 (@int_scaling_laws [1; 2]%Z [3; 4]%Z 5%Z 0%Z eq_refl)).
Defined.

Lemma dot_int_fold_add (xs : list Z) :
  forall ys us a b,
    List.length xs = List.length ys ->
    fold_left (fun a p => (a + fst p * snd p)%Z)
      (combine (pointwise Z.add xs ys) us) (a + b)%Z
    = (fold_left (fun a p => (a + fst p * snd p)%Z) (combine xs us) a
       + fold_left (fun a p => (a + fst p * snd p)%Z) (combine ys us) b)%Z.
Proof.
  unfold pointwise.
  induction xs as [|x xs IH]; intros [|y ys] [|u us] a b H; simpl in *;
    try reflexivity; try discriminate.
  rewrite <- IH by lia. f_equal. ring.
Qed.

Lemma dot_int_fold_scale (xs : list Z) (s : Z) :
  forall us a,
    fold_left (fun a p => (a + fst p * snd p)%Z)
      (combine (List.map (fun x => (x * s)%Z) xs) us) (s * a)%Z
    = (s * fold_left (fun a p => (a + fst p * snd p)%Z) (combine xs us) a)%Z.
Proof.
  induction xs as [|x xs IH]; intros [|u us] a; simpl; try reflexivity.
  rewrite <- IH. f_equal. ring.
Qed.

(** X6.  On vectors of ints [dot] is linear in the vector it is called on:
    the dot product of [v + w] with [u] is the sum of those of [v] and of
    [w], and the dot product of [v * s] with [u] is [s] times that of
    [v]. *)
Theorem dot_is_linear_on_ints (xs ys us : list Z) (s : Z) :
  List.length xs = List.length ys ->
  List.length xs = List.length us ->
  let u := Vec (List.map VInt us) in
  (exists r,
     Vector.__add__ (List.map VInt xs) (Vec (List.map VInt ys)) = Ok (Vec r)
     /\ Vector.dot r u = Ok (VInt (dot_int xs us + dot_int ys us)))
  /\ (exists r,
        Vector.__mul__ (List.map VInt xs) (VInt s) = Ok (Vec r)
        /\ Vector.dot r u = Ok (VInt (s * dot_int xs us)))
  /\ Vector.dot (List.map VInt xs) u = Ok (VInt (dot_int xs us))
  /\ Vector.dot (List.map VInt ys) u = Ok (VInt (dot_int ys us)).
Proof.
  intros Hxy Hxu u. subst u.
  split; [|split; [|split]].
  - eexists. split; [now apply add_ints|].
    rewrite (@dot_ints (pointwise Z.add xs ys) us _); [|
      rewrite pointwise_length by assumption; lia | reflexivity].
    do 2 f_equal. unfold dot_int.
    now rewrite <- dot_int_fold_add.
  - eexists. split; [apply mul_ints|].
    rewrite (@dot_ints (List.map (fun x => (x * s)%Z) xs) us _); [|
      now rewrite length_map | reflexivity].
    do 2 f_equal. unfold dot_int.
    rewrite <- dot_int_fold_scale. f_equal. ring.
  - now apply dot_ints.
  - apply dot_ints; [lia | reflexivity].
Qed.

(** With [v = Vector(1, 2)], [w = Vector(3, 4)] and [u = Vector(5, 6)]:
    the dot product of [v + w] with [u] is [17 + 39]. *)
Lemma dot_linear_example :
  exists r,
    Vector.__add__ [VInt 1; VInt 2] (Vec [VInt 3; VInt 4]) = Ok (Vec r)
    /\ Vector.dot r (Vec [VInt 5; VInt 6]) = Ok (VInt 56).
Proof.
  exact (proj1 (@dot_is_linear_on_ints [1; 2]%Z [3; 4]%Z [5; 6]%Z 1%Z
                  eq_refl eq_refl)).
Defined.

(** *** Negation *)

(** X7.  On a vector of ints, [-v] negates every element, [+v] is the vector
    itself, [v + (-v)] is the zero vector of the same length and [-(-v)] is
    [v]. *)
Theorem negation_of_ints (zs : list Z) :
  let v := List.map VInt zs in
  Vector.__neg__ v = Ok (Vec (List.map VInt (List.map Z.opp zs)))
  /\ Vector.__pos__ v = Ok (Vec v)
  /\ then_vector (Vector.__neg__ v) (fun n => Vector.__add__ v (Vec n))
     = Ok (Vec (List.map VInt (List.map (fun _ => 0%Z) zs)))
  /\ then_vector (Vector.__neg__ v) Vector.__neg__ = Ok (Vec v).
Proof.
  intros v. subst v.
  assert (N : forall xs, Vector.__neg__ (List.map VInt xs)
                         = Ok (Vec (List.map VInt (List.map Z.opp xs)))).
  { intros xs. unfold Vector.__neg__. rewrite mul_ints. do 3 f_equal.
    apply map_ext. intros; ring. }
  split; [apply N|]. split; [reflexivity|].
  unfold then_vector. rewrite N. cbn [bind]. split.
  - rewrite add_ints by now rewrite length_map. do 3 f_equal.
    unfold pointwise. induction zs as [|z zs IH]; simpl; [reflexivity|].
    f_equal; [lia | exact IH].
  - rewrite N. do 3 f_equal. rewrite map_map.
    rewrite <- (map_id zs) at 2. apply map_ext. intros; lia.
Qed.

(** *** The magnitude *)

(** X8.  [magnitude] is [abs], the square root of [magnitude_squared]; when
    it returns, it returns a float, whatever the type of the elements, and
    that float is NaN or has a clear sign bit: it is never below zero and
    never [-0.0].  On a vector of ints it is [sqrt] of the int sum of the
    squares, and raises OverflowError when that sum is beyond the range of a
    double; on the empty vector it is 0.0. *)
Theorem magnitude_is_a_float (self : Vector.vector) :
  Vector.magnitude self = Vector.__abs__ self
  /\ (forall m, Vector.magnitude self = Ok m ->
        exists f, m = VFloat f /\ (is_nan f = true \/ signbit f = false))
  /\ (forall zs, self = List.map VInt zs ->
        Vector.magnitude self = math_sqrt (VInt (sum_squares_int zs)))
  /\ Vector.magnitude [VInt (10 ^ 200)] = Raise OverflowError
  /\ Vector.magnitude [] = Ok (VFloat pzero).
Proof.
  split; [reflexivity|].
  split; [|split; [|split; vm_compute; reflexivity]].
  - intros m Hm.
    pose proof (@abs_object_nonneg (Vec self) m Hm) as N.
    unfold Vector.magnitude, Vector.__abs__ in Hm.
    apply bind_inv in Hm as (ms & _ & Hm).
    destruct (@math_sqrt_float ms m Hm) as (f & ->).
    exists f. split; [reflexivity|]. right.
    cbn [nonneg_val] in N. now destruct (signbit f).
  - intros zs ->. unfold Vector.magnitude, Vector.__abs__.
    now rewrite magnitude_squared_spec, sum_results_int.
Qed.

(** [Vector(3, 4).magnitude] is 5.0, a float with a clear sign bit. *)
Lemma magnitude_example :
  Vector.magnitude [VInt 3; VInt 4] = Ok (VFloat (float_lit 5))
  /\ exists f, VFloat (float_lit 5) = VFloat f
               /\ (is_nan f = true \/ signbit f = false).
Proof.
  split; [reflexivity|].
  exact (proj1 (proj2 (magnitude_is_a_float [VInt 3; VInt 4]))
           (VFloat (float_lit 5)) eq_refl).
Defined.

(** *** Distance *)

Lemma items_Sequence (o : object) (ys : list value) :
  items o = Some ys -> is_Sequence o = true.
Proof.
  intros H. apply (@py_len_Sequence o (List.length ys)).
  apply py_len_items. eauto.
Qed.

(** X9.  [distance] is [abs(self - other)]: an operand that is not a Sequence
    (a number, None, a generator) ends in TypeError, the subtraction being
    supported by neither side; an operand of another length raises
    IncompatibleDimensions with both lengths; with equal lengths it is the
    magnitude of the element-wise difference. *)
Theorem distance_outcomes (self : Vector.vector) (other : object) :
  (is_Sequence other = false -> Vector.distance self other = Raise TypeError)
  /\ (forall ys, items other = Some ys ->
        List.length self <> List.length ys ->
        Vector.distance self other
        = Raise (IncompatibleDimensions (List.length self) (List.length ys)))
  /\ (forall ys, items other = Some ys ->
        List.length self = List.length ys ->
        Vector.distance self other
        = then_value (Vector.__sub__ self other) Vector.magnitude).
Proof.
  split; [|split].
  - intros H. unfold Vector.distance, Vector.sub_expr, Vector.__sub__.
    now rewrite H.
  - intros ys Hys Hne.
    unfold Vector.distance, Vector.sub_expr, Vector.__sub__.
    rewrite (items_Sequence _ Hys), (check_compatibility_spec _ _ Hys).
    apply Nat.eqb_neq in Hne. now rewrite Hne.
  - intros ys Hys Heq.
    unfold Vector.distance, Vector.sub_expr, then_value, Vector.__sub__,
      Vector.zip_other.
    rewrite (items_Sequence _ Hys), (check_compatibility_spec _ _ Hys),
      (iter_object_items _ Hys), Heq, Nat.eqb_refl.
    cbn [negb bind zip].
    destruct (Vector.Vector_of _) as [o|e] eqn:E; [|reflexivity].
    apply Vector_of_length in E as (xs & -> & _). reflexivity.
Qed.

(** [Vector(1, 2).distance(5)] raises TypeError, and
    [Vector(3, -5, 1).distance((1, -2, 7))] is 7.0. *)
Lemma distance_example :
  Vector.distance [VInt 1; VInt 2] (Val (VInt 5)) = Raise TypeError
  /\ Vector.distance [VInt 3; VInt (-5); VInt 1]
       (Val (VTuple [VInt 1; VInt (-2); VInt 7]))
     = Ok (VFloat (float_lit 7)).
Proof.
  split.
  - exact (proj1 (distance_outcomes [VInt 1; VInt 2] (Val (VInt 5)))
             eq_refl).
  - rewrite (proj2 (proj2 (distance_outcomes [VInt 3; VInt (-5); VInt 1]
                      (Val (VTuple [VInt 1; VInt (-2); VInt 7]))))
               [VInt 1; VInt (-2); VInt 7] eq_refl eq_refl).
    reflexivity.
Defined.

Lemma sum_squares_swap (xs : list Z) :
  forall ys a,
    fold_left (fun a z => (a + z * z)%Z) (pointwise Z.sub xs ys) a
    = fold_left (fun a z => (a + z * z)%Z) (pointwise Z.sub ys xs) a.
Proof.
  unfold pointwise.
  induction xs as [|x xs IH]; intros [|y ys] a; simpl; try reflexivity.
  rewrite IH. f_equal. ring.
Qed.

Lemma pointwise_sub_self (xs : list Z) :
  pointwise Z.sub xs xs = List.map (fun _ => 0%Z) xs.
Proof.
  unfold pointwise. induction xs as [|x xs IH]; simpl; [reflexivity|].
  f_equal; [lia | exact IH].
Qed.

Lemma sum_squares_zeros (xs : list Z) :
  fold_left (fun a z => (a + z * z)%Z) (List.map (fun _ => 0%Z) xs) 0%Z
  = 0%Z.
Proof. induction xs as [|x xs IH]; simpl; [reflexivity | exact IH]. Qed.

Lemma distance_ints (xs ys : list Z) :
  List.length xs = List.length ys ->
  Vector.distance (List.map VInt xs) (Vec (List.map VInt ys))
  = math_sqrt (VInt (sum_squares_int (pointwise Z.sub xs ys))).
Proof.
  intros H. unfold Vector.distance, Vector.sub_expr.
  rewrite (sub_ints xs ys H). cbn [bind Vector.abs_object].
  unfold Vector.__abs__.
  now rewrite magnitude_squared_spec, sum_results_int.
Qed.

(** X10.  Between two vectors of ints of one length the distance is the
    square root of the int sum of the squared differences; it is the same
    from either end, and the distance from a vector to itself is 0.0. *)
Theorem distance_on_ints (xs ys : list Z) :
  List.length xs = List.length ys ->
  let v := List.map VInt xs in
  let w := List.map VInt ys in
  Vector.distance v (Vec w)
  = math_sqrt (VInt (sum_squares_int (pointwise Z.sub xs ys)))
  /\ Vector.distance v (Vec w) = Vector.distance w (Vec v)
  /\ Vector.distance v (Vec v) = Ok (VFloat pzero).
Proof.
  intros H v w. subst v w.
  split; [now apply distance_ints|]. split.
  - rewrite (distance_ints xs ys H), (distance_ints ys xs (eq_sym H)).
    unfold sum_squares_int. now rewrite sum_squares_swap.
  - rewrite (distance_ints xs xs eq_refl), pointwise_sub_self.
    unfold sum_squares_int. now rewrite sum_squares_zeros.
Qed.

(** The distance from [Vector(3, -5, 1)] to [Vector(1, -2, 7)] is the
    distance back. *)
Lemma distance_on_ints_example :
  Vector.distance [VInt 3; VInt (-5); VInt 1] (Vec [VInt 1; VInt (-2); VInt 7])
  = Vector.distance [VInt 1; VInt (-2); VInt 7]
      (Vec [VInt 3; VInt (-5); VInt 1]).
Proof.
  exact (proj1 (proj2 (@distance_on_ints [3; -5; 1]%Z [1; -2; 7]%Z
                         eq_refl))).
Defined.

(** *** The zero tests *)

(** X11.  [non_zero] is the negation of [is_zero]; on a vector of ints and
    Fractions both return, and [is_zero] holds exactly when every element is
    zero.  On floats that fails: the vector holding [2 ** -600] is not zero,
    yet its square underflows and [is_zero] holds. *)
Theorem zero_tests (self : Vector.vector) :
  Vector.non_zero self = (b <- Vector.is_zero self ;; Ok (negb b))
  /\ (Forall (fun x => is_exact x = true) self ->
      (exists b, Vector.is_zero self = Ok b)
      /\ (Vector.is_zero self = Ok true
          <-> Forall (fun x => py_eq_zero x = true) self))
  /\ (py_eq_zero (VFloat tiny_float) = false
      /\ Vector.is_zero [VFloat tiny_float] = Ok true).
Proof.
  split; [|split; [|split; vm_compute; reflexivity]].
  - unfold Vector.non_zero, Vector.is_zero.
    destruct (Vector.magnitude_squared self); reflexivity.
  - intros Hx.
    destruct (@exact_products_ok self self (VInt 0) eq_refl Hx Hx)
      as (r & Er & Xr & Zr).
    rewrite map_square_combine in Er.
    assert (Ez : Vector.is_zero self = Ok (py_eq_zero r)).
    { unfold Vector.is_zero. now rewrite magnitude_squared_spec, Er. }
    split; [eauto|]. split.
    + now apply is_zero_exact_elements.
    + intros Hz. rewrite Ez. f_equal.
      apply (exact_zero_iff r Xr). rewrite (Zr (or_introl Hz)). reflexivity.
Qed.

(** [Vector(0, Fraction(0, 1)).is_zero] holds. *)
Lemma zero_tests_example :
  Vector.is_zero [VInt 0; VFrac 0] = Ok true.
Proof.
  destruct (proj1 (proj2 (zero_tests [VInt 0; VFrac 0]))) as (_ & _ & H);
    [repeat constructor|].
  apply H; repeat constructor.
Defined.

(** *** Float results *)

Lemma truediv_by_float (v : value) (f : float) (r : value) :
  py_truediv v (VFloat f) = Ok r -> is_float r = true.
Proof.
  destruct v as [|z|q|g|s|xs|xs|xs fin];
    cbv [py_truediv as_num num_truediv tower num_to_double bind];
    try discriminate;
    repeat match goal with
           | |- context [float_of_int ?z] => destruct (float_of_int z)
           | |- context [float_of_frac ?z] => destruct (float_of_frac z)
           end;
    try discriminate;
    destruct (is_fzero f); try discriminate;
    intros H; inversion H; reflexivity.
Qed.

Lemma mul_by_float (v : value) (f : float) (r : value) :
  py_mul v (VFloat f) = Ok r -> is_float r = true.
Proof.
  destruct v as [|z|q|g|s|xs|xs|xs fin];
    cbv [py_mul as_num num_mul tower num_to_double bind];
    try discriminate;
    repeat match goal with
           | |- context [float_of_int ?z] => destruct (float_of_int z)
           | |- context [float_of_frac ?z] => destruct (float_of_frac z)
           end;
    try discriminate;
    intros H; inversion H; reflexivity.
Qed.

Lemma sequence_Forall (P : value -> Prop) (g : value -> result value)
    (xs : list value) :
  (forall x y, g x = Ok y -> P y) ->
  forall ys, sequence (List.map g xs) = Ok ys ->
    Forall P ys /\ List.length ys = List.length xs.
Proof.
  intros Hg. induction xs as [|x xs IH]; simpl; intros ys H.
  - apply ok_inj in H. subst. split; [constructor | reflexivity].
  - destruct (g x) as [y|e] eqn:E; [|discriminate].
    apply bind_inv in H as (zs & Hzs & H). apply ok_inj in H. subst.
    destruct (IH _ Hzs) as (F & L).
    split; [constructor; eauto | simpl; now rewrite L].
Qed.

Lemma math_1_float (f : float -> float) (v m : value) :
  math_1 f v = Ok m -> exists x, m = VFloat x.
Proof.
  unfold math_1. destruct (as_double v) as [x|e]; simpl; [|discriminate].
  destruct (is_nan (f x) && negb (is_nan x)); [discriminate|].
  destruct (is_inf (f x) && is_finite x); [discriminate|].
  intros H; inversion H; eauto.
Qed.

(** X12.  [normalized()] and [scaled(s)] always give floats: when either
    returns, it returns a Vector of the same length all of whose elements are
    floats, whatever the elements of the vector were. *)
Theorem normalized_and_scaled_give_floats (self : Vector.vector)
    (s : value) :
  let float_vector (r : result object) :=
    forall o, r = Ok o ->
      exists xs, o = Vec xs /\ List.length xs = List.length self
                 /\ Forall (fun x => is_float x = true) xs in
  float_vector (Vector.normalized self)
  /\ float_vector (Vector.scaled self s).
Proof.
  intros float_vector. subst float_vector. cbv beta. split; intros o H.
  - unfold Vector.normalized in H.
    apply bind_inv in H as (m & Hm & H).
    unfold Vector.__abs__ in Hm. apply bind_inv in Hm as (ms & _ & Hm).
    destruct (math_1_float _ _ Hm) as (f & ->).
    unfold Vector.__truediv__ in H. rewrite Vector_of_spec in H.
    apply bind_inv in H as (xs & Hxs & H). apply ok_inj in H. subst o.
    destruct (@sequence_Forall (fun x => is_float x = true)
                (fun v => py_truediv v (VFloat f)) self
                (fun x y => @truediv_by_float x f y) xs Hxs) as (F & L).
    exists xs. auto.
  - unfold Vector.scaled in H.
    apply bind_inv in H as (m & Hm & H).
    unfold Vector.__abs__ in Hm. apply bind_inv in Hm as (ms & _ & Hm).
    destruct (math_1_float _ _ Hm) as (f & ->).
    apply bind_inv in H as (k & Hk & H).
    pose proof (truediv_by_float _ _ Hk) as Fk.
    destruct k as [| | |g| | | |]; try discriminate.
    unfold Vector.__mul__ in H. rewrite Vector_of_spec in H.
    apply bind_inv in H as (xs & Hxs & H). apply ok_inj in H. subst o.
    destruct (@sequence_Forall (fun x => is_float x = true)
                (fun v => py_mul v (VFloat g)) self
                (fun x y => @mul_by_float x g y) xs Hxs) as (F & L).
    exists xs. auto.
Qed.

(** [Vector(0, 0, 5).normalized()] is [Vector(0.0, 0.0, 1.0)] and
    [Vector(10, 20, 20).scaled(3)] is [Vector(1.0, 2.0, 2.0)]: three floats
    each. *)
Lemma normalized_and_scaled_example :
  (Vector.normalized [VInt 0; VInt 0; VInt 5]
   = Ok (Vec [VFloat (float_lit 0); VFloat (float_lit 0);
              VFloat (float_lit 1)])
   /\ Vector.scaled [VInt 10; VInt 20; VInt 20] (VInt 3)
      = Ok (Vec [VFloat (float_lit 1); VFloat (float_lit 2);
                 VFloat (float_lit 2)]))
  /\ exists xs,
       Vec [VFloat (float_lit 0); VFloat (float_lit 0); VFloat (float_lit 1)]
       = Vec xs
       /\ List.length xs = 3%nat
       /\ Forall (fun x => is_float x = true) xs.
Proof.
  split; [split; vm_compute; reflexivity|].
  exact (proj1 (normalized_and_scaled_give_floats
                  [VInt 0; VInt 0; VInt 5] VNone)
           (Vec [VFloat (float_lit 0); VFloat (float_lit 0);
                 VFloat (float_lit 1)])
           eq_refl).
Defined.

(** *** Two-dimensional operations *)

(** X13.  [perpendicular] is for vectors of length 2 only: on [Vector(x, y)]
    it returns [Vector(-y, x)]; on ints the result is orthogonal to the
    vector, and taking the perpendicular twice negates it.  On any other
    length it raises the dimension error that names [perpendicular] and the
    length, which it never raises on length 2. *)
Theorem perpendicular_by_dimension (self : Vector.vector) :
  (forall x y, self = [x; y] ->
     Vector.perpendicular self = (ny <- py_neg y ;; Ok (Vec [ny; x])))
  /\ (forall a b, self = [VInt a; VInt b] ->
        Vector.perpendicular self = Ok (Vec [VInt (- b); VInt a])
        /\ Vector.dot self (Vec [VInt (- b); VInt a]) = Ok (VInt 0)
        /\ then_vector (Vector.perpendicular self) Vector.perpendicular
           = Vector.__neg__ self)
  /\ (List.length self <> 2%nat ->
      Vector.perpendicular self
      = Raise (ValueError
                 (".perpendicular() is not implemented for "
                  ++ Vector.format_nat (List.length self)
                  ++ "-dimensional vectors.")%string))
  /\ (List.length self = 2%nat ->
      forall name,
        Vector.perpendicular self
        <> Raise (Vector._dimension_error self name)).
Proof.
  split; [|split; [|split]].
  - intros x y ->. unfold Vector.perpendicular. simpl.
    destruct (py_neg y); reflexivity.
  - intros a b ->. split; [reflexivity|]. split.
    + unfold Vector.dot, Vector._check_compatibility, Vector.zip_other.
      simpl. unfold py_sum. simpl. do 2 f_equal. lia.
    + unfold then_vector, Vector.perpendicular, Vector.__neg__,
        Vector.__mul__. rewrite Vector_of_spec. simpl.
      do 2 f_equal. repeat (f_equal; try lia).
  - intros H. unfold Vector.perpendicular, Vector.len_is.
    apply Nat.eqb_neq in H. now rewrite H.
  - intros H name.
    destruct self as [|x [|y [|z self]]]; try discriminate.
    unfold Vector.perpendicular. simpl.
    destruct y; simpl; discriminate.
Qed.

(** [Vector(3, 4).perpendicular()] is [Vector(-4, 3)], and
    [Vector(1, 2, 3).perpendicular()] raises the dimension error. *)
Lemma perpendicular_example :
  Vector.perpendicular [VInt 3; VInt 4] = Ok (Vec [VInt (-4); VInt 3])
  /\ Vector.perpendicular [VInt 1; VInt 2; VInt 3]
     = Raise (ValueError
                ".perpendicular() is not implemented for 3-dimensional vectors.").
Proof.
  split.
  - exact (proj1 (proj1 (proj2 (perpendicular_by_dimension
                                   [VInt 3; VInt 4]))
                    3%Z 4%Z eq_refl)).
  - refine (proj1 (proj2 (proj2 (perpendicular_by_dimension
                                   [VInt 1; VInt 2; VInt 3]))) _).
    simpl; lia.
Defined.

Lemma as_double_error (v : value) (e : exn) :
  as_double v = Raise e -> e = TypeError \/ e = OverflowError.
Proof.
  unfold as_double. destruct (as_num v) as [n|].
  - intros H. right. now apply (@num_to_double_error n).
  - intros H. left. congruence.
Qed.

Lemma math_atan2_error (L : Libm) (vy vx : value) (e : exn) :
  math_atan2 L vy vx = Raise e ->
  e = TypeError \/ e = OverflowError \/ e = ValueError "math domain error".
Proof.
  unfold math_atan2.
  destruct (as_double vy) as [y|ey] eqn:Ey; cbn [bind].
  - destruct (as_double vx) as [x|ex] eqn:Ex; cbn [bind].
    + destruct (_ && _ && _); [intros H; inversion H; auto|].
      destruct (_ && _ && _); intros H; inversion H; auto.
    + intros H. inversion H; subst.
      destruct (as_double_error _ Ex); auto.
  - intros H. inversion H; subst.
    destruct (as_double_error _ Ey); auto.
Qed.

(** X14.  [angle] is for vectors of length 2 only: on [Vector(x, y)] it is
    [atan2(y, x)], so that [Vector(1, -1).angle] is C's [atan2(-1.0, 1.0)],
    [-pi/4]; on any other length it raises the dimension error that names
    [angle] and the length, which it never raises on length 2. *)
Theorem angle_by_dimension (L : Libm) (self : Vector.vector) :
  (forall x y, self = [x; y] -> Vector.angle L self = math_atan2 L y x)
  /\ (c_atan2 L (float_lit (-1)) (float_lit 1) = minus_quarter_pi ->
      Vector.angle L [VInt 1; VInt (-1)] = Ok (VFloat minus_quarter_pi))
  /\ (List.length self <> 2%nat ->
      Vector.angle L self
      = Raise (ValueError
                 (".angle() is not implemented for "
                  ++ Vector.format_nat (List.length self)
                  ++ "-dimensional vectors.")%string))
  /\ (List.length self = 2%nat ->
      forall name,
        Vector.angle L self <> Raise (Vector._dimension_error self name)).
Proof.
  split; [|split; [|split]].
  - intros x y ->. reflexivity.
  - intros H.
    change (Vector.angle L [VInt 1; VInt (-1)])
      with (math_atan2 L (VInt (-1)) (VInt 1)).
    unfold math_atan2, m_atan2.
    change (as_double (VInt (-1))) with (Ok (float_lit (-1))).
    change (as_double (VInt 1)) with (Ok (float_lit 1)).
    cbn [bind].
    change (float_lit (-1)) with (S754_finite true 4503599627370496 (-52)) in *.
    change (float_lit 1) with (S754_finite false 4503599627370496 (-52)) in *.
    cbn [is_nan is_inf is_fzero orb negb signbit].
    rewrite H. reflexivity.
  - intros H. unfold Vector.angle, Vector.len_is.
    apply Nat.eqb_neq in H. now rewrite H.
  - intros H name E.
    destruct self as [|x [|y [|z self]]]; try discriminate.
    change (Vector.angle L [x; y]) with (math_atan2 L y x) in E.
    apply math_atan2_error in E. unfold Vector._dimension_error in E.
    destruct E as [E|[E|E]]; discriminate.
Qed.

(** With the stand-in library that is exact on the diagonals,
    [Vector(1, -1).angle] is [-pi/4]; [Vector(1, 2, 3).angle] raises the
    dimension error. *)
Lemma angle_example :
  Vector.angle diagonal_libm [VInt 1; VInt (-1)]
  = Ok (VFloat minus_quarter_pi)
  /\ Vector.angle diagonal_libm [VInt 1; VInt 2; VInt 3]
     = Raise (ValueError ".angle() is not implemented for 3-dimensional vectors.").
Proof.
  split.
  - refine (proj1 (proj2 (angle_by_dimension diagonal_libm [])) _).
    vm_compute; reflexivity.
  - refine (proj1 (proj2 (proj2 (angle_by_dimension diagonal_libm
                                   [VInt 1; VInt 2; VInt 3]))) _).
    simpl; lia.
Defined.

(** *** The cross product on ints *)

(** X15.  On vectors of ints the cross product changes sign when the
    operands are exchanged and vanishes when they are the same vector, in
    two dimensions and in three.  In two dimensions it is the dot product of
    the operand with the perpendicular of the vector; in three it is
    orthogonal to both operands. *)
Theorem cross_on_ints (a b c d e f : Z) :
  (exists k,
     Vector.cross [VInt a; VInt b] (Vec [VInt c; VInt d]) = Ok (Val (VInt k))
     /\ Vector.cross [VInt c; VInt d] (Vec [VInt a; VInt b])
        = Ok (Val (VInt (- k)))
     /\ then_value (Vector.perpendicular [VInt a; VInt b])
          (fun p => Vector.dot p (Vec [VInt c; VInt d]))
        = Ok (VInt k))
  /\ Vector.cross [VInt a; VInt b] (Vec [VInt a; VInt b]) = Ok (Val (VInt 0))
  /\ (exists k0 k1 k2,
        Vector.cross [VInt a; VInt b; VInt c] (Vec [VInt d; VInt e; VInt f])
        = Ok (Vec [VInt k0; VInt k1; VInt k2])
        /\ Vector.cross [VInt d; VInt e; VInt f] (Vec [VInt a; VInt b; VInt c])
           = Ok (Vec [VInt (- k0); VInt (- k1); VInt (- k2)])
        /\ Vector.dot [VInt a; VInt b; VInt c] (Vec [VInt k0; VInt k1; VInt k2])
           = Ok (VInt 0)
        /\ Vector.dot [VInt d; VInt e; VInt f] (Vec [VInt k0; VInt k1; VInt k2])
           = Ok (VInt 0))
  /\ Vector.cross [VInt a; VInt b; VInt c] (Vec [VInt a; VInt b; VInt c])
     = Ok (Vec [VInt 0; VInt 0; VInt 0]).
Proof.
  split; [|split; [|split]].
  - exists (a * d - b * c)%Z. split; [reflexivity|]. split.
    + unfold Vector.cross. simpl. do 3 f_equal. lia.
    + unfold then_value, Vector.perpendicular, Vector.dot,
        Vector._check_compatibility, Vector.zip_other.
      simpl. unfold py_sum. simpl. do 2 f_equal. ring.
  - unfold Vector.cross. simpl. do 3 f_equal. lia.
  - exists (b * f - c * e)%Z, (c * d - a * f)%Z, (a * e - b * d)%Z.
    split; [reflexivity|]. split; [|split].
    + unfold Vector.cross. simpl. do 2 f_equal.
      repeat (f_equal; try lia).
    + unfold Vector.dot, Vector._check_compatibility, Vector.zip_other.
      simpl. unfold py_sum. simpl. do 2 f_equal. ring.
    + unfold Vector.dot, Vector._check_compatibility, Vector.zip_other.
      simpl. unfold py_sum. simpl. do 2 f_equal. ring.
  - unfold Vector.cross. simpl. do 2 f_equal.
    repeat (f_equal; try lia).
Qed.

(** *** Rotation *)

Lemma dot_pair_float (x y : value) (f g : float) (d : value) :
  Vector.dot [x; y] (Val (VTuple [VFloat f; VFloat g])) = Ok d ->
  is_float d = true.
Proof.
  rewrite (@dot_spec [x; y] (Val (VTuple [VFloat f; VFloat g]))
             [VFloat f; VFloat g] eq_refl).
  cbn [List.length Nat.eqb combine List.map fst snd sum_results].
  destruct (py_mul x (VFloat f)) as [p|] eqn:Ep; [|discriminate].
  intros H. apply bind_inv in H as (a1 & E1 & H).
  destruct (py_mul y (VFloat g)) as [q|] eqn:Eq; [|discriminate].
  apply bind_inv in H as (a2 & E2 & H). apply ok_inj in H. subst a2.
  pose proof (mul_by_float _ _ Ep) as Fp.
  pose proof (mul_by_float _ _ Eq) as Fq.
  destruct (@py_add_num (VInt 0) p a1 eq_refl E1) as (N1 & _ & _).
  destruct (@py_add_num a1 q d N1 E2) as (_ & F2 & _).
  apply F2. now right.
Qed.

(** X16.  [rotated(theta)] is for vectors of length 2 only: on any other
    length it raises the dimension error that names [rotated] and the
    length, before [theta] is looked at; on length 2 a [theta] that is not a
    number raises TypeError; when it returns, it returns a Vector of two
    floats; and on [Vector(x, y)] with float elements these are
    [x*c + y*(-s)] and [x*s + y*c], summed from the left starting from 0,
    for [s] the sine and [c] the cosine of [theta]. *)
Theorem rotated_by_dimension (T : Trig) (self : Vector.vector)
    (theta : value) :
  (List.length self <> 2%nat ->
   Vector.rotated T self theta
   = Raise (ValueError
              (".rotated() is not implemented for "
               ++ Vector.format_nat (List.length self)
               ++ "-dimensional vectors.")%string))
  /\ (List.length self = 2%nat -> is_num theta = false ->
      Vector.rotated T self theta = Raise TypeError)
  /\ (forall o, Vector.rotated T self theta = Ok o ->
        exists a b, o = Vec [VFloat a; VFloat b])
  /\ (forall x y s c,
        self = [VFloat x; VFloat y] ->
        math_sin T theta = Ok (VFloat s) ->
        math_cos T theta = Ok (VFloat c) ->
        Vector.rotated T self theta
        = Ok (Vec [VFloat (fadd (fadd pzero (fmul x c)) (fmul y (SFopp s)));
                   VFloat (fadd (fadd pzero (fmul x s)) (fmul y c))])).
Proof.
  split; [|split; [|split]].
  - intros H. unfold Vector.rotated, Vector.len_is.
    apply Nat.eqb_neq in H. now rewrite H.
  - intros H Ht. unfold Vector.rotated, Vector.len_is.
    rewrite H. cbn [Nat.eqb]. unfold math_sin, math_1, as_double.
    unfold is_num in Ht. destruct (as_num theta); [discriminate|].
    reflexivity.
  - intros o H. unfold Vector.rotated in H.
    destruct (Vector.len_is self 2) eqn:Hlen; [|discriminate].
    destruct self as [|x [|y [|z self]]]; try discriminate.
    apply bind_inv in H as (s & Hs & H).
    apply bind_inv in H as (c & Hc & H).
    destruct (math_1_float _ _ Hs) as (fs & ->).
    destruct (math_1_float _ _ Hc) as (fc & ->).
    cbn [py_neg bind] in H.
    apply bind_inv in H as (d0 & H0 & H).
    apply bind_inv in H as (d1 & H1 & H).
    apply dot_pair_float in H0. apply dot_pair_float in H1.
    destruct d0 as [| | |a| | | |]; try discriminate.
    destruct d1 as [| | |b| | | |]; try discriminate.
    simpl in H. apply ok_inj in H. subst o. eauto.
  - intros x y s c -> Hs Hc. unfold Vector.rotated.
    cbn [Vector.len_is List.length Nat.eqb]. rewrite Hs, Hc.
    reflexivity.
Qed.

(** With the stand-in that is exact at the angle zero,
    [Vector(3.0, 4.0).rotated(0.0)] is [Vector(3.0, 4.0)];
    [Vector(3.0, 4.0).rotated(None)] raises TypeError and
    [Vector(1, 2, 3).rotated(0.0)] the dimension error. *)
Lemma rotated_example :
  Vector.rotated origin_trig [VFloat (float_lit 3); VFloat (float_lit 4)]
    (VFloat pzero)
  = Ok (Vec [VFloat (float_lit 3); VFloat (float_lit 4)])
  /\ Vector.rotated origin_trig [VFloat (float_lit 3); VFloat (float_lit 4)]
       VNone
     = Raise TypeError
  /\ Vector.rotated origin_trig [VInt 1; VInt 2; VInt 3] (VFloat pzero)
     = Raise (ValueError
                ".rotated() is not implemented for 3-dimensional vectors.").
Proof.
  split; [|split].
  - rewrite (proj2 (proj2 (proj2 (rotated_by_dimension origin_trig
               [VFloat (float_lit 3); VFloat (float_lit 4)] (VFloat pzero))))
               (float_lit 3) (float_lit 4) pzero fone eq_refl eq_refl eq_refl).
    vm_compute. reflexivity.
  - exact (proj1 (proj2 (rotated_by_dimension origin_trig
               [VFloat (float_lit 3); VFloat (float_lit 4)] VNone))
             eq_refl eq_refl).
  - refine (proj1 (rotated_by_dimension origin_trig
               [VInt 1; VInt 2; VInt 3] (VFloat pzero)) _).
    simpl; lia.
Defined.

(** *** Operands without a length *)

(** X17.  An operand that has no length (a number, None, a generator) makes
    [dot], [cross], [projected] and [angle_to] raise TypeError, since they
    take its [len] without testing its type first; addition and subtraction
    answer [NotImplemented] instead. *)
Theorem operands_without_length (L : Libm) (self : Vector.vector)
    (other : object) :
  items other = None ->
  Vector.dot self other = Raise TypeError
  /\ Vector.cross self other = Raise TypeError
  /\ Vector.projected self other = Raise TypeError
  /\ Vector.angle_to L self other = Raise TypeError
  /\ Vector.__add__ self other = Ok NotImplemented
  /\ Vector.__sub__ self other = Ok NotImplemented.
Proof.
  intros H.
  assert (C : Vector._check_compatibility self other = Raise TypeError).
  { unfold Vector._check_compatibility, py_len. now rewrite H. }
  assert (S : is_Sequence other = false).
  { destruct other as [[]| |]; simpl in *; try discriminate; reflexivity. }
  unfold Vector.projected, Vector.angle_to, Vector.dot, Vector.cross,
    Vector.__add__, Vector.__sub__.
  rewrite C, S. cbn [bind negb].
  repeat split. destruct (_ || _); reflexivity.
Qed.

(** The dot product of [Vector(1, 2)] with the int 5, or with a generator,
    raises TypeError. *)
Lemma operands_without_length_example :
  Vector.dot [VInt 1; VInt 2] (Val (VInt 5)) = Raise TypeError
  /\ Vector.dot [VInt 1; VInt 2] (Val (genexpr [Ok (VInt 1); Ok (VInt 2)]))
     = Raise TypeError.
Proof.
  split.
  - exact (proj1 (@operands_without_length axis_libm [VInt 1; VInt 2]
                    (Val (VInt 5)) eq_refl)).
  - exact (proj1 (@operands_without_length axis_libm [VInt 1; VInt 2]
                    (Val (genexpr [Ok (VInt 1); Ok (VInt 2)])) eq_refl)).
Defined.

(** X18.  Whether the operand is a Vector, a tuple or a list makes no
    difference: with the same items, addition and subtraction (direct and
    reflected), [dot], [cross], [projected] and [distance] have the same
    outcome. *)
Theorem operand_kind_is_irrelevant (self ys : list value) :
  let same {A : Type} (m : Vector.vector -> object -> result A) :=
    m self (Val (VTuple ys)) = m self (Vec ys)
    /\ m self (Val (VList ys)) = m self (Vec ys) in
  same Vector.__add__ /\ same Vector.__radd__
  /\ same Vector.__sub__ /\ same Vector.__rsub__
  /\ same Vector.dot /\ same Vector.cross
  /\ same Vector.projected /\ same Vector.distance.
Proof.
  cbv zeta. repeat split.
Qed.

(** *** The reflected methods *)

(** X19.  For a tuple [t] of the length of the vector, the reflected methods
    compute [t + self] and [t - self] element by element, the items of [t] on
    the left: the outcome is that of the direct method on the vector of the
    items of [t], with [self] as its operand. *)
Theorem reflected_methods_swap_operands (self ys : list value) :
  List.length self = List.length ys ->
  Vector.__radd__ self (Val (VTuple ys)) = Vector.__add__ ys (Vec self)
  /\ Vector.__rsub__ self (Val (VTuple ys)) = Vector.__sub__ ys (Vec self)
  /\ Vector.__rsub__ self (Val (VTuple ys))
     = Vector.Vector_of
         (List.map (fun p => py_sub (snd p) (fst p)) (combine self ys)).
Proof.
  intros Hlen.
  unfold Vector.__radd__, Vector.__rsub__, Vector.__add__, Vector.__sub__.
  simpl is_Sequence. cbn [negb].
  rewrite !(@binary_on_vector _ ys self Hlen).
  rewrite !(@check_compatibility_spec self (Val (VTuple ys)) ys eq_refl).
  rewrite Hlen, Nat.eqb_refl. cbn [bind].
  unfold Vector.zip_other, zip. cbn [iter_object tuple_of sized_items bind].
  rewrite (map_combine_swap py_add self ys), (map_combine_swap py_sub self ys).
  repeat split; reflexivity.
Qed.

(** [(5, 7) - Vector(1, 2)] is [Vector(4, 5)]. *)
Lemma reflected_subtraction_example :
  Vector.__rsub__ [VInt 1; VInt 2] (Val (VTuple [VInt 5; VInt 7]))
  = Ok (Vec [VInt 4; VInt 5]).
Proof.
  rewrite (proj1 (proj2 (@reflected_methods_swap_operands
                           [VInt 1; VInt 2] [VInt 5; VInt 7] eq_refl))).
  reflexivity.
Defined.

(** *** map *)

(** X20.  [map(f)] applies [f] to the elements in order and stops at the
    first exception, which it lets through; when [f] never raises, the result
    is the vector of the images, and mapping [g] after [f] is mapping their
    composition. *)
Theorem map_in_order (self : Vector.vector) (f : value -> result value) :
  (forall pre v rest e,
     self = pre ++ v :: rest ->
     Forall (fun u => is_ok (f u) = true) pre -> f v = Raise e ->
     Vector.map self f = Raise e)
  /\ (forall g : value -> value,
        Vector.map self (fun v => Ok (g v)) = Ok (Vec (List.map g self)))
  /\ (forall g h : value -> value,
        then_vector (Vector.map self (fun v => Ok (g v)))
          (fun r => Vector.map r (fun v => Ok (h v)))
        = Vector.map self (fun v => Ok (h (g v)))).
Proof.
  assert (M : forall xs (g : value -> value),
            Vector.map xs (fun v => Ok (g v)) = Ok (Vec (List.map g xs))).
  { intros xs g. unfold Vector.map. rewrite Vector_of_spec.
    assert (E : sequence (List.map (fun v => Ok (g v)) xs)
                = Ok (List.map g xs)).
    { induction xs as [|x xs IH]; simpl; [reflexivity | now rewrite IH]. }
    now rewrite E. }
  split; [|split].
  - intros pre v rest e -> Hpre Hv. unfold Vector.map.
    rewrite Vector_of_spec.
    assert (E : sequence (List.map f (pre ++ v :: rest)) = Raise e).
    { induction Hpre as [|u pre Hu _ IH]; simpl.
      - now rewrite Hv.
      - destruct (f u); [|discriminate]. now rewrite IH. }
    now rewrite E.
  - apply M.
  - intros g h. unfold then_vector. rewrite !M. cbn [bind].
    rewrite M. now rewrite map_map.
Qed.

(** Taking [abs] of the elements of [Vector(1, None, 3)] raises the
    TypeError of the second element. *)
Lemma map_example :
  Vector.map [VInt 1; VNone; VInt 3] py_abs = Raise TypeError.
Proof.
  refine (proj1 (map_in_order [VInt 1; VNone; VInt 3] py_abs)
            [VInt 1] VNone [VInt 3] TypeError eq_refl _ eq_refl).
  repeat constructor.
Defined.

(** *** Rendering *)

Lemma map_VInt_injective (zs zs' : list Z) :
  List.map VInt zs = List.map VInt zs' -> zs = zs'.
Proof.
  revert zs'. induction zs as [|z zs IH]; intros [|z' zs'] H;
    try discriminate; [reflexivity|].
  simpl in H. inversion H. f_equal. now apply IH.
Qed.

(** X21.  Every vector of ints has a rendering, and two vectors of ints with
    the same rendering are the same vector. *)
Theorem rendering_is_injective (zs zs' : list Z) :
  (exists t, Vector.__repr__ (List.map VInt zs) = Some t)
  /\ (Vector.__repr__ (List.map VInt zs) = Vector.__repr__ (List.map VInt zs')
      -> zs = zs').
Proof.
  split; [rewrite repr_of_ints; eauto|].
  rewrite !repr_of_ints. intros H. apply map_VInt_injective.
  assert (E : Reader.eval (rendering zs) = Reader.eval (rendering zs'))
    by congruence.
  rewrite !eval_rendering in E. congruence.
Qed.

(** The rendering of [Vector(1, 2)] is the rendering of no other vector. *)
Lemma rendering_is_injective_example :
  Vector.__repr__ [VInt 1; VInt 2] = Some "Vector(1, 2)"%string
  /\ [1; 2]%Z = [1; 2]%Z.
Proof.
  split; [reflexivity|].
  exact (proj2 (rendering_is_injective [1; 2]%Z [1; 2]%Z) eq_refl).
Defined.

(** *** Division *)

Lemma truediv_by_int_zero (v : value) :
  is_num v = true ->
  py_truediv v (VInt 0) = Raise ZeroDivisionError
  /\ py_floordiv v (VInt 0) = Raise ZeroDivisionError.
Proof.
  destruct v as [|z|q|f| | | |]; try discriminate; intros _;
    split; reflexivity.
Qed.

(** X22.  Dividing a vector whose first element is a number by the int 0
    raises ZeroDivisionError, with [/] and with [//]; the empty vector has no
    element to divide and is returned. *)
Theorem division_by_zero_scalar (v0 : value) (rest : Vector.vector) :
  is_num v0 = true ->
  Vector.__truediv__ (v0 :: rest) (VInt 0) = Raise ZeroDivisionError
  /\ Vector.__div__ (v0 :: rest) (VInt 0) = Raise ZeroDivisionError
  /\ Vector.__floordiv__ (v0 :: rest) (VInt 0) = Raise ZeroDivisionError
  /\ Vector.__truediv__ [] (VInt 0) = Ok (Vec []).
Proof.
  intros H. destruct (truediv_by_int_zero v0 H) as [T F].
  unfold Vector.__truediv__, Vector.__div__, Vector.__floordiv__.
  rewrite !Vector_of_spec. cbn [List.map sequence].
  rewrite T, F. repeat split.
Qed.

(** [Vector(0.5, 2) / 0] raises ZeroDivisionError. *)
Lemma division_by_zero_example :
  Vector.__truediv__ [VFloat fhalf; VInt 2] (VInt 0)
  = Raise ZeroDivisionError.
Proof.
  exact (proj1 (@division_by_zero_scalar (VFloat fhalf) [VInt 2] eq_refl)).
Defined.

Lemma sequence_truediv_fracs (n : Z) :
  n <> 0%Z ->
  forall qs,
    sequence (List.map (fun v => py_truediv v (VInt n)) (List.map VFrac qs))
    = Ok (List.map VFrac
            (List.map (fun q => Qred (q / inject_Z n)) qs)).
Proof.
  intros Hn. induction qs as [|q qs IH]; simpl; [reflexivity|].
  rewrite IH. cbv [py_truediv as_num num_truediv tower].
  change (Qnum (inject_Z n)) with n.
  apply Z.eqb_neq in Hn. rewrite Hn. reflexivity.
Qed.

Lemma sequence_truediv_ints (n : Z) :
  forall zs xs,
    sequence (List.map (fun v => py_truediv v (VInt n)) (List.map VInt zs))
    = Ok xs ->
    Forall (fun x => is_float x = true) xs
    /\ List.length xs = List.length zs.
Proof.
  induction zs as [|z zs IH]; simpl; intros xs H.
  - apply ok_inj in H. subst. split; [constructor | reflexivity].
  - change (py_truediv (VInt z) (VInt n))
      with (f <- int_truediv z n ;; Ok (VFloat f)) in H.
    destruct (int_truediv z n) as [f|e]; [|discriminate].
    cbn [bind] in H. apply bind_inv in H as (ys & Hys & H).
    apply ok_inj in H. subst xs. destruct (IH _ Hys) as (F & L).
    split; [constructor; [reflexivity | exact F] | simpl; now rewrite L].
Qed.

(** X23.  [/] is true division, for [__div__] as for [__truediv__]: a vector
    of ints divided by an int gives floats when it returns, while a vector
    of Fractions divided by an int other than 0 stays exact, each element
    being the quotient in lowest terms. *)
Theorem division_element_types (n : Z) :
  (forall self s, Vector.__div__ self s = Vector.__truediv__ self s)
  /\ (forall zs o,
        Vector.__truediv__ (List.map VInt zs) (VInt n) = Ok o ->
        exists xs, o = Vec xs /\ List.length xs = List.length zs
                   /\ Forall (fun x => is_float x = true) xs)
  /\ (n <> 0%Z ->
      forall qs,
        Vector.__truediv__ (List.map VFrac qs) (VInt n)
        = Ok (Vec (List.map VFrac
                     (List.map (fun q => Qred (q / inject_Z n)) qs)))).
Proof.
  split; [reflexivity|]. split.
  - intros zs o H. unfold Vector.__truediv__ in H.
    rewrite Vector_of_spec in H.
    apply bind_inv in H as (xs & Hxs & H). apply ok_inj in H. subst o.
    destruct (sequence_truediv_ints _ _ Hxs) as (F & L).
    exists xs. auto.
  - intros Hn qs. unfold Vector.__truediv__. rewrite Vector_of_spec.
    now rewrite sequence_truediv_fracs.
Qed.

(** [Vector(1, 2) / 2] is [Vector(0.5, 1.0)], and
    [Vector(Fraction(1, 2), Fraction(1, 3)) / 2] is
    [Vector(Fraction(1, 4), Fraction(1, 6))]. *)
Lemma division_element_types_example :
  Vector.__truediv__ [VInt 1; VInt 2] (VInt 2)
  = Ok (Vec [VFloat fhalf; VFloat fone])
  /\ Vector.__truediv__ [VFrac (1 # 2); VFrac (1 # 3)] (VInt 2)
     = Ok (Vec [VFrac (1 # 4); VFrac (1 # 6)]).
Proof.
  split; [reflexivity|].
  refine (proj2 (proj2 (division_element_types 2)) _
            [1 # 2; 1 # 3]).
  lia.
Defined.

(** *** The coordinate properties *)

(** X24.  [x], [y] and [z] return the first, second and third element of a
    vector long enough to have one, and raise IndexError on a shorter
    vector: [z] on every vector of length 2, [x] on the empty vector
    only. *)
Theorem coordinates_bounds (self : Vector.vector) :
  let coordinate (i : nat) (r : result value) :=
    ((i < List.length self)%nat ->
       exists v, r = Ok v /\ nth_error self i = Some v)
    /\ ((List.length self <= i)%nat -> r = Raise IndexError) in
  coordinate 0%nat (Vector.x self)
  /\ coordinate 1%nat (Vector.y self)
  /\ coordinate 2%nat (Vector.z self).
Proof.
  assert (C : forall i,
    ((i < List.length self)%nat ->
       exists v, getitem (Vec self) i = Ok v /\ nth_error self i = Some v)
    /\ ((List.length self <= i)%nat ->
        getitem (Vec self) i = Raise IndexError)).
  { intros i. unfold getitem. cbn [items]. split; intros H.
    - destruct (nth_error self i) as [v|] eqn:E; [eauto|].
      apply nth_error_None in E. lia.
    - apply nth_error_None in H. now rewrite H. }
  cbv zeta. split; [apply C|]. split; apply C.
Qed.

(** On [Vector(1, 2)], [y] is 2 and [z] raises IndexError. *)
Lemma coordinates_example :
  (exists v, Vector.y [VInt 1; VInt 2] = Ok v
             /\ nth_error [VInt 1; VInt 2] 1 = Some v)
  /\ Vector.z [VInt 1; VInt 2] = Raise IndexError.
Proof.
  pose proof (coordinates_bounds [VInt 1; VInt 2]) as (_ & Y & Z).
  split; [apply (proj1 Y) | apply (proj2 Z)]; simpl; lia.
Defined.

(** *** The unsigned angle *)

Lemma angle_to_generic_ints (L : Libm) (xs ys : list Z) :
  List.length xs = List.length ys ->
  Vector.len_is (List.map VInt xs) 2 || Vector.len_is (List.map VInt xs) 3
  = false ->
  Vector.angle_to L (List.map VInt xs) (Vec (List.map VInt ys))
  = (r <- math_sqrt (VInt (sum_squares_int xs * sum_squares_int ys)) ;;
     q <- py_truediv (VInt (dot_int xs ys)) r ;;
     math_acos L q).
Proof.
  intros H Hlen. rewrite (angle_to_generic L _ _ Hlen).
  rewrite (@dot_ints xs ys (Vec (List.map VInt ys)) H eq_refl).
  cbn [bind]. unfold squared_magnitudes_product.
  rewrite magnitude_squared_spec, sum_results_int. cbn [bind iter_object].
  rewrite py_sum_genexpr, sum_results_int. reflexivity.
Qed.

(** X25.  On vectors of ints of one length, [angle_to] is symmetric: the
    angle from [v] to [w] is the angle from [w] to [v], the same float or
    the same exception, on every length and whatever the C library
    answers. *)
Theorem angle_to_is_symmetric_on_ints (L : Libm) (xs ys : list Z) :
  List.length xs = List.length ys ->
  Vector.angle_to L (List.map VInt xs) (Vec (List.map VInt ys))
  = Vector.angle_to L (List.map VInt ys) (Vec (List.map VInt xs)).
Proof.
  intros H.
  assert (G : Vector.len_is (List.map VInt xs) 2
              || Vector.len_is (List.map VInt xs) 3 = false ->
              Vector.angle_to L (List.map VInt xs) (Vec (List.map VInt ys))
              = Vector.angle_to L (List.map VInt ys)
                  (Vec (List.map VInt xs))).
  { intros Hlen.
    rewrite (angle_to_generic_ints L xs ys H Hlen).
    rewrite (angle_to_generic_ints L ys xs (eq_sym H)).
    - unfold dot_int. now rewrite Z.mul_comm, dot_int_fold_comm.
    - unfold Vector.len_is in *. rewrite length_map in *. now rewrite <- H. }
  destruct xs as [|a [|b [|c [|d0 xs]]]];
    destruct ys as [|d [|e [|f [|g ys]]]]; try discriminate;
    try (apply G; reflexivity).
  - transitivity (math_atan2 L (VInt (Z.abs (a * e - b * d)))
                    (VInt (0 + a * d + b * e))); [reflexivity|].
    transitivity (math_atan2 L (VInt (Z.abs (d * b - e * a)))
                    (VInt (0 + d * a + e * b))); [|reflexivity].
    f_equal; f_equal; lia.
  - transitivity
      (m <- math_sqrt
              (VInt (0 + (b * f - c * e) * (b * f - c * e)
                     + (c * d - a * f) * (c * d - a * f)
                     + (a * e - b * d) * (a * e - b * d))) ;;
       math_atan2 L m (VInt (0 + a * d + b * e + c * f)));
      [reflexivity|].
    transitivity
      (m <- math_sqrt
              (VInt (0 + (e * c - f * b) * (e * c - f * b)
                     + (f * a - d * c) * (f * a - d * c)
                     + (d * b - e * a) * (d * b - e * a))) ;;
       math_atan2 L m (VInt (0 + d * a + e * b + f * c)));
      [|reflexivity].
    f_equal.
    + do 2 f_equal. ring.
    + replace (0 + d * a + e * b + f * c)%Z
        with (0 + a * d + b * e + c * f)%Z by ring.
      reflexivity.
Qed.

(** With the stand-in library, the angle between [Vector(1, 0, 0)] and
    [Vector(0, 1, 0)] is the same from either end. *)
Lemma angle_to_symmetric_example :
  Vector.angle_to axis_libm [VInt 1; VInt 0; VInt 0]
    (Vec [VInt 0; VInt 1; VInt 0])
  = Vector.angle_to axis_libm [VInt 0; VInt 1; VInt 0]
      (Vec [VInt 1; VInt 0; VInt 0]).
Proof.
  exact (@angle_to_is_symmetric_on_ints axis_libm [1; 0; 0]%Z [0; 1; 0]%Z
           eq_refl).
Defined.

(** *** Projection of Fractions *)

Lemma fold_products_Qeq (l : list (Q * Q)) :
  forall a b, a == b ->
    fold_left (fun a p => a + fst p * snd p) l a
    == fold_left (fun a p => a + fst p * snd p) l b.
Proof.
  induction l as [|p l IH]; intros a b E; simpl; [exact E|].
  apply IH. now rewrite E.
Qed.

Lemma sum_products_frac (qs : list Q) :
  forall ps a,
    exists r,
      sum_results (VFrac a)
        (List.map (fun p => py_mul (fst p) (snd p))
           (combine (List.map VFrac qs) (List.map VFrac ps)))
      = Ok (VFrac r)
      /\ r == fold_left (fun a p => a + fst p * snd p) (combine qs ps) a.
Proof.
  induction qs as [|q qs IH]; intros [|p ps] a; simpl;
    try (exists a; split; reflexivity).
  destruct (IH ps (Qred (a + Qred (q * p)))) as (r & Hr & Er).
  exists r. split; [exact Hr|].
  rewrite Er. apply fold_products_Qeq. now rewrite !Qred_correct.
Qed.

Lemma dot_fracs (q p : Q) (qs ps : list Q) :
  List.length qs = List.length ps ->
  exists d,
    Vector.dot (List.map VFrac (q :: qs)) (Vec (List.map VFrac (p :: ps)))
    = Ok (VFrac d)
    /\ d == dot_frac (q :: qs) (p :: ps).
Proof.
  intros H.
  rewrite (@dot_spec _ (Vec (List.map VFrac (p :: ps))) _ eq_refl).
  rewrite !length_map. cbn [List.length]. rewrite H, Nat.eqb_refl.
  change (sum_results (VInt 0)
            (List.map (fun p => py_mul (fst p) (snd p))
               (combine (List.map VFrac (q :: qs))
                  (List.map VFrac (p :: ps)))))
    with (sum_results (VFrac (Qred (inject_Z 0 + Qred (q * p))))
            (List.map (fun p => py_mul (fst p) (snd p))
               (combine (List.map VFrac qs) (List.map VFrac ps)))).
  destruct (sum_products_frac qs ps (Qred (inject_Z 0 + Qred (q * p))))
    as (d & Hd & Ed).
  exists d. split; [exact Hd|].
  rewrite Ed. unfold dot_frac. cbn [combine fold_left fst snd].
  apply fold_products_Qeq. rewrite !Qred_correct. reflexivity.
Qed.

Lemma sequence_mul_fracs (k : Q) (qs : list Q) :
  sequence (List.map (fun v => py_mul v (VFrac k)) (List.map VFrac qs))
  = Ok (List.map VFrac (List.map (fun v => Qred (v * k)) qs)).
Proof.
  induction qs as [|q qs IH]; simpl; [reflexivity | now rewrite IH].
Qed.

(** X26.  Projection stays exact on Fractions: onto a non-empty vector of
    Fractions that is not the zero vector, [projected(other)] of a vector of
    Fractions of the same length returns the Fractions [v * k] in lowest
    terms, [k] being the quotient of the dot product by the squared
    magnitude; no float is involved. *)
Theorem projection_stays_exact (q p : Q) (qs ps : list Q) :
  List.length qs = List.length ps ->
  ~ dot_frac (q :: qs) (q :: qs) == 0 ->
  exists k,
    k == dot_frac (q :: qs) (p :: ps) / dot_frac (q :: qs) (q :: qs)
    /\ Vector.projected (List.map VFrac (q :: qs))
         (Vec (List.map VFrac (p :: ps)))
       = Ok (Vec (List.map VFrac
                    (List.map (fun v => Qred (v * k)) (q :: qs)))).
Proof.
  intros H Hnz.
  destruct (dot_fracs q p qs ps H) as (d & Hd & Ed).
  destruct (dot_fracs q q qs qs eq_refl) as (ms & Hms & Ems).
  rewrite (proj1 (dot_with_itself_aux (List.map VFrac (q :: qs)))) in Hms.
  exists (Qred (d / ms)). split.
  - rewrite Qred_correct, Ed, Ems. reflexivity.
  - unfold Vector.projected. rewrite Hd, Hms. cbn [bind].
    assert (Z : (Qnum ms =? 0)%Z = false).
    { apply Z.eqb_neq. intros E. apply Hnz. rewrite <- Ems.
      unfold Qeq. simpl. lia. }
    cbv [py_truediv as_num num_truediv tower]. rewrite Z. cbn [bind].
    unfold Vector.__mul__. rewrite Vector_of_spec.
    now rewrite sequence_mul_fracs.
Qed.

(** Onto [Vector(Fraction(1, 2), Fraction(1, 2))], the projection of
    [Vector(Fraction(1, 1), Fraction(0, 1))] is [Vector(1/2, 1/2)]. *)
Lemma projection_example :
  Vector.projected [VFrac (1 # 2); VFrac (1 # 2)]
    (Vec [VFrac 1; VFrac 0])
  = Ok (Vec [VFrac (1 # 2); VFrac (1 # 2)]).
Proof.
  destruct (@projection_stays_exact (1 # 2) 1 [1 # 2] [0] eq_refl)
    as (k & _ & E).
  - vm_compute. discriminate.
  - reflexivity.
Defined.
